(** * Integration smoke harness of alert-center: a shallow embedding

    The development follows [scripts/integration_smoke_slow.py] and
    [scripts/integration_smoke_fast.py].  Python values decoded from JSON
    are an inductive type, exceptions are a result type, and the scripts'
    closures over [created], [results], [_State] and the wall clock become
    functions in a state-and-exception monad.  Everything outside the
    scripts (the platform behind the REST API, the requests that reach the
    stub servers, the random names, the WebSocket peer) is an oracle that
    the theorems quantify over. *)

From Stdlib Require Import Ascii.
From stdpp Require Import base numbers strings list gmap pretty.

Set Warnings "-register-all".
#[local] Open Scope string_scope.
#[local] Open Scope Z_scope.
#[local] Open Scope list_scope.

(** ** Python values *)

(** A Python [str] is kept as the bytes of its UTF-8 encoding, one
    character of the [string] for each byte: the file of the capture is
    written and read in UTF-8, and a search or a comparison on such bytes
    answers as it does on the text. *)

(** A Python [float]: not a number, an infinity, or
    [(-1)^negative * m * 2^e]. *)
Inductive pyfloat :=
| FNaN
| FInf (negative : bool)
| FFinite (negative : bool) (m : N) (e : Z).

(** What [json.loads] produces, and [None].  Objects keep their items as an
    association list; a lookup takes the first binding of a key. *)
Inductive value :=
| PNone
| PBool (b : bool)
| PInt (z : Z)
| PFloat (f : pyfloat)
| PStr (s : string)
| PList (l : list value)
| PDict (d : list (string * value)).

(** Python's truth test, as in [if groups:] or [if created["rule_id"]:]. *)
Definition truthy (v : value) : bool :=
  match v with
  | PNone => false
  | PBool b => b
  | PInt z => negb (z =? 0)
  | PFloat (FFinite _ m _) => negb (m =? 0)%N
  | PFloat _ => true
  | PStr s => negb (String.eqb s EmptyString)
  | PList l => match l with [] => false | _ => true end
  | PDict d => match d with [] => false | _ => true end
  end.

Fixpoint assoc (k : string) (d : list (string * value)) : option value :=
  match d with
  | [] => None
  | (k', v) :: d' => if String.eqb k k' then Some v else assoc k d'
  end.

(** The numbers among the values.  Python compares them by their exact
    value, whatever their types: [True == 1], [42.0 == 42]. *)
Inductive number :=
| Dyadic (m e : Z)              (* [m * 2^e] *)
| Infinite (negative : bool)
| NotANumber.

Definition number_of (v : value) : option number :=
  match v with
  | PBool b => Some (Dyadic (if b then 1 else 0) 0)
  | PInt z => Some (Dyadic z 0)
  | PFloat FNaN => Some NotANumber
  | PFloat (FInf s) => Some (Infinite s)
  | PFloat (FFinite s m e) => Some (Dyadic (if s then - Z.of_N m else Z.of_N m) e)
  | _ => None
  end.

(** [same] tells whether two objects that are not numbers count as equal:
    see [rich_eqb]. *)
Definition number_eqb (same : bool) (x y : number) : bool :=
  match x, y with
  | Dyadic m1 e1, Dyadic m2 e2 =>
      let e := Z.min e1 e2 in
      m1 * 2 ^ (e1 - e) =? m2 * 2 ^ (e2 - e)
  | Infinite s1, Infinite s2 => Bool.eqb s1 s2
  | NotANumber, NotANumber => same
  | _, _ => false
  end.

(** Python's equality on these values.  Lists are equal when they have
    the same length and equal items; dicts, when they have the same keys
    and equal values under each key, in whatever order.  The items of a
    list and the values of a dict are compared by
    [PyObject_RichCompareBool], for which an object equals itself: with
    [inside] set, [nan] equals [nan], because [json.loads] gives the same
    object for every [NaN] it reads.  The operator [==] itself has
    [inside] unset. *)
Fixpoint rich_eqb (inside : bool) (a b : value) {struct a} : bool :=
  match number_of a, number_of b with
  | Some x, Some y => number_eqb inside x y
  | None, None =>
      match a, b with
      | PNone, PNone => true
      | PStr x, PStr y => String.eqb x y
      | PList x, PList y =>
          (fix go (l1 l2 : list value) : bool :=
             match l1, l2 with
             | [], [] => true
             | h1 :: t1, h2 :: t2 => rich_eqb true h1 h2 && go t1 t2
             | _, _ => false
             end) x y
      | PDict x, PDict y =>
          (fix go (l : list (string * value)) (seen : list string) : bool :=
             match l with
             | [] => true
             | (k, v) :: t =>
                 (if existsb (String.eqb k) seen then true
                  else match assoc k y with
                       | Some w => rich_eqb true v w
                       | None => false
                       end)
                 && go t (k :: seen)
             end) x []
          && forallb (fun kw => match assoc (fst kw) x with
                                | Some _ => true
                                | None => false
                                end) y
      | _, _ => false
      end
  | _, _ => false
  end.

(** Python's [==] on these values. *)
Definition value_eqb (a b : value) : bool := rich_eqb false a b.

(** ** Exceptions and results *)

(** [except Exception] matches the first constructor only: [SystemExit]
    and [KeyboardInterrupt] derive from [BaseException] directly. *)
Inductive exn :=
| Exception (cls : string) (msg : string)   (* an instance of [cls]; [str(e) = msg] *)
| SystemExit (code : Z)
| KeyboardInterrupt.

Definition is_Exception (e : exn) : bool :=
  match e with Exception _ _ => true | _ => false end.

Definition RuntimeError (msg : string) : exn := Exception "RuntimeError" msg.

(** The outcome of running a piece of the script: it returns, it raises, or
    the loop budget handed to [wait_for] ran out before it did either. *)
Inductive res (A : Type) :=
| Ret (a : A)
| Raise (e : exn)
| OutOfFuel.
Arguments Ret {A} a.
Arguments Raise {A} e.
Arguments OutOfFuel {A}.

(** The exit status of a process whose [main()] ended this way. *)
Definition exit_status {A} (r : res A) : option Z :=
  match r with
  | Ret _ => Some 0
  | Raise (SystemExit code) => Some code
  | Raise (Exception _ _) => Some 1
  | Raise KeyboardInterrupt => Some 130
  | OutOfFuel => None
  end.

(** The double quote character, for the messages that contain it. *)
Definition dq : string := String (ascii_of_nat 34) EmptyString.
Definition sq : string := "'".

(** [v[k]] with a string key. *)
Definition subscript (v : value) (k : string) : res value :=
  match v with
  | PDict d =>
      match assoc k d with
      | Some x => Ret x
      | None => Raise (Exception "KeyError" (sq +:+ k +:+ sq))
      end
  | PList _ => Raise (Exception "TypeError" "list indices must be integers or slices, not str")
  | PStr _ => Raise (Exception "TypeError" "string indices must be integers, not 'str'")
  | PNone => Raise (Exception "TypeError" "'NoneType' object is not subscriptable")
  | PBool _ => Raise (Exception "TypeError" "'bool' object is not subscriptable")
  | PInt _ => Raise (Exception "TypeError" "'int' object is not subscriptable")
  | PFloat _ => Raise (Exception "TypeError" "'float' object is not subscriptable")
  end.

(** [v[0]], reached only with a truthy [v] ([groups[0]]). *)
Definition subscript0 (v : value) : res value :=
  match v with
  | PList (x :: _) => Ret x
  | PList [] => Raise (Exception "IndexError" "list index out of range")
  | PStr (String c _) => Ret (PStr (String c EmptyString))
  | PStr EmptyString => Raise (Exception "IndexError" "string index out of range")
  | PDict _ => Raise (Exception "KeyError" "0")
  | PNone => Raise (Exception "TypeError" "'NoneType' object is not subscriptable")
  | PBool _ => Raise (Exception "TypeError" "'bool' object is not subscriptable")
  | PInt _ => Raise (Exception "TypeError" "'int' object is not subscriptable")
  | PFloat _ => Raise (Exception "TypeError" "'float' object is not subscriptable")
  end.

(** [v.get(k)]: only dicts have the method. *)
Definition dict_get (v : value) (k : string) : res value :=
  match v with
  | PDict d => Ret (default PNone (assoc k d))
  | _ => Raise (Exception "AttributeError" "object has no attribute 'get'")
  end.

(** [for row in v]: lists give their elements, dicts their keys, strings
    their characters; the rest is not iterable. *)
Definition iterate (v : value) : res (list value) :=
  match v with
  | PList l => Ret l
  | PDict d => Ret (map (fun kv => PStr (fst kv)) d)
  | PStr s => Ret (map (fun c => PStr (String c EmptyString)) (String.list_ascii_of_string s))
  | _ => Raise (Exception "TypeError" "object is not iterable")
  end.

(** ** The state-and-exception monad *)

(** A Python mutation made before an exception is raised stays made, so the
    state is returned on both outcomes. *)
Definition M (S A : Type) : Type := S -> res A * S.

Definition ret {S A} (a : A) : M S A := fun s => (Ret a, s).
Definition raise {S A} (e : exn) : M S A := fun s => (Raise e, s).
Definition bind {S A B} (m : M S A) (k : A -> M S B) : M S B :=
  fun s => match m s with
           | (Ret a, s') => k a s'
           | (Raise e, s') => (Raise e, s')
           | (OutOfFuel, s') => (OutOfFuel, s')
           end.
Definition lift {S A} (r : res A) : M S A := fun s => (r, s).

(** [sys.exit(code)] *)
Definition sys_exit {S} (code : Z) : M S unit := raise (SystemExit code).
Definition gets {S A} (f : S -> A) : M S A := fun s => (Ret (f s), s).
Definition modify {S} (f : S -> S) : M S unit := fun s => (Ret tt, f s).

(** [try: body / except Exception as e: handler(e)] *)
Definition try_except {S A} (body : M S A) (handler : exn -> M S A) : M S A :=
  fun s => match body s with
           | (Ret a, s') => (Ret a, s')
           | (Raise e, s') => if is_Exception e then handler e s' else (Raise e, s')
           | (OutOfFuel, s') => (OutOfFuel, s')
           end.

(** [try: body / finally: fin].  An exception of [fin] replaces the one
    in flight. *)
Definition try_finally {S A} (body : M S A) (fin : M S unit) : M S A :=
  fun s => match body s with
           | (OutOfFuel, s') => (OutOfFuel, s')
           | (r, s') => match fin s' with
                        | (Ret _, s'') => (r, s'')
                        | (Raise e, s'') => (Raise e, s'')
                        | (OutOfFuel, s'') => (OutOfFuel, s'')
                        end
           end.

Declare Scope py_scope.
Delimit Scope py_scope with py.
Notation "'let!' x ':=' m 'in' k" := (bind m (fun x => k))
  (at level 10, x name, m at level 100, k at level 200) : py_scope.
Notation "m '>>' k" := (bind m (fun _ => k))
  (at level 100, k at level 200, right associativity) : py_scope.
#[local] Open Scope py_scope.

(** ** Strings *)

(** [needle in hay] *)
Fixpoint contains (needle hay : string) : bool :=
  String.prefix needle hay
  || match hay with
     | EmptyString => false
     | String _ rest => contains needle rest
     end.

(** The characters that [str.strip] removes, by the bytes of their UTF-8
    encoding: U+0009 to U+000D, U+001C to U+0020; U+0085 and U+00A0;
    U+1680, U+2000 to U+200A, U+2028, U+2029, U+202F, U+205F and
    U+3000. *)
Definition space1 (b : nat) : bool :=
  (((9 <=? b) && (b <=? 13)) || ((28 <=? b) && (b <=? 32)))%nat.

Definition space2 (b1 b2 : nat) : bool :=
  ((b1 =? 194) && ((b2 =? 133) || (b2 =? 160)))%nat.

Definition space3 (b1 b2 b3 : nat) : bool :=
  (((b1 =? 225) && (b2 =? 154) && (b3 =? 128))
   || ((b1 =? 226) && (b2 =? 128)
       && (((128 <=? b3) && (b3 <=? 138)) || (b3 =? 168) || (b3 =? 169) || (b3 =? 175)))
   || ((b1 =? 226) && (b2 =? 129) && (b3 =? 159))
   || ((b1 =? 227) && (b2 =? 128) && (b3 =? 128)))%nat.

(** Drop the white space at the head of a string; with [backwards] the
    string is read from its end, so that the bytes of a character come
    last byte first. *)
Fixpoint drop_spaces (backwards : bool) (s : string) : string :=
  match s with
  | EmptyString => EmptyString
  | String c1 r1 =>
      let b1 := nat_of_ascii c1 in
      if space1 b1 then drop_spaces backwards r1
      else
        match r1 with
        | EmptyString => s
        | String c2 r2 =>
            let b2 := nat_of_ascii c2 in
            if (if backwards then space2 b2 b1 else space2 b1 b2)
            then drop_spaces backwards r2
            else
              match r2 with
              | EmptyString => s
              | String c3 r3 =>
                  let b3 := nat_of_ascii c3 in
                  if (if backwards then space3 b3 b2 b1 else space3 b1 b2 b3)
                  then drop_spaces backwards r3
                  else s
              end
        end
  end.

Fixpoint reversed (s acc : string) : string :=
  match s with
  | EmptyString => acc
  | String c rest => reversed rest (String c acc)
  end.

Definition lstrip (s : string) : string := drop_spaces false s.

Definition rstrip (s : string) : string :=
  reversed (drop_spaces true (reversed s EmptyString)) EmptyString.

(** [s.strip()] *)
Definition strip (s : string) : string := rstrip (lstrip s).

(** [sep.join(l)] *)
Fixpoint join (sep : string) (l : list string) : string :=
  match l with
  | [] => EmptyString
  | [x] => x
  | x :: rest => x +:+ sep +:+ join sep rest
  end.

Definition newline : string := String (ascii_of_nat 10) EmptyString.

(** ** The outside world *)

Record request := {
  req_method : string;
  req_url : string;
  req_body : option value;                 (* the value handed to [json.dumps] *)
  req_headers : list (string * string);
}.

(** What [urlopen] and the decoding of its answer come to. *)
Inductive reply :=
| Body (v : value)                    (* a 2xx answer whose body [json.loads] reads as [v] *)
| HTTPError (code : Z) (raw : string) (* [error.HTTPError] with its decoded body *)
| Failed (cls msg : string).          (* another exception out of [urlopen], [read],
                                         [decode] or [json.loads]: URLError, timeout,
                                         JSONDecodeError; all derive from Exception *)

(** A request that reaches one of the stub servers. *)
Inductive stub_request :=
| PromGET (path : string)
| WebhookPOST (path : string) (content_length : option string) (rfile : list Byte.byte).

Inductive payload :=
| Json (v : value)      (* [json.dumps(v).encode("utf-8")] *)
| Bytes (s : string).   (* a bytes literal *)

Record stub_response := {
  status : Z;
  headers : list (string * string);
  wfile : option payload;
}.

Inductive event :=
| EStartServer (port : Z)
| EShutdown (port : Z)
| EHttp (req : request) (rep : reply)
| ESleep (secs : Z)
| EPopenNode (expected_count timeout_ms : Z)
| EProcWait (timeout : Z)
| EUnlink (path : string)
| EPrint (line : string).

(** What a WebSocket object dispatches. *)
Inductive ws_event :=
| WsOpen
| WsMessage (data : string)
| WsError
| WsClose.

(** What the node process of [capture_ws_messages] meets: no WebSocket
    implementation at all, or a socket that dispatches events, each at an
    offset in milliseconds from the start of the process.  [crashed] is the
    offset at which the process dies of an error nothing handles, if it
    does (the [ws] package throws on an unhandled error event, the built-in
    WebSocket does not). *)
Inductive ws_world :=
| NoWebSocket                 (* no [global.WebSocket] and [require('ws')] throws *)
| Socket (arrivals : list (Z * ws_event)) (crashed : option Z).

(** Everything the scripts take from outside.  Oracles see the events so
    far, so an answer may depend on earlier requests and on elapsed time. *)
Record env := {
  platform : list event -> request -> reply;
  incoming : list event -> list stub_request;  (* stub requests served after the last event *)
  bind_ok : Z -> bool;                          (* [HTTPServer((host, port), ...)] binds *)
  node_ok : bool;                               (* [Popen(["node", ...])] starts *)
  ws : ws_world;
  tmp_path : string;                            (* [NamedTemporaryFile(...).name] *)
  uuid_hex6 : nat -> string;                    (* the n-th [uuid.uuid4().hex[:6]] *)
  py_str : value -> string;                     (* [str(v)], as f-strings apply it *)
  py_int : string -> option Z;                  (* [int(s)]; [None] for ValueError *)
  utf8_decode : list Byte.byte -> option string;(* [b.decode("utf-8")] *)
  iso_utc : Z -> string;   (* [time.strftime("%Y-%m-%dT%H:%M:%SZ", time.gmtime(t))] *)
  url_quote : string -> string;                 (* [parse.quote] with no safe characters *)
}.

(** * integration_smoke_slow.py *)
Module Slow.

Definition API_BASE : string := "http://localhost:8080/api/v1".
Definition PROM_STUB_PORT : Z := 18081.
Definition WEBHOOK_STUB_PORT : Z := 18082.
Definition PROM_STUB_URL : string := "http://host.docker.internal:18081".
Definition WEBHOOK_URL : string := "http://host.docker.internal:18082/hook".

(** [class _State]: the two class attributes shared by the stub handlers
    and [main]. *)
Record _State := {
  firing : bool;
  webhook_hits : list value;
}.

Definition _State_init : _State := {| firing := true; webhook_hits := [] |}.

(** [_State.firing = b] *)
Definition set_firing (b : bool) (st : _State) : _State :=
  {| firing := b; webhook_hits := webhook_hits st |}.

Definition outcome : Type := string * string * option string.

(** The clock counts seconds.  Only [time.sleep] and [proc.wait] move it:
    every other step of the script is taken as instantaneous. *)
Record state := {
  clock : Z;
  trace : list event;                          (* oldest first *)
  stub : _State;
  created : gmap string value;
  results : list outcome;
  alert_history_entry : list (string * value);
  uuids : nat;                                 (* [uuid.uuid4()] calls so far *)
}.

Definition set_clock (f : Z -> Z) (s : state) : state :=
  {| clock := f (clock s); trace := trace s; stub := stub s; created := created s;
     results := results s; alert_history_entry := alert_history_entry s; uuids := uuids s |}.
Definition set_trace (f : list event -> list event) (s : state) : state :=
  {| clock := clock s; trace := f (trace s); stub := stub s; created := created s;
     results := results s; alert_history_entry := alert_history_entry s; uuids := uuids s |}.
Definition set_stub (f : _State -> _State) (s : state) : state :=
  {| clock := clock s; trace := trace s; stub := f (stub s); created := created s;
     results := results s; alert_history_entry := alert_history_entry s; uuids := uuids s |}.
Definition set_created (f : gmap string value -> gmap string value) (s : state) : state :=
  {| clock := clock s; trace := trace s; stub := stub s; created := f (created s);
     results := results s; alert_history_entry := alert_history_entry s; uuids := uuids s |}.
Definition set_results (f : list outcome -> list outcome) (s : state) : state :=
  {| clock := clock s; trace := trace s; stub := stub s; created := created s;
     results := f (results s); alert_history_entry := alert_history_entry s; uuids := uuids s |}.
Definition set_alert_history_entry
    (f : list (string * value) -> list (string * value)) (s : state) : state :=
  {| clock := clock s; trace := trace s; stub := stub s; created := created s;
     results := results s; alert_history_entry := f (alert_history_entry s); uuids := uuids s |}.
Definition set_uuids (f : nat -> nat) (s : state) : state :=
  {| clock := clock s; trace := trace s; stub := stub s; created := created s;
     results := results s; alert_history_entry := alert_history_entry s; uuids := f (uuids s) |}.

Section WithEnv.
Context (E : env).

(** *** The stub handlers *)

Definition json_headers : list (string * string) := [("Content-Type", "application/json")].

(** [PromStubHandler._handle_query] *)
Definition _handle_query (now : Z) (st : _State) : stub_response :=
  let result :=
    if firing st then
      [PDict [("metric", PDict [("__name__", PStr "up"); ("instance", PStr "stub")]);
              ("value", PList [PInt now; PStr "1"])]]
    else [] in
  let body :=
    PDict [("status", PStr "success");
           ("data", PDict [("resultType", PStr "vector"); ("result", PList result)])] in
  {| status := 200; headers := json_headers; wfile := Some (Json body) |}.

(** [PromStubHandler.do_GET] *)
Definition do_GET (now : Z) (path : string) (st : _State) : stub_response :=
  if String.prefix "/api/v1/query" path then _handle_query now st
  else {| status := 404; headers := []; wfile := None |}.

Definition ok_true : string := "{" +:+ dq +:+ "ok" +:+ dq +:+ ":true}".

(** [WebhookStubHandler.do_POST].  [None] for the response when [int] or
    [decode] raises: the handler ends there, before the append. *)
Definition do_POST (path : string) (content_length : option string)
    (rfile : list Byte.byte) (st : _State) : option stub_response * _State :=
  match py_int E (default "0" content_length) with
  | None => (None, st)
  | Some length =>
      let raw := if 0 <? length then take (Z.to_nat length) rfile else [] in
      match utf8_decode E raw with
      | None => (None, st)
      | Some text =>
          (Some {| status := 200; headers := json_headers; wfile := Some (Bytes ok_true) |},
           {| firing := firing st;
              webhook_hits := webhook_hits st ++ [PDict [("path", PStr path); ("body", PStr text)]] |})
      end
  end.

(** One request served by the stub servers. *)
Definition serve (now : Z) (r : stub_request) (st : _State) : option stub_response * _State :=
  match r with
  | PromGET path => (Some (do_GET now path st), st)
  | WebhookPOST path cl rfile => do_POST path cl rfile st
  end.

(** A server serves from [start_server] to [shutdown]. *)
Definition is_up (port : Z) (tr : list event) : bool :=
  foldl (fun up e =>
           match e with
           | EStartServer p => if p =? port then true else up
           | EShutdown p => if p =? port then false else up
           | _ => up
           end) false tr.

Definition port_of (r : stub_request) : Z :=
  match r with
  | PromGET _ => PROM_STUB_PORT
  | WebhookPOST _ _ _ => WEBHOOK_STUB_PORT
  end.

Definition serve_all (now : Z) (tr : list event) (rs : list stub_request) (st : _State) : _State :=
  foldl (fun st r => if is_up (port_of r) tr then snd (serve now r st) else st) st rs.

(** *** Steps of the main thread *)

(** Record an event of the main thread, then let the stub servers serve
    what reached them meanwhile. *)
Definition emit (e : event) : M state unit :=
  modify (fun s =>
    let tr := trace s ++ [e] in
    set_stub (serve_all (clock s) tr (incoming E tr)) (set_trace (fun _ => tr) s)).

Definition time_time : M state Z := gets clock.

Definition time_sleep (secs : Z) : M state unit :=
  if secs <? 0 then raise (Exception "ValueError" "sleep length must be non-negative")
  else modify (set_clock (fun t => t + secs)) >> emit (ESleep secs).

Definition uuid6 : M state string :=
  let! n := gets uuids in
  modify (set_uuids S) >> ret (uuid_hex6 E n).

Definition start_server (port : Z) : M state Z :=
  if bind_ok E port then emit (EStartServer port) >> ret port
  else raise (Exception "OSError" "Address already in use").

Definition shutdown (server : Z) : M state unit := emit (EShutdown server).

Definition http (method path : string) (data : option value)
    (headers : list (string * string)) : M state value :=
  let req := {| req_method := method; req_url := API_BASE +:+ path; req_body := data;
                req_headers := ("Content-Type", "application/json") :: headers |} in
  let! tr := gets trace in
  let rep := platform E tr req in
  emit (EHttp req rep) >>
  match rep with
  | Body v => ret v
  | HTTPError code raw =>
      raise (RuntimeError ("HTTP " +:+ py_str E (PInt code) +:+ ": " +:+ raw))
  | Failed cls msg => raise (Exception cls msg)
  end.

(** [wait_for]'s loop, [fuel] bounding the number of loop tests. *)
Fixpoint wait_loop (fuel : nat) (predicate : M state bool) (deadline step_s : Z)
    (label : string) : M state bool :=
  match fuel with
  | O => lift OutOfFuel
  | S fuel' =>
      let! now := time_time in
      if now <? deadline then
        let! hit := predicate in
        if hit : bool then ret true
        else time_sleep step_s >> wait_loop fuel' predicate deadline step_s label
      else raise (RuntimeError ("timeout waiting for " +:+ label))
  end.

Definition wait_for (fuel : nat) (predicate : M state bool) (timeout_s step_s : Z)
    (label : string) : M state bool :=
  let! t0 := time_time in
  wait_loop fuel predicate (t0 + timeout_s) step_s label.

(** *** The push-notification capture *)

(** How the node process of [capture_ws_messages] ends: when (milliseconds
    after its start), with which exit code, and what it wrote to the
    temporary file, if it wrote. *)
Record node_run := {
  exit_ms : Z;
  exit_code : Z;
  written : option string;
}.

(** The timer of [setTimeout] fires, unless the process died before. *)
Definition on_timer (timeout_ms : Z) (crashed : option Z) (msgs : list string) : node_run :=
  let fired := {| exit_ms := timeout_ms; exit_code := 0;
                  written := Some (join newline msgs) |} in
  match crashed with
  | Some c => if c <? timeout_ms then {| exit_ms := c; exit_code := 1; written := None |}
              else fired
  | None => fired
  end.

Definition due (timeout_ms : Z) (crashed : option Z) : Z :=
  match crashed with Some c => Z.min c timeout_ms | None => timeout_ms end.

(** The event loop of the script.  Only [onmessage] is installed: every
    other event of the socket finds no handler.  It runs until the count is
    reached or the timer (or the crash) comes first. *)
Fixpoint pump (expected_count timeout_ms : Z) (crashed : option Z) (msgs : list string)
    (arrivals : list (Z * ws_event)) : node_run :=
  match arrivals with
  | [] => on_timer timeout_ms crashed msgs
  | (t, ev) :: rest =>
      if due timeout_ms crashed <=? t then on_timer timeout_ms crashed msgs
      else
        match ev with
        | WsMessage data =>
            let msgs' := msgs ++ [data] in
            if expected_count <=? Z.of_nat (length msgs') then
              {| exit_ms := t; exit_code := 0; written := Some (join newline msgs') |}
            else pump expected_count timeout_ms crashed msgs' rest
        | _ => pump expected_count timeout_ms crashed msgs rest
        end
  end.

(** The script of [capture_ws_messages], run in world [w]. *)
Definition node_script (w : ws_world) (expected_count timeout_ms : Z) : node_run :=
  match w with
  | NoWebSocket => {| exit_ms := 0; exit_code := 1; written := Some "NO_WEBSOCKET" |}
  | Socket arrivals crashed => pump expected_count timeout_ms crashed [] arrivals
  end.

(** The temporary file once the process has ended: created empty by
    [NamedTemporaryFile], replaced by what the script wrote. *)
Definition transcript (w : ws_world) (expected_count timeout_ms : Z) : string :=
  default EmptyString (written (node_script w expected_count timeout_ms)).

(** A [Popen] handle: when the process was started, and with what. *)
Record popen := {
  started : Z;
  expected : Z;
  timer_ms : Z;
}.

Definition capture_ws_messages (expected_count timeout_s : Z) : M state (popen * string) :=
  if node_ok E then
    let! now := time_time in
    emit (EPopenNode expected_count (timeout_s * 1000)) >>
    ret ({| started := now; expected := expected_count; timer_ms := timeout_s * 1000 |},
         tmp_path E)
  else raise (Exception "FileNotFoundError" "[Errno 2] No such file or directory: 'node'").

(** [proc.wait(timeout=t)] *)
Definition proc_wait (proc : popen) (t : Z) : M state unit :=
  let! now := time_time in
  let ends_ms := started proc * 1000 + exit_ms (node_script (ws E) (expected proc) (timer_ms proc)) in
  if ends_ms <=? now * 1000 then emit (EProcWait t)
  else if ends_ms <=? (now + t) * 1000 then
    modify (set_clock (fun _ => (ends_ms + 999) / 1000)) >> emit (EProcWait t)
  else
    modify (set_clock (fun c => c + t)) >> emit (EProcWait t) >>
    raise (Exception "TimeoutExpired" "Command timed out").

Definition type_alert : string := dq +:+ "type" +:+ dq +:+ ":" +:+ dq +:+ "alert" +:+ dq.
Definition type_ticket : string := dq +:+ "type" +:+ dq +:+ ":" +:+ dq +:+ "ticket" +:+ dq.

(** The assertions of [ws_check] on what it read from the file. *)
Definition ws_assert (content : string) : res unit :=
  if String.eqb content "NO_WEBSOCKET" || String.eqb content EmptyString then
    Raise (RuntimeError "no websocket messages captured")
  else if negb (contains type_alert content) then
    Raise (RuntimeError "missing alert websocket message")
  else if negb (contains type_ticket content) then
    Raise (RuntimeError "missing ticket websocket message")
  else Ret tt.

(** The file is read in text mode, which turns every end of line into a
    line feed; both are white space and neither occurs in what the
    assertions look for, so they answer the same on what was written. *)
Definition ws_check (proc : popen) (path : string) : M state unit :=
  proc_wait proc 130 >>
  let content := strip (transcript (ws E) (expected proc) (timer_ms proc)) in
  emit (EUnlink path) >>
  lift (ws_assert content).

(** *** The closures of [main] *)

Definition created_init : gmap string value :=
  <["rule_id" := PNone]> (<["channel_id" := PNone]> (<["template_id" := PNone]>
  (<["sla_config_id" := PNone]> (<["user_id" := PNone]> (<["escalation_id" := PNone]> ∅))))).

(** [created[key]] *)
Definition created_get (key : string) : M state value :=
  let! c := gets created in
  match c !! key with
  | Some v => ret v
  | None => raise (Exception "KeyError" (sq +:+ key +:+ sq))
  end.

(** [created[key] = v] *)
Definition created_set (key : string) (v : value) : M state unit :=
  modify (set_created (insert key v)).

(** [str(e)] *)
Definition exn_str (e : exn) : string :=
  match e with
  | Exception _ msg => msg
  | SystemExit code => py_str E (PInt code)
  | KeyboardInterrupt => EmptyString
  end.

Definition check {A} (name : string) (fn : M state A) : M state unit :=
  try_except
    (fn >> modify (set_results (fun r => r ++ [(name, "ok", None)])))
    (fun e => modify (set_results (fun r => r ++ [(name, "fail", Some (exn_str e))]))).

(** [try: m / except Exception: pass] *)
Definition swallow {A} (m : M state A) : M state unit :=
  try_except (m >> ret tt) (fun _ => ret tt).

(** [v["data"]["id"]] and the like *)
Definition at2 (v : value) (k1 k2 : string) : M state value :=
  let! d := lift (subscript v k1) in lift (subscript d k2).

Definition bearer (token : value) : list (string * string) :=
  [("Authorization", "Bearer " +:+ py_str E token)].

(** [data or []] *)
Definition or_empty (data : value) : value := if truthy data then data else PList [].

Definition dict_items (row : value) : list (string * value) :=
  match row with PDict d => d | _ => [] end.

Section Closures.
Context (login : value) (admin_headers : list (string * string)) (group_id : value).

Definition create_test_user : M state (value * string) :=
  let! hex := uuid6 in
  let username := "it_user_" +:+ hex in
  let password := "pass1234" in
  let! create := http "POST" "/users" (Some (PDict [
      ("username", PStr username); ("password", PStr password);
      ("email", PStr "it@example.com"); ("role", PStr "user"); ("status", PInt 1)]))
    admin_headers in
  let! id := at2 create "data" "id" in
  created_set "user_id" id >>
  let! user_login := http "POST" "/auth/login"
    (Some (PDict [("username", PStr username); ("password", PStr password)])) [] in
  let! token := at2 user_login "data" "token" in
  ret (token, username).

Definition create_sla_config : M state unit :=
  let! hex := uuid6 in
  let! resp := http "POST" "/sla/configs" (Some (PDict [
      ("name", PStr ("IT-SLA-" +:+ hex)); ("severity", PStr "warning");
      ("response_time_mins", PInt 1); ("resolution_time_mins", PInt 1);
      ("priority", PInt 999)]))
    admin_headers in
  let! id := at2 resp "data" "id" in
  created_set "sla_config_id" id.

Definition create_template : M state unit :=
  let! hex := uuid6 in
  let! resp := http "POST" "/templates" (Some (PDict [
      ("name", PStr ("IT-Template-" +:+ hex));
      ("description", PStr "integration template");
      ("content", PStr "rule={{ruleName}} severity={{severity}}");
      ("variables", PDict [("ruleName", PStr "Rule Name"); ("severity", PStr "Severity")]);
      ("type", PStr "markdown"); ("status", PInt 1)]))
    admin_headers in
  let! id := at2 resp "data" "id" in
  created_set "template_id" id.

Definition create_channel : M state unit :=
  let! hex := uuid6 in
  let! resp := http "POST" "/channels" (Some (PDict [
      ("name", PStr ("IT-Channel-" +:+ hex)); ("type", PStr "webhook");
      ("description", PStr "integration test webhook");
      ("config", PDict [("url", PStr WEBHOOK_URL)]);
      ("group_id", group_id); ("status", PInt 1)]))
    admin_headers in
  let! id := at2 resp "data" "id" in
  created_set "channel_id" id.

Definition create_rule_and_bind : M state unit :=
  let! hex := uuid6 in
  let! template_id := created_get "template_id" in
  let! resp := http "POST" "/alert-rules" (Some (PDict [
      ("name", PStr ("IT-Rule-" +:+ hex));
      ("description", PStr "integration test rule");
      ("expression", PStr "up");
      ("evaluation_interval_seconds", PInt 60);
      ("for_duration", PInt 1);
      ("severity", PStr "warning");
      ("labels", PDict [("env", PStr "it")]);
      ("annotations", PDict [("summary", PStr "integration test")]);
      ("group_id", group_id);
      ("template_id", template_id);
      ("data_source_type", PStr "prometheus");
      ("data_source_url", PStr PROM_STUB_URL);
      ("status", PInt 1);
      ("effective_start_time", PStr "00:00");
      ("effective_end_time", PStr "23:59");
      ("exclusion_windows", PList [])]))
    admin_headers in
  let! id := at2 resp "data" "id" in
  created_set "rule_id" id >>
  let! rule_id := created_get "rule_id" in
  let! channel_id := created_get "channel_id" in
  http "POST" ("/alert-rules/" +:+ py_str E rule_id +:+ "/bindings")
    (Some (PDict [("channel_ids", PList [channel_id])])) admin_headers >>
  ret tt.

(** The loop of [has_firing] over the rows of the alert history. *)
Fixpoint has_firing_rows (rows : list value) : M state bool :=
  match rows with
  | [] => ret false
  | row :: rest =>
      let! rid := lift (dict_get row "rule_id") in
      let! mine := created_get "rule_id" in
      if value_eqb rid mine then
        let! st := lift (dict_get row "status") in
        if value_eqb st (PStr "firing") then
          modify (set_alert_history_entry (fun d => dict_items row ++ d)) >> ret true
        else has_firing_rows rest
      else has_firing_rows rest
  end.

Definition has_firing : M state bool :=
  let! resp := http "GET" "/alert-history" None admin_headers in
  let! data := at2 resp "data" "data" in
  let! rows := lift (iterate (or_empty data)) in
  has_firing_rows rows.

Definition wait_for_firing (fuel : nat) : M state bool :=
  wait_for fuel has_firing 140 5 "firing alert history".

(** [lambda: len(_State.webhook_hits) >= min_count] *)
Definition wait_for_webhook_ready (min_count : Z) : M state bool :=
  let! st := gets stub in ret (min_count <=? Z.of_nat (length (webhook_hits st))).

Definition wait_for_webhook (fuel : nat) (min_count : Z) : M state bool :=
  wait_for fuel (wait_for_webhook_ready min_count) 140 5 "webhook delivery".

Fixpoint has_resolved_rows (rows : list value) : M state bool :=
  match rows with
  | [] => ret false
  | row :: rest =>
      let! rid := lift (dict_get row "rule_id") in
      let! mine := created_get "rule_id" in
      if value_eqb rid mine then
        let! st := lift (dict_get row "status") in
        if value_eqb st (PStr "resolved") then ret true
        else has_resolved_rows rest
      else has_resolved_rows rest
  end.

Definition has_resolved : M state bool :=
  let! resp := http "GET" "/alert-history" None admin_headers in
  let! data := at2 resp "data" "data" in
  let! rows := lift (iterate (or_empty data)) in
  has_resolved_rows rows.

Definition wait_for_resolved (fuel : nat) : M state bool :=
  wait_for fuel has_resolved 140 5 "resolved alert history".

Definition sla_breach_check : M state unit :=
  http "POST" "/sla/breaches/check" None admin_headers >>
  let! resp := http "GET" "/sla/breaches" None admin_headers in
  let! data := at2 resp "data" "data" in
  if negb (truthy data) then raise (RuntimeError "expected SLA breach record")
  else ret tt.

Definition oncall_flow : M state unit :=
  let! hex := uuid6 in
  let! now := time_time in
  let! sched := http "POST" "/oncall/schedules" (Some (PDict [
      ("name", PStr ("IT-Schedule-" +:+ hex));
      ("description", PStr "integration schedule");
      ("timezone", PStr "UTC");
      ("rotation_type", PStr "weekly");
      ("rotation_start", PStr (iso_utc E now))]))
    admin_headers in
  let! sched_id := at2 sched "data" "id" in
  let sid := py_str E sched_id in
  let! user := at2 login "data" "user" in
  let! uid := lift (subscript user "id") in
  http "POST" ("/oncall/schedules/" +:+ sid +:+ "/members")
    (Some (PDict [("user_id", uid); ("username", PStr "admin"); ("priority", PInt 1)]))
    admin_headers >>
  http "GET" ("/oncall/schedules/" +:+ sid +:+ "/members") None admin_headers >>
  let! now := time_time in
  http "POST" ("/oncall/schedules/" +:+ sid +:+ "/generate-rotations")
    (Some (PDict [("end_time", PStr (iso_utc E (now + 86400)))])) admin_headers >>
  http "GET" ("/oncall/schedules/" +:+ sid +:+ "/assignments") None admin_headers >>
  http "GET" "/oncall/current" None admin_headers >>
  http "GET" "/oncall/who" None admin_headers >>
  http "GET" "/oncall/report" None admin_headers >>
  let! now := time_time in
  http "POST" ("/oncall/schedules/" +:+ sid +:+ "/generate")
    (Some (PDict [("start_time", PStr (iso_utc E now));
                  ("end_time", PStr (iso_utc E (now + 7200)));
                  ("shift_duration", PInt 60);
                  ("timezone", PStr "UTC")])) admin_headers >>
  http "GET" ("/oncall/schedules/" +:+ sid +:+ "/coverage") None admin_headers >>
  http "GET" ("/oncall/schedules/" +:+ sid +:+ "/suggest") None admin_headers >>
  http "GET" ("/oncall/schedules/" +:+ sid +:+ "/validate") None admin_headers >>
  http "DELETE" ("/oncall/schedules/" +:+ sid) None admin_headers >>
  ret tt.

(** [alert_history_entry.get(key)] *)
Definition entry_get (key : string) : M state value :=
  let! d := gets alert_history_entry in ret (default PNone (assoc key d)).

Definition correlation_flow : M state unit :=
  let! alert_id := entry_get "id" in
  let! fingerprint := entry_get "fingerprint" in
  http "GET" ("/correlation/analyze/" +:+ py_str E alert_id +:+ "?window_minutes=30")
    None admin_headers >>
  http "GET" "/correlation/patterns?hours=1&min_occurrences=1" None admin_headers >>
  http "GET" "/correlation/groups?hours=1&threshold=0.5" None admin_headers >>
  (if truthy fingerprint then
     match fingerprint with
     | PStr fp =>
         http "GET" ("/correlation/timeline/" +:+ url_quote E fp +:+ "?hours=1")
           None admin_headers >> ret tt
     | _ => raise (Exception "TypeError" "quote_from_bytes() expected bytes")
     end
   else ret tt) >>
  let! rule_id := created_get "rule_id" in
  http "GET" ("/correlation/flapping?rule_id=" +:+ py_str E rule_id +:+ "&hours=1&threshold=1")
    None admin_headers >>
  let! rule_id := created_get "rule_id" in
  http "GET" ("/correlation/predict/" +:+ py_str E rule_id +:+ "?hours=1")
    None admin_headers >>
  ret tt.

Definition escalation_flow (user_token : value) (username : string) : M state unit :=
  let! alert_id := entry_get "id" in
  let user_headers := bearer user_token in
  let! to_user_id := created_get "user_id" in
  let! esc := http "POST" "/escalations" (Some (PDict [
      ("alert_id", alert_id); ("to_user_id", to_user_id);
      ("to_username", PStr username); ("reason", PStr "integration test")]))
    admin_headers in
  let! esc_id := at2 esc "data" "id" in
  http "GET" "/escalations/pending" None user_headers >>
  http "POST" ("/escalations/" +:+ py_str E esc_id +:+ "/accept") None user_headers >>
  http "POST" ("/escalations/" +:+ py_str E esc_id +:+ "/resolve") None admin_headers >>
  let! to_user_id := created_get "user_id" in
  let! esc2 := http "POST" "/escalations" (Some (PDict [
      ("alert_id", alert_id); ("to_user_id", to_user_id);
      ("to_username", PStr username); ("reason", PStr "integration reject")]))
    admin_headers in
  let! esc2_id := at2 esc2 "data" "id" in
  http "POST" ("/escalations/" +:+ py_str E esc2_id +:+ "/reject") None user_headers >>
  http "GET" ("/escalations/alert/" +:+ py_str E alert_id) None admin_headers >>
  http "GET" "/escalations" None admin_headers >>
  http "GET" "/escalations/stats" None admin_headers >>
  ret tt.

Definition create_ticket_for_ws : M state unit :=
  let! hex := uuid6 in
  http "POST" "/tickets" (Some (PDict [
      ("title", PStr ("IT-Ticket-" +:+ hex)); ("description", PStr "ws ticket");
      ("priority", PStr "low"); ("assignee_name", PStr "admin")]))
    admin_headers >>
  ret tt.

Definition cleanup : M state unit :=
  let! rule_id := created_get "rule_id" in
  (if truthy rule_id then
     swallow (let! id := created_get "rule_id" in
              http "DELETE" ("/alert-rules/" +:+ py_str E id) None admin_headers)
   else ret tt) >>
  let! channel_id := created_get "channel_id" in
  (if truthy channel_id then
     swallow (let! id := created_get "channel_id" in
              http "DELETE" ("/channels/" +:+ py_str E id) None admin_headers)
   else ret tt) >>
  let! template_id := created_get "template_id" in
  (if truthy template_id then
     swallow (let! id := created_get "template_id" in
              http "DELETE" ("/templates/" +:+ py_str E id) None admin_headers)
   else ret tt) >>
  let! sla_config_id := created_get "sla_config_id" in
  (if truthy sla_config_id then
     swallow (let! id := created_get "sla_config_id" in
              http "DELETE" ("/sla/configs/" +:+ py_str E id) None admin_headers)
   else ret tt) >>
  let! user_id := created_get "user_id" in
  (if truthy user_id then
     swallow (let! id := created_get "user_id" in
              http "DELETE" ("/users/" +:+ py_str E id) None admin_headers)
   else ret tt).

(** The [try] block of [main]. *)
Definition scenarios (fuel : nat) : M state unit :=
  let! ws := capture_ws_messages 3 160 in
  let ws_proc := fst ws in
  let ws_path := snd ws in
  let! user := create_test_user in
  let user_token := fst user in
  let username := snd user in
  check "create_sla_config" create_sla_config >>
  check "create_template" create_template >>
  check "create_channel" create_channel >>
  check "create_rule_and_bind" create_rule_and_bind >>
  check "alert_firing_history" (wait_for_firing fuel) >>
  check "webhook_firing_delivery" (wait_for_webhook fuel 1) >>
  check "ticket_ws_emit" create_ticket_for_ws >>
  modify (set_stub (set_firing false)) >>
  check "alert_resolved_history" (wait_for_resolved fuel) >>
  check "webhook_resolved_delivery" (wait_for_webhook fuel 2) >>
  time_sleep 70 >>
  check "sla_breach_check" sla_breach_check >>
  check "websocket_notifications" (ws_check ws_proc ws_path) >>
  check "oncall_flow" oncall_flow >>
  check "correlation_flow" correlation_flow >>
  check "escalation_flow" (escalation_flow user_token username) >>
  let! id := entry_get "id" in
  (if truthy id then
     http "GET" ("/sla/alerts/" +:+ py_str E id) None admin_headers >> ret tt
   else ret tt) >>
  http "GET" "/sla/report" None admin_headers >>
  ret tt.

End Closures.

(** The lines after [print("Summary:")]. *)
Fixpoint summary_loop (rs : list outcome) (ok : bool) : M state bool :=
  match rs with
  | [] => ret ok
  | (name, status, err) :: rest =>
      let ok := if negb (String.eqb status "ok") then false else ok in
      let line := "- " +:+ name +:+ ": " +:+ status in
      let line :=
        match err with
        | Some e => if negb (String.eqb e EmptyString) then line +:+ " (" +:+ e +:+ ")" else line
        | None => line
        end in
      emit (EPrint line) >> summary_loop rest ok
  end.

Definition summary : M state unit :=
  emit (EPrint "Summary:") >>
  let! rs := gets results in
  let! ok := summary_loop rs true in
  if negb ok then sys_exit 1 else ret tt.

(** What [main] computes between [results = []] and its [try]: the
    login, the admin headers and the business group. *)
Record session := {
  login : value;
  admin_headers : list (string * string);
  group_id : value;
}.

Definition setup : M state session :=
  let! login := http "POST" "/auth/login"
    (Some (PDict [("username", PStr "admin"); ("password", PStr "admin123")])) [] in
  let! token := at2 login "data" "token" in
  let admin_headers := bearer token in
  let! resp := http "GET" "/business-groups" None admin_headers in
  let! groups := at2 resp "data" "data" in
  if negb (truthy groups) then raise (RuntimeError "no business group found")
  else
    let! group0 := lift (subscript0 groups) in
    let! group_id := lift (subscript group0 "id") in
    ret {| login := login; admin_headers := admin_headers; group_id := group_id |}.

Definition main (fuel : nat) : M state unit :=
  let! prom := start_server PROM_STUB_PORT in
  let! webhook := start_server WEBHOOK_STUB_PORT in
  modify (set_created (fun _ => created_init)) >>
  modify (set_results (fun _ => [])) >>
  let! c := setup in
  modify (set_alert_history_entry (fun _ => [])) >>
  try_finally (scenarios (login c) (admin_headers c) (group_id c) fuel)
              (cleanup (admin_headers c) >> shutdown prom >> shutdown webhook) >>
  summary.

(** The interpreter's state when the module has been loaded, at time [t0]. *)
Definition boot (t0 : Z) : state :=
  {| clock := t0; trace := []; stub := _State_init; created := ∅; results := [];
     alert_history_entry := []; uuids := 0 |}.

End WithEnv.

End Slow.

(** * integration_smoke_fast.py *)
Module Fast.

Definition API_BASE : string := "http://localhost:8080/api/v1".
Definition WEBHOOK_PORT : Z := 18082.
Definition TELEGRAM_PORT : Z := 18083.
Definition LARK_PORT : Z := 18084.
Definition WEBHOOK_URL : string := "http://host.docker.internal:18082/hook".
Definition TELEGRAM_API_BASE : string := "http://host.docker.internal:18083".
Definition LARK_WEBHOOK_URL : string := "http://host.docker.internal:18084/lark".

Definition outcome : Type := string * string * option string.

(** This script keeps no registry and no stub state. *)
Record state := {
  clock : Z;
  trace : list event;
  results : list outcome;
  uuids : nat;
}.

Definition set_trace (f : list event -> list event) (s : state) : state :=
  {| clock := clock s; trace := f (trace s); results := results s; uuids := uuids s |}.
Definition set_results (f : list outcome -> list outcome) (s : state) : state :=
  {| clock := clock s; trace := trace s; results := f (results s); uuids := uuids s |}.
Definition set_uuids (f : nat -> nat) (s : state) : state :=
  {| clock := clock s; trace := trace s; results := results s; uuids := f (uuids s) |}.

Definition json_headers : list (string * string) := [("Content-Type", "application/json")].

(** [SimpleOkHandler.do_POST] *)
Definition SimpleOk_do_POST : stub_response :=
  {| status := 200; headers := json_headers;
     wfile := Some (Bytes ("{" +:+ dq +:+ "ok" +:+ dq +:+ ":true}")) |}.

(** [LarkOkHandler.do_POST] *)
Definition LarkOk_do_POST : stub_response :=
  {| status := 200; headers := json_headers;
     wfile := Some (Bytes ("{" +:+ dq +:+ "code" +:+ dq +:+ ":0," +:+ dq +:+ "msg" +:+ dq
                           +:+ ":" +:+ dq +:+ "success" +:+ dq +:+ "}")) |}.

Section WithEnv.
Context (E : env).

Definition emit (e : event) : M state unit := modify (set_trace (fun tr => tr ++ [e])).

Definition time_time : M state Z := gets clock.

Definition uuid6 : M state string :=
  let! n := gets uuids in
  modify (set_uuids S) >> ret (uuid_hex6 E n).

Definition start_server (port : Z) : M state Z :=
  if bind_ok E port then emit (EStartServer port) >> ret port
  else raise (Exception "OSError" "Address already in use").

Definition shutdown (server : Z) : M state unit := emit (EShutdown server).

Definition http (method path : string) (data : option value)
    (headers : list (string * string)) : M state value :=
  let req := {| req_method := method; req_url := API_BASE +:+ path; req_body := data;
                req_headers := ("Content-Type", "application/json") :: headers |} in
  let! tr := gets trace in
  let rep := platform E tr req in
  emit (EHttp req rep) >>
  match rep with
  | Body v => ret v
  | HTTPError code raw =>
      raise (RuntimeError ("HTTP " +:+ py_str E (PInt code) +:+ ": " +:+ raw))
  | Failed cls msg => raise (Exception cls msg)
  end.

Definition exn_str (e : exn) : string :=
  match e with
  | Exception _ msg => msg
  | SystemExit code => py_str E (PInt code)
  | KeyboardInterrupt => EmptyString
  end.

Definition check {A} (name : string) (fn : M state A) : M state unit :=
  try_except
    (fn >> modify (set_results (fun r => r ++ [(name, "ok", None)])))
    (fun e => modify (set_results (fun r => r ++ [(name, "fail", Some (exn_str e))]))).

Definition at2 (v : value) (k1 k2 : string) : M state value :=
  let! d := lift (subscript v k1) in lift (subscript d k2).

Section Closures.
Context (headers : list (string * string)) (group_id : value).

Definition templates_crud : M state unit :=
  let! hex := uuid6 in
  let name := "IT-Template-" +:+ hex in
  let! create := http "POST" "/templates" (Some (PDict [
      ("name", PStr name); ("description", PStr "integration template");
      ("content", PStr "hello {{ruleName}}");
      ("variables", PDict [("ruleName", PStr "Rule Name")]);
      ("type", PStr "markdown"); ("status", PInt 1)])) headers in
  let! tid := at2 create "data" "id" in
  http "GET" ("/templates/" +:+ py_str E tid) None headers >>
  http "PUT" ("/templates/" +:+ py_str E tid)
    (Some (PDict [("description", PStr "updated")])) headers >>
  http "DELETE" ("/templates/" +:+ py_str E tid) None headers >>
  ret tt.

Definition channels_webhook : M state unit :=
  let! hex := uuid6 in
  let name := "IT-Webhook-" +:+ hex in
  let! create := http "POST" "/channels" (Some (PDict [
      ("name", PStr name); ("type", PStr "webhook");
      ("description", PStr "integration webhook");
      ("config", PDict [("url", PStr WEBHOOK_URL)]);
      ("group_id", group_id); ("status", PInt 1)])) headers in
  let! cid := at2 create "data" "id" in
  http "GET" ("/channels/" +:+ py_str E cid) None headers >>
  http "PUT" ("/channels/" +:+ py_str E cid)
    (Some (PDict [("description", PStr "updated")])) headers >>
  http "POST" "/channels/test-config"
    (Some (PDict [("type", PStr "webhook"); ("config", PDict [("url", PStr WEBHOOK_URL)])]))
    headers >>
  http "DELETE" ("/channels/" +:+ py_str E cid) None headers >>
  ret tt.

Definition channels_lark : M state unit :=
  let! hex := uuid6 in
  let name := "IT-Lark-" +:+ hex in
  let! create := http "POST" "/channels" (Some (PDict [
      ("name", PStr name); ("type", PStr "lark");
      ("description", PStr "integration lark");
      ("config", PDict [("webhook_url", PStr LARK_WEBHOOK_URL)]);
      ("group_id", group_id); ("status", PInt 1)])) headers in
  let! cid := at2 create "data" "id" in
  http "POST" "/channels/test-config"
    (Some (PDict [("type", PStr "lark");
                  ("config", PDict [("webhook_url", PStr LARK_WEBHOOK_URL)])]))
    headers >>
  http "DELETE" ("/channels/" +:+ py_str E cid) None headers >>
  ret tt.

Definition telegram_config : value :=
  PDict [("bot_token", PStr "TESTTOKEN"); ("chat_id", PStr "12345");
         ("api_base", PStr TELEGRAM_API_BASE)].

Definition channels_telegram : M state unit :=
  let! hex := uuid6 in
  let name := "IT-TG-" +:+ hex in
  let! create := http "POST" "/channels" (Some (PDict [
      ("name", PStr name); ("type", PStr "telegram");
      ("description", PStr "integration telegram");
      ("config", telegram_config);
      ("group_id", group_id); ("status", PInt 1)])) headers in
  let! cid := at2 create "data" "id" in
  http "POST" "/channels/test-config"
    (Some (PDict [("type", PStr "telegram"); ("config", telegram_config)])) headers >>
  http "DELETE" ("/channels/" +:+ py_str E cid) None headers >>
  ret tt.

Definition data_sources_crud : M state unit :=
  let! hex := uuid6 in
  let name := "IT-DS-" +:+ hex in
  let! create := http "POST" "/data-sources" (Some (PDict [
      ("name", PStr name); ("type", PStr "prometheus");
      ("description", PStr "integration ds");
      ("endpoint", PStr "http://localhost:9090");
      ("config", PDict []); ("status", PInt 1)])) headers in
  let! did := at2 create "data" "id" in
  http "GET" ("/data-sources/" +:+ py_str E did) None headers >>
  http "PUT" ("/data-sources/" +:+ py_str E did)
    (Some (PDict [("description", PStr "updated")])) headers >>
  try_except
    (http "POST" ("/data-sources/" +:+ py_str E did +:+ "/health-check") None headers >> ret tt)
    (fun _ => ret tt) >>
  http "DELETE" ("/data-sources/" +:+ py_str E did) None headers >>
  ret tt.

Definition silences_crud : M state unit :=
  let! now := time_time in
  let! hex := uuid6 in
  let! create := http "POST" "/silences" (Some (PDict [
      ("name", PStr ("IT-Silence-" +:+ hex));
      ("description", PStr "integration silence");
      ("matchers", PList [PDict [("env", PStr "it")]]);
      ("start_time", PStr (iso_utc E now));
      ("end_time", PStr (iso_utc E (now + 3600)))])) headers in
  let! sid := at2 create "data" "id" in
  http "PUT" ("/silences/" +:+ py_str E sid)
    (Some (PDict [("description", PStr "updated")])) headers >>
  http "POST" "/silences/check"
    (Some (PDict [("labels", PDict [("env", PStr "it")])])) headers >>
  http "DELETE" ("/silences/" +:+ py_str E sid) None headers >>
  ret tt.

Definition tickets_crud : M state unit :=
  let! hex := uuid6 in
  let! create := http "POST" "/tickets" (Some (PDict [
      ("title", PStr ("IT-Ticket-" +:+ hex));
      ("description", PStr "integration ticket");
      ("priority", PStr "low"); ("assignee_name", PStr "admin")])) headers in
  let! tid := at2 create "data" "id" in
  http "GET" ("/tickets/" +:+ py_str E tid) None headers >>
  http "PUT" ("/tickets/" +:+ py_str E tid)
    (Some (PDict [("status", PStr "in_progress")])) headers >>
  http "POST" ("/tickets/" +:+ py_str E tid +:+ "/resolve") None headers >>
  http "POST" ("/tickets/" +:+ py_str E tid +:+ "/close") None headers >>
  http "DELETE" ("/tickets/" +:+ py_str E tid) None headers >>
  http "GET" "/tickets/stats" None headers >>
  ret tt.

Definition users_crud : M state unit :=
  let! hex := uuid6 in
  let username := "it_user_" +:+ hex in
  let password := "pass1234" in
  let! create := http "POST" "/users" (Some (PDict [
      ("username", PStr username); ("password", PStr password);
      ("email", PStr "it@example.com"); ("phone", PStr EmptyString);
      ("role", PStr "user"); ("status", PInt 1)])) headers in
  let! uid := at2 create "data" "id" in
  http "GET" ("/users/" +:+ py_str E uid) None headers >>
  http "GET" "/users" None headers >>
  http "PUT" ("/users/" +:+ py_str E uid)
    (Some (PDict [("email", PStr "it2@example.com")])) headers >>
  http "POST" ("/users/" +:+ py_str E uid +:+ "/password")
    (Some (PDict [("old_password", PStr password); ("new_password", PStr "pass5678")]))
    headers >>
  http "DELETE" ("/users/" +:+ py_str E uid) None headers >>
  ret tt.

(** The loop that deletes the imported rule by name. *)
Fixpoint delete_named (name : string) (rows : list value) : M state unit :=
  match rows with
  | [] => ret tt
  | r :: rest =>
      let! n := lift (dict_get r "name") in
      (if value_eqb n (PStr name) then
         let! id := lift (subscript r "id") in
         http "DELETE" ("/alert-rules/" +:+ py_str E id) None headers >> ret tt
       else ret tt) >>
      delete_named name rest
  end.

Definition batch_import_export : M state unit :=
  let! hex := uuid6 in
  let name := "IT-Rule-" +:+ hex in
  let rule := PDict [
      ("name", PStr name); ("description", PStr "batch import");
      ("expression", PStr "1");
      ("evaluation_interval_seconds", PInt 60); ("for_duration", PInt 60);
      ("severity", PStr "warning");
      ("labels", PDict [("env", PStr "it")]);
      ("annotations", PDict [("summary", PStr "batch")]);
      ("group_id", group_id);
      ("data_source_type", PStr "prometheus");
      ("data_source_url", PStr "http://localhost:9090");
      ("status", PInt 0)] in
  http "POST" "/batch/import/rules" (Some (PDict [("rules", PList [rule])])) headers >>
  http "GET" "/batch/export/rules" None headers >>
  http "GET" "/batch/export/channels" None headers >>
  let! hex := uuid6 in
  let! now := time_time in
  let silence := PDict [
      ("name", PStr ("IT-Silence-" +:+ hex)); ("description", PStr "batch");
      ("matchers", PList [PDict [("env", PStr "it")]]);
      ("start_time", PStr (iso_utc E now));
      ("end_time", PStr (iso_utc E (now + 3600)))] in
  http "POST" "/batch/import/silences" (Some (PDict [("silences", PList [silence])])) headers >>
  http "GET" "/batch/export/silences" None headers >>
  let! resp := http "GET" "/alert-rules" None headers in
  let! data := at2 resp "data" "data" in
  let! rows := lift (iterate (if truthy data then data else PList [])) in
  delete_named name rows.

Definition misc_reads : M state unit :=
  http "GET" "/statistics" None headers >>
  http "GET" "/dashboard" None headers >>
  http "GET" "/audit-logs" None headers >>
  http "GET" "/audit-logs/export" None headers >>
  ret tt.

End Closures.

Fixpoint summary_loop (rs : list outcome) (ok : bool) : M state bool :=
  match rs with
  | [] => ret ok
  | (name, status, err) :: rest =>
      let ok := if negb (String.eqb status "ok") then false else ok in
      let line := "- " +:+ name +:+ ": " +:+ status in
      let line :=
        match err with
        | Some e => if negb (String.eqb e EmptyString) then line +:+ " (" +:+ e +:+ ")" else line
        | None => line
        end in
      emit (EPrint line) >> summary_loop rest ok
  end.

Definition summary : M state unit :=
  emit (EPrint "Summary:") >>
  let! rs := gets results in
  let! ok := summary_loop rs true in
  if negb ok then sys_exit 1 else ret tt.

Definition main : M state unit :=
  let! webhook := start_server WEBHOOK_PORT in
  let! telegram := start_server TELEGRAM_PORT in
  let! lark := start_server LARK_PORT in
  modify (set_results (fun _ => [])) >>
  let! login := http "POST" "/auth/login"
    (Some (PDict [("username", PStr "admin"); ("password", PStr "admin123")])) [] in
  let! token := at2 login "data" "token" in
  let headers := [("Authorization", "Bearer " +:+ py_str E token)] in
  let! resp := http "GET" "/business-groups" None headers in
  let! groups := at2 resp "data" "data" in
  if negb (truthy groups) then raise (RuntimeError "no business group found")
  else
    let! group0 := lift (subscript0 groups) in
    let! group_id := lift (subscript group0 "id") in
    check "templates_crud" (templates_crud headers) >>
    check "channels_webhook" (channels_webhook headers group_id) >>
    check "channels_lark" (channels_lark headers group_id) >>
    check "channels_telegram" (channels_telegram headers group_id) >>
    check "data_sources_crud" (data_sources_crud headers) >>
    check "silences_crud" (silences_crud headers) >>
    check "tickets_crud" (tickets_crud headers) >>
    check "users_crud" (users_crud headers) >>
    check "batch_import_export" (batch_import_export headers group_id) >>
    check "misc_reads" (misc_reads headers) >>
    shutdown webhook >>
    shutdown telegram >>
    shutdown lark >>
    summary.

Definition boot (t0 : Z) : state :=
  {| clock := t0; trace := []; results := []; uuids := 0 |}.

End WithEnv.
End Fast.

(** * integration_smoke.py *)
Module Selector.

(** What the selector does that can be seen from outside. *)
Inductive sel_event :=
| Printed (line : string)
| Ran (cmd : list string) (returncode : Z).   (* [subprocess.run(cmd)] and what it returned *)

(** What the selector takes from outside: the interpreter, the paths of
    the two suites next to it, and the return code of a child process,
    which may depend on what happened before. *)
Record sel_env := {
  executable : string;                                   (* [sys.executable] *)
  FAST : string;
  SLOW : string;
  returncode : list sel_event -> list string -> Z;
}.

Section WithEnv.
Context (P : sel_env).

Definition print (line : string) : M (list sel_event) unit :=
  modify (fun tr => tr ++ [Printed line]).

(** [subprocess.run(cmd)], for its return code. *)
Definition subprocess_run (cmd : list string) : M (list sel_event) Z :=
  let! tr := gets id in
  let rc := returncode P tr cmd in
  modify (fun tr => tr ++ [Ran cmd rc]) >> ret rc.

(** [MODE], from [sys.argv]. *)
Definition MODE (argv : list string) : string :=
  match argv with
  | _ :: mode :: _ => mode
  | _ => "all"
  end.

(** [cmds], as the two [if]s fill it. *)
Definition cmds (argv : list string) : list (list string) :=
  let mode := MODE argv in
  (if String.eqb mode "all" || String.eqb mode "fast" then [[executable P; FAST P]] else [])
  ++ (if String.eqb mode "all" || String.eqb mode "slow" then [[executable P; SLOW P]] else []).

(** The loop over [cmds]. *)
Fixpoint run_all (cs : list (list string)) : M (list sel_event) unit :=
  match cs with
  | [] => ret tt
  | cmd :: rest =>
      print ("Running: " +:+ join " " cmd) >>
      let! rc := subprocess_run cmd in
      if negb (rc =? 0) then sys_exit rc else run_all rest
  end.

(** The module body. *)
Definition main (argv : list string) : M (list sel_event) unit :=
  match cmds argv with
  | [] => print "Usage: integration_smoke.py [all|fast|slow]" >> sys_exit 1
  | cs => run_all cs >> print "All integration smoke tests passed"
  end.

End WithEnv.
End Selector.

(** * Vocabulary of the statements *)

(** The status of a recorded outcome [(name, status, detail)]. *)
Definition status_of (o : string * string * option string) : string := snd (fst o).

Definition status_ok (o : string * string * option string) : bool :=
  String.eqb (status_of o) "ok".

(** The result vector in the body of a metrics response. *)
Definition result_vector (r : stub_response) : option (list value) :=
  match wfile r with
  | Some (Json body) =>
      match subscript body "data" with
      | Ret data =>
          match subscript data "result" with
          | Ret (PList l) => Some l
          | _ => None
          end
      | _ => None
      end
  | _ => None
  end.

(** The name and the value of a vector sample. *)
Definition sample_name (x : value) : res value :=
  match subscript x "metric" with
  | Ret m => subscript m "__name__"
  | Raise e => Raise e
  | OutOfFuel => OutOfFuel
  end.

Definition sample_value (x : value) : res value := subscript x "value".

(** A socket that never dispatches a message. *)
Definition no_message (arrivals : list (Z * ws_event)) : bool :=
  forallb (fun a => match snd a with WsMessage _ => false | _ => true end) arrivals.

(** * Sample worlds *)

(** A [str] that is right on strings, integers and [None]. *)
Definition show (v : value) : string :=
  match v with
  | PStr s => s
  | PInt z => pretty z
  | PNone => "None"
  | PBool true => "True"
  | PBool false => "False"
  | _ => "?"
  end.

(** Decimal digits only. *)
Fixpoint digits (s : string) (acc : Z) : option Z :=
  match s with
  | EmptyString => Some acc
  | String c rest =>
      let n := Z.of_nat (nat_of_ascii c) in
      if (48 <=? n) && (n <=? 57) then digits rest (10 * acc + (n - 48)) else None
  end.

Definition ascii_text (b : list Byte.byte) : option string :=
  Some (String.string_of_list_ascii (map Ascii.ascii_of_byte b)).

(** A platform that answers every request with the same reply, with no
    traffic to the stubs and no WebSocket traffic. *)
Definition world (answer : list event -> request -> reply) : env :=
  {| platform := answer;
     incoming := fun _ => [];
     bind_ok := fun _ => true;
     node_ok := true;
     ws := Socket [] None;
     tmp_path := "/tmp/tmpcapture";
     uuid_hex6 := fun _ => "c0ffee";
     py_str := show;
     py_int := fun s => match s with EmptyString => None | _ => digits s 0 end;
     utf8_decode := ascii_text;
     iso_utc := fun _ => "1970-01-01T00:00:00Z";
     url_quote := fun s => s |}.

Definition down : env := world (fun _ _ => HTTPError 500 "down").

(** The channel refuses the connection: an error event and a close event,
    which the built-in WebSocket lets pass and on which the [ws] package
    kills the process. *)
Definition unreachable_builtin : ws_world := Socket [(12, WsError); (12, WsClose)] None.
Definition unreachable_package : ws_world := Socket [(12, WsError)] (Some 12).

(** The channel accepts the connection and stays silent. *)
Definition connected_silent : ws_world := Socket [(12, WsOpen)] None.

(** The error of [wait_for] when its deadline has passed. *)
Definition timeout_error (label : string) : exn :=
  RuntimeError ("timeout waiting for " +:+ label).

(** A predicate whose evaluation takes no time, and one whose evaluation
    ends. *)
Definition instantaneous (p : M Slow.state bool) : Prop :=
  forall s, Slow.clock (snd (p s)) = Slow.clock s.

Definition ends (p : M Slow.state bool) : Prop :=
  forall s, fst (p s) <> OutOfFuel.

(** The requests among a list of events. *)
Definition requests_of (tr : list event) : list request :=
  omap (fun e => match e with EHttp q _ => Some q | _ => None end) tr.

(** The events of a run from [s] to [s']. *)
Definition new_events (s s' : Slow.state) : list event :=
  drop (length (Slow.trace s)) (Slow.trace s').

(** The keys that [main] puts in [created]. *)
Definition registry_keys : list string :=
  ["rule_id"; "channel_id"; "template_id"; "sla_config_id"; "user_id"; "escalation_id"].

(** The registry as [main] keeps it: exactly those keys, and nothing under
    [escalation_id], which no statement of the script assigns. *)
Definition registry_ok (c : gmap string value) : Prop :=
  dom c = list_to_set registry_keys
  /\ c !! "escalation_id" = Some PNone.


(** The request [http("DELETE", path, headers=hdrs)] sends. *)
Definition delete_request (hdrs : list (string * string)) (path : string) : request :=
  {| req_method := "DELETE"; req_url := Slow.API_BASE +:+ path; req_body := None;
     req_headers := ("Content-Type", "application/json") :: hdrs |}.

(** Where the resources of each registry key live. *)
Definition collections : list (string * string) :=
  [("rule_id", "/alert-rules/"); ("channel_id", "/channels/");
   ("template_id", "/templates/"); ("sla_config_id", "/sla/configs/");
   ("user_id", "/users/")].

(** The deletions due for a registry, in the order of [collections]. *)
Definition deletions (E : env) (hdrs : list (string * string))
    (c : gmap string value) : list request :=
  omap (fun kc =>
          match c !! fst kc with
          | Some v => if truthy v then Some (delete_request hdrs (snd kc +:+ py_str E v))
                      else None
          | None => None
          end) collections.

(** The state after one HTTP call of the slow script. *)
Definition called (E : env) (q : request) (s : Slow.state) : Slow.state :=
  snd (Slow.emit E (EHttp q (platform E (Slow.trace s) q)) s).

(** The state after one block of [cleanup]: the deletion has been sent if
    the entry is present. *)
Definition after_block (E : env) (hdrs : list (string * string)) (key pre : string)
    (s : Slow.state) : Slow.state :=
  match Slow.created s !! key with
  | Some v => if truthy v then called E (delete_request hdrs (pre +:+ py_str E v)) s else s
  | None => s
  end.

(** The state in which [cleanup] ends. *)
Definition cleaned (E : env) (hdrs : list (string * string)) (s : Slow.state) : Slow.state :=
  after_block E hdrs "user_id" "/users/"
    (after_block E hdrs "sla_config_id" "/sla/configs/"
       (after_block E hdrs "template_id" "/templates/"
          (after_block E hdrs "channel_id" "/channels/"
             (after_block E hdrs "rule_id" "/alert-rules/" s)))).

(** How the state of the slow script may change from one point of a run to
    a later one: events are added to the trace, the clock does not go
    back, deliveries are added to the webhook log, a cleared firing flag
    stays cleared, and the registry keeps its shape. *)
Definition evolves (s s' : Slow.state) : Prop :=
  Slow.trace s `prefix_of` Slow.trace s'
  /\ Slow.clock s <= Slow.clock s'
  /\ Slow.webhook_hits (Slow.stub s) `prefix_of` Slow.webhook_hits (Slow.stub s')
  /\ (Slow.firing (Slow.stub s) = false -> Slow.firing (Slow.stub s') = false)
  /\ (registry_ok (Slow.created s) -> registry_ok (Slow.created s')).

(** A piece of the script all of whose runs change the state that way. *)
Definition respects {A} (m : M Slow.state A) : Prop :=
  forall s, evolves s (snd (m s)).

(** The state of the slow script when both stub servers have started and
    [created] and [results] have been initialised. *)
Definition opened (E : env) (s : Slow.state) : Slow.state :=
  Slow.set_results (fun _ => [])
    (Slow.set_created (fun _ => Slow.created_init)
       (snd (Slow.emit E (EStartServer Slow.WEBHOOK_STUB_PORT)
               (snd (Slow.emit E (EStartServer Slow.PROM_STUB_PORT) s))))).

(** The events of [main] up to the end of its setup: the two servers
    start, and requests go to the login and to the business groups. *)
Definition setup_event (ev : event) : bool :=
  match ev with
  | EStartServer _ => true
  | EHttp q _ =>
      String.eqb (req_url q) (Slow.API_BASE +:+ "/auth/login")
      || String.eqb (req_url q) (Slow.API_BASE +:+ "/business-groups")
  | _ => false
  end.

(** The two requests of the setup. *)
Definition login_request : request :=
  {| req_method := "POST"; req_url := Slow.API_BASE +:+ "/auth/login";
     req_body := Some (PDict [("username", PStr "admin"); ("password", PStr "admin123")]);
     req_headers := [("Content-Type", "application/json")] |}.

Definition groups_request (E : env) (token : value) : request :=
  {| req_method := "GET"; req_url := Slow.API_BASE +:+ "/business-groups";
     req_body := None;
     req_headers := ("Content-Type", "application/json") :: Slow.bearer E token |}.

(** The collections to which a POST creates a resource. *)
Definition creation_urls : list string :=
  map (fun p => Slow.API_BASE +:+ p)
    ["/users"; "/sla/configs"; "/templates"; "/channels"; "/alert-rules";
     "/escalations"; "/oncall/schedules"; "/tickets"; "/data-sources"; "/silences"].

(** The identifier of the resource that an event created, if it created
    one: a POST to a collection, answered with [data.id]. *)
Definition created_by (ev : event) : option value :=
  match ev with
  | EHttp q (Body v) =>
      if String.eqb (req_method q) "POST" && existsb (String.eqb (req_url q)) creation_urls
      then match subscript v "data" with
           | Ret d => match subscript d "id" with Ret id => Some id | _ => None end
           | _ => None
           end
      else None
  | _ => None
  end.

(** The registry holds an identifier. *)
Definition registered (c : gmap string value) (id : value) : Prop :=
  exists k, c !! k = Some id.

(** Whatever a piece of the script created is in the registry when the
    piece ends, however it ends. *)
Definition registers {A} (m : M Slow.state A) : Prop :=
  forall s ev id,
    ev ∈ new_events s (snd (m s)) -> created_by ev = Some id ->
    registered (Slow.created (snd (m s))) id.

(** The same, under a given key. *)
Definition registers_under {A} (key : string) (m : M Slow.state A) : Prop :=
  forall s ev id,
    ev ∈ new_events s (snd (m s)) -> created_by ev = Some id ->
    Slow.created (snd (m s)) !! key = Some id.

(** What a piece of the script created is in the registry under [key] when
    the piece ends, however it ends; so that [cleanup], run from there on
    a registry of the right shape, returns and has asked for the deletion
    of it under [pre], when the identifier passes the truth test. *)
Definition kept_for_cleanup (E : env) (hdrs : list (string * string)) (key pre : string)
    {A} (m : M Slow.state A) : Prop :=
  forall s ev id,
    ev ∈ new_events s (snd (m s)) -> created_by ev = Some id ->
    Slow.created (snd (m s)) !! key = Some id
    /\ (registry_ok (Slow.created s) -> truthy id = true ->
        exists s2,
          Slow.cleanup E hdrs (snd (m s)) = (Ret tt, s2)
          /\ delete_request hdrs (pre +:+ py_str E id)
               ∈ requests_of (new_events (snd (m s)) s2)).

(** A platform that creates what it is asked to create, under identifier
    42, and fails every other request. *)
Definition creates_only : env :=
  world (fun _ q =>
           if String.eqb (req_method q) "POST" && existsb (String.eqb (req_url q)) creation_urls
           then Body (PDict [("data", PDict [("id", PInt 42)])])
           else HTTPError 500 "down").

(** A platform on which the login works and no business group exists. *)
Definition no_group : env :=
  world (fun _ q =>
           if String.eqb (req_url q) (Slow.API_BASE +:+ "/auth/login")
           then Body (PDict [("data", PDict [("token", PStr "t0k3n")])])
           else Body (PDict [("data", PDict [("data", PList [])])])).

(** The slow script at time 0 with its registry initialised. *)
Definition ready : Slow.state :=
  Slow.set_created (fun _ => Slow.created_init) (Slow.boot 0).

(** A trace in which a stub server has been shut down. *)
Definition shut_down (tr : list event) : bool :=
  existsb (fun ev => match ev with EShutdown _ => true | _ => false end) tr.

(** A platform on which the login works, a business group exists and
    resources are created, under identifier 42, and every other request
    fails. *)
Definition half_up : env :=
  world (fun _ q =>
           if String.eqb (req_url q) (Slow.API_BASE +:+ "/auth/login")
           then Body (PDict [("data", PDict [("token", PStr "t0k3n");
                                             ("user", PDict [("id", PInt 1)])])])
           else if String.eqb (req_url q) (Slow.API_BASE +:+ "/business-groups")
           then Body (PDict [("data", PDict [("data", PList [PDict [("id", PInt 7)]])])])
           else if String.eqb (req_method q) "POST"
                   && existsb (String.eqb (req_url q)) creation_urls
           then Body (PDict [("data", PDict [("id", PInt 42)])])
           else HTTPError 500 "down").

(** The requests of a trace that ask for a deletion. *)
Definition deletes_of (tr : list event) : list string :=
  omap (fun q => if String.eqb (req_method q) "DELETE" then Some (req_url q) else None)
       (requests_of tr).

(** The slow script with a rule registered under identifier 42. *)
Definition rule_registered : Slow.state :=
  Slow.set_created (insert "rule_id" (PInt 42)) ready.

(** * More vocabulary *)

(** The modes that select a suite. *)
Definition valid_mode (mode : string) : bool :=
  String.eqb mode "all" || String.eqb mode "fast" || String.eqb mode "slow".

(** The child processes among the events of the selector, with their
    return codes. *)
Definition ran_of (tr : list Selector.sel_event) : list (list string * Z) :=
  omap (fun e => match e with Selector.Ran cmd rc => Some (cmd, rc) | _ => None end) tr.

(** A selector whose suites return the given codes. *)
Definition suites (fast_rc slow_rc : Z) : Selector.sel_env :=
  {| Selector.executable := "/usr/bin/python3";
     Selector.FAST := "/repo/scripts/integration_smoke_fast.py";
     Selector.SLOW := "/repo/scripts/integration_smoke_slow.py";
     Selector.returncode := fun _ cmd =>
       if bool_decide (cmd = ["/usr/bin/python3"; "/repo/scripts/integration_smoke_fast.py"])
       then fast_rc else slow_rc |}.

(** The messages among the events of a socket, in the order of arrival. *)
Definition messages_of (arrivals : list (Z * ws_event)) : list string :=
  omap (fun a => match snd a with WsMessage data => Some data | _ => None end) arrivals.

(** A predicate that answers [False] and takes no time. *)
Definition stays_false (p : M Slow.state bool) : Prop :=
  forall s, exists s1, p s = (Ret false, s1) /\ Slow.clock s1 = Slow.clock s.

(** A row of the alert history that belongs to the rule and has the
    status, as [has_firing] and [has_resolved] ask. *)
Definition row_matches (rule_id : value) (wanted : string) (row : value) : bool :=
  match row with
  | PDict d =>
      value_eqb (default PNone (assoc "rule_id" d)) rule_id
      && value_eqb (default PNone (assoc "status" d)) (PStr wanted)
  | _ => false
  end.

Definition is_dict (v : value) : bool :=
  match v with PDict _ => true | _ => false end.

(** A capture started at time 0 with the arguments of [main]. *)
Definition capture_at_0 : Slow.popen :=
  {| Slow.started := 0; Slow.expected := 3; Slow.timer_ms := 160000 |}.

(** An alert history in which the rule has resolved once and fired twice. *)
Definition sample_history : list value :=
  [PDict [("rule_id", PInt 42); ("status", PStr "resolved")];
   PDict [("id", PInt 5); ("rule_id", PInt 42); ("status", PStr "firing")];
   PDict [("id", PInt 6); ("rule_id", PInt 42); ("status", PStr "firing")]].

(** A result that [except Exception] can take: a return, or an instance of
    [Exception]. *)
Definition settled {A} (r : res A) : Prop :=
  match r with
  | Ret _ => True
  | Raise e => is_Exception e = true
  | OutOfFuel => False
  end.

(** A piece of a script every run of which ends settled and changes the
    state within [R]. *)
Definition steady {S A} (R : S -> S -> Prop) (m : M S A) : Prop :=
  forall s, R s (snd (m s)) /\ settled (fst (m s)).

(** A change of the state that leaves a part of it as it was. *)
Definition unchanged {S T} (part : S -> T) (s s' : S) : Prop := part s' = part s.

(** The recorded outcomes and the clock of the slow script. *)
Definition at_rest (s : Slow.state) : list Slow.outcome * Z :=
  (Slow.results s, Slow.clock s).

(** The names of recorded outcomes, and an outcome whose status is one of
    the two that [check] writes. *)
Definition names_of (rs : list (string * string * option string)) : list string :=
  map (fun o => fst (fst o)) rs.

Definition binary (o : string * string * option string) : Prop :=
  status_of o = "ok" \/ status_of o = "fail".

(** The scenarios of the two scripts, in the order of their [check]s. *)
Definition slow_catalogue : list string :=
  ["create_sla_config"; "create_template"; "create_channel"; "create_rule_and_bind";
   "alert_firing_history"; "webhook_firing_delivery"; "ticket_ws_emit";
   "alert_resolved_history"; "webhook_resolved_delivery"; "sla_breach_check";
   "websocket_notifications"; "oncall_flow"; "correlation_flow"; "escalation_flow"].

Definition fast_catalogue : list string :=
  ["templates_crud"; "channels_webhook"; "channels_lark"; "channels_telegram";
   "data_sources_crud"; "silences_crud"; "tickets_crud"; "users_crud";
   "batch_import_export"; "misc_reads"].

(** How the guarded phase of a run may end: settled, and either it raised
    with nothing recorded or outcomes are recorded under exactly these
    names, in this order. *)
Definition all_or_nothing {S A} (results : S -> list (string * string * option string))
    (names : list string) (r : res A * S) : Prop :=
  settled (fst r)
  /\ ((exists e, fst r = Raise e) /\ results (snd r) = []
      \/ names_of (results (snd r)) = names /\ Forall binary (results (snd r))).

(** Every recorded outcome has status [ok]. *)
Definition all_ok (rs : list (string * string * option string)) : Prop :=
  Forall (fun o => status_of o = "ok") rs.

(** How a whole run may end: with exit status 0 or 1; with nothing
    recorded or with outcomes under exactly these names, each [ok] or
    [fail]; and with status 0 only if all of them are recorded and [ok]. *)
Definition verdict {S A} (results : S -> list (string * string * option string))
    (names : list string) (r : res A * S) : Prop :=
  (exit_status (fst r) = Some 0 \/ exit_status (fst r) = Some 1)
  /\ (results (snd r) = [] \/ names_of (results (snd r)) = names)
  /\ Forall binary (results (snd r))
  /\ (exit_status (fst r) = Some 0 ->
      names_of (results (snd r)) = names /\ all_ok (results (snd r))).

(** The servers that a trace has shut down, in the order of the calls. *)
Definition shutdowns_of (tr : list event) : list Z :=
  omap (fun e => match e with EShutdown server => Some server | _ => None end) tr.

(** The recorded outcomes of the fast script and the servers it has shut
    down. *)
Definition fast_rest (s : Fast.state) : list Fast.outcome * list Z :=
  (Fast.results s, shutdowns_of (Fast.trace s)).

(** The stub servers of the fast script, in the order in which [main]
    shuts them down. *)
Definition fast_stubs : list Z := [Fast.WEBHOOK_PORT; Fast.TELEGRAM_PORT; Fast.LARK_PORT].

(** How a run of the fast script from [s0] may end: as [verdict] says,
    with status 0 whenever all the outcomes are recorded and [ok], and
    with its stub servers shut down exactly if outcomes are recorded. *)
Definition fast_end (s0 : Fast.state) {A} (r : res A * Fast.state) : Prop :=
  verdict Fast.results fast_catalogue r
  /\ (names_of (Fast.results (snd r)) = fast_catalogue -> all_ok (Fast.results (snd r)) ->
      exit_status (fst r) = Some 0)
  /\ shutdowns_of (Fast.trace (snd r))
     = shutdowns_of (Fast.trace s0)
       ++ match Fast.results (snd r) with [] => [] | _ => fast_stubs end.

(** The events of a run of the fast script from [s] to [s']. *)
Definition fast_events (s s' : Fast.state) : list event :=
  drop (length (Fast.trace s)) (Fast.trace s').

(** Events that leave nothing behind: whatever one of them created in a
    collection, another one asks to delete, at the address of the
    collection followed by the identifier. *)
Definition cleans_up (E : env) (evs : list event) : Prop :=
  forall q rep id,
    EHttp q rep ∈ evs -> created_by (EHttp q rep) = Some id ->
    (req_url q +:+ "/" +:+ py_str E id) ∈ deletes_of evs.

(** A piece of the fast script that has cleaned up whenever it returns. *)
Definition tidy (E : env) {A} (m : M Fast.state A) : Prop :=
  forall s a s', m s = (Ret a, s') -> cleans_up E (fast_events s s').

(** A platform that answers every request with a resource of identifier
    42. *)
Definition obliging : env :=
  world (fun _ _ => Body (PDict [("data", PDict [("id", PInt 42)])])).

(** The address at which [delete_named] asks to delete a row of the
    listing, for the rows that bear the name and have an identifier. *)
Definition rule_to_delete (E : env) (name : string) (row : value) : option string :=
  match dict_get row "name", subscript row "id" with
  | Ret n, Ret id =>
      if value_eqb n (PStr name)
      then Some (Fast.API_BASE +:+ "/alert-rules/" +:+ py_str E id)
      else None
  | _, _ => None
  end.

(** A platform that answers no request to this address with a body. *)
Definition refuses (E : env) (url : string) : Prop :=
  forall tr q v, req_url q = url -> platform E tr q <> Body v.

(** The unchecked reads that end the guarded phase of the slow script,
    after its last check. *)
Definition sla_reads (E : env) (hdrs : list (string * string)) : M Slow.state unit :=
  let! id := Slow.entry_get "id" in
  (if truthy id then
     Slow.http E "GET" ("/sla/alerts/" +:+ py_str E id) None hdrs >> ret tt
   else ret tt) >>
  Slow.http E "GET" "/sla/report" None hdrs >>
  ret tt.

(** A run that ends on an exception that nothing has caught, as opposed
    to [sys.exit]. *)
Definition uncaught {S A} (r : res A * S) : Prop :=
  exists e, fst r = Raise e /\ is_Exception e = true.

(** * How a run changes the state *)

Section Steps.
Context (E : env).

(** ** The stub servers, request by request *)

Lemma do_POST_cases path cl rfile st :
  match Slow.do_POST E path cl rfile st with
  | (Some r, st') =>
      status r = 200
      /\ Slow.firing st' = Slow.firing st
      /\ exists body, Slow.webhook_hits st'
           = Slow.webhook_hits st ++ [PDict [("path", PStr path); ("body", PStr body)]]
  | (None, st') => st' = st
  end.
Proof.
  unfold Slow.do_POST.
  destruct (py_int E _); [|done]. destruct (utf8_decode E _) as [text|]; [|done].
  simpl. split; [done|]. split; [done|]. by exists text.
Qed.

Lemma serve_hits now r st :
  Slow.webhook_hits st `prefix_of` Slow.webhook_hits (snd (Slow.serve E now r st)).
Proof.
  destruct r as [path|path cl rfile]; simpl; [done|].
  pose proof (do_POST_cases path cl rfile st) as H.
  destruct (Slow.do_POST E path cl rfile st) as [[r|] st']; simpl.
  - destruct H as (_ & _ & [body ->]). by apply prefix_app_r.
  - by subst.
Qed.

Lemma serve_firing now r st :
  Slow.firing (snd (Slow.serve E now r st)) = Slow.firing st.
Proof.
  destruct r as [path|path cl rfile]; simpl; [done|].
  pose proof (do_POST_cases path cl rfile st) as H.
  destruct (Slow.do_POST E path cl rfile st) as [[r|] st']; simpl.
  - by destruct H as (_ & -> & _).
  - by subst.
Qed.

Lemma serve_all_hits now tr rs : forall st,
  Slow.webhook_hits st `prefix_of` Slow.webhook_hits (Slow.serve_all E now tr rs st).
Proof.
  induction rs as [|r rs IH]; intros st; [done|].
  unfold Slow.serve_all in *; simpl.
  etrans; [|apply IH]. destruct (Slow.is_up _ _); [apply serve_hits|done].
Qed.

Lemma serve_all_firing now tr rs : forall st,
  Slow.firing (Slow.serve_all E now tr rs st) = Slow.firing st.
Proof.
  induction rs as [|r rs IH]; intros st; [done|].
  unfold Slow.serve_all in *; simpl. rewrite IH.
  destruct (Slow.is_up _ _); [apply serve_firing|done].
Qed.

(** ** The order on states *)

#[local] Instance evolves_refl : Reflexive evolves.
Proof. intros s. unfold evolves. split; [done|]. split; [lia|]. split; [done|]. by split. Qed.

#[local] Instance evolves_trans : Transitive evolves.
Proof.
  intros s1 s2 s3 (T1 & C1 & H1 & F1 & R1) (T2 & C2 & H2 & F2 & R2).
  unfold evolves. split; [by etrans|]. split; [lia|]. split; [by etrans|]. split; auto.
Qed.

(** A change that touches none of the ordered components, or moves the
    clock forward. *)
Ltac evolves_trivially :=
  intros ?; unfold evolves; simpl;
  split; [done|]; split; [lia|]; split; [done|]; by split.

(** ** The combinators *)

Lemma respects_ret {A} (a : A) : respects (ret a).
Proof. intros s. reflexivity. Qed.

Lemma respects_raise {A} (e : exn) : respects (@raise Slow.state A e).
Proof. intros s. reflexivity. Qed.

Lemma respects_sys_exit code : respects (@sys_exit Slow.state code).
Proof. intros s. reflexivity. Qed.

Lemma respects_lift {A} (r : res A) : respects (lift r).
Proof. intros s. reflexivity. Qed.

Lemma respects_gets {A} (f : Slow.state -> A) : respects (gets f).
Proof. intros s. reflexivity. Qed.

Lemma respects_modify (f : Slow.state -> Slow.state) :
  (forall s, evolves s (f s)) -> respects (modify f).
Proof. intros H s. apply H. Qed.

Lemma respects_bind {A B} (m : M Slow.state A) (k : A -> M Slow.state B) :
  respects m -> (forall a, respects (k a)) -> respects (bind m k).
Proof.
  intros Hm Hk s. unfold bind. specialize (Hm s).
  destruct (m s) as [[a|e|] s1]; simpl in Hm; try done.
  etrans; [exact Hm|apply Hk].
Qed.

Lemma respects_try_except {A} (body : M Slow.state A) handler :
  respects body -> (forall e, respects (handler e)) -> respects (try_except body handler).
Proof.
  intros Hb Hh s. unfold try_except. specialize (Hb s).
  destruct (body s) as [[a|e|] s1]; simpl in Hb; try done.
  destruct (is_Exception e); [|done]. etrans; [exact Hb|apply Hh].
Qed.

Lemma respects_try_finally {A} (body : M Slow.state A) fin :
  respects body -> respects fin -> respects (try_finally body fin).
Proof.
  intros Hb Hf s. unfold try_finally. specialize (Hb s).
  destruct (body s) as [[a|e|] s1]; simpl in Hb; try done;
    specialize (Hf s1); destruct (fin s1) as [[[]|e'|] s2]; simpl in Hf; by etrans.
Qed.

(** ** The primitive steps *)

Lemma respects_emit e : respects (Slow.emit E e).
Proof.
  intros s. unfold Slow.emit, modify, evolves; simpl.
  split; [by apply prefix_app_r|]. split; [lia|].
  split; [apply serve_all_hits|]. split; [|done].
  by rewrite serve_all_firing.
Qed.

Lemma respects_time_time : respects Slow.time_time.
Proof. apply respects_gets. Qed.

Lemma respects_time_sleep secs : respects (Slow.time_sleep E secs).
Proof.
  unfold Slow.time_sleep. destruct (secs <? 0) eqn:Hs; [apply respects_raise|].
  apply Z.ltb_ge in Hs. apply respects_bind; [|intros; apply respects_emit].
  apply respects_modify. evolves_trivially.
Qed.

Lemma respects_uuid6 : respects (Slow.uuid6 E).
Proof.
  unfold Slow.uuid6. apply respects_bind; [apply respects_gets|intros n].
  apply respects_bind; [|intros; apply respects_ret].
  apply respects_modify. evolves_trivially.
Qed.

Lemma respects_start_server port : respects (Slow.start_server E port).
Proof.
  unfold Slow.start_server. destruct (bind_ok E port); [|apply respects_raise].
  apply respects_bind; [apply respects_emit|intros; apply respects_ret].
Qed.

Lemma respects_shutdown server : respects (Slow.shutdown E server).
Proof. apply respects_emit. Qed.

Lemma respects_http method path data hdrs : respects (Slow.http E method path data hdrs).
Proof.
  unfold Slow.http. apply respects_bind; [apply respects_gets|intros tr].
  apply respects_bind; [apply respects_emit|intros _].
  destruct (platform E tr _); [apply respects_ret|apply respects_raise..].
Qed.

Lemma respects_created_get key : respects (Slow.created_get key).
Proof.
  unfold Slow.created_get. apply respects_bind; [apply respects_gets|intros c].
  destruct (c !! key); [apply respects_ret|apply respects_raise].
Qed.

Lemma registry_ok_insert (c : gmap string value) key v :
  key ∈ ["rule_id"; "channel_id"; "template_id"; "sla_config_id"; "user_id"] ->
  registry_ok c -> registry_ok (<[key := v]> c).
Proof.
  intros Hkey [Hdom Hesc]. split.
  - rewrite dom_insert_L, Hdom. unfold registry_keys.
    repeat (apply elem_of_cons in Hkey as [-> | Hkey]; [set_solver|]).
    by apply elem_of_nil in Hkey.
  - rewrite lookup_insert_ne; [done|].
    repeat (apply elem_of_cons in Hkey as [-> | Hkey]; [done|]).
    by apply elem_of_nil in Hkey.
Qed.

Lemma registry_ok_init : registry_ok Slow.created_init.
Proof.
  split; [|done]. unfold Slow.created_init, registry_keys.
  rewrite !dom_insert_L, dom_empty_L. simpl. set_solver.
Qed.

Lemma respects_created_set key v :
  key ∈ ["rule_id"; "channel_id"; "template_id"; "sla_config_id"; "user_id"] ->
  respects (Slow.created_set key v).
Proof.
  intros Hkey. apply respects_modify. intros s. unfold evolves; simpl.
  split; [done|]. split; [lia|]. split; [done|]. split; [done|].
  by apply registry_ok_insert.
Qed.

Lemma respects_entry_get key : respects (Slow.entry_get key).
Proof.
  unfold Slow.entry_get. apply respects_bind; [apply respects_gets|intros; apply respects_ret].
Qed.

Lemma respects_at2 v k1 k2 : respects (Slow.at2 v k1 k2).
Proof.
  unfold Slow.at2. apply respects_bind; [apply respects_lift|intros; apply respects_lift].
Qed.

Lemma respects_set_results f : respects (modify (Slow.set_results f)).
Proof. apply respects_modify. evolves_trivially. Qed.

Lemma respects_set_alert_history_entry f : respects (modify (Slow.set_alert_history_entry f)).
Proof. apply respects_modify. evolves_trivially. Qed.

Lemma respects_clear_firing : respects (modify (Slow.set_stub (Slow.set_firing false))).
Proof.
  apply respects_modify. evolves_trivially.
Qed.

Lemma respects_check {A} name (fn : M Slow.state A) :
  respects fn -> respects (Slow.check E name fn).
Proof.
  intros H. unfold Slow.check. apply respects_try_except.
  - apply respects_bind; [done|intros; apply respects_set_results].
  - intros e. apply respects_set_results.
Qed.

Lemma respects_swallow {A} (m : M Slow.state A) : respects m -> respects (Slow.swallow m).
Proof.
  intros H. unfold Slow.swallow. apply respects_try_except.
  - apply respects_bind; [done|intros; apply respects_ret].
  - intros e. apply respects_ret.
Qed.

Lemma respects_wait_loop fuel p deadline step label :
  respects p -> respects (Slow.wait_loop E fuel p deadline step label).
Proof.
  intros Hp. induction fuel as [|fuel IH]; simpl; [apply respects_lift|].
  apply respects_bind; [apply respects_time_time|intros now].
  destruct (now <? deadline); [|apply respects_raise].
  apply respects_bind; [done|intros [|]]; [apply respects_ret|].
  apply respects_bind; [apply respects_time_sleep|intros; apply IH].
Qed.

Lemma respects_wait_for fuel p timeout step label :
  respects p -> respects (Slow.wait_for E fuel p timeout step label).
Proof.
  intros Hp. unfold Slow.wait_for.
  apply respects_bind; [apply respects_time_time|intros; by apply respects_wait_loop].
Qed.

Lemma respects_capture n t : respects (Slow.capture_ws_messages E n t).
Proof.
  unfold Slow.capture_ws_messages. destruct (node_ok E); [|apply respects_raise].
  apply respects_bind; [apply respects_time_time|intros now].
  apply respects_bind; [apply respects_emit|intros; apply respects_ret].
Qed.

Lemma respects_proc_wait proc t : 0 <= t -> respects (Slow.proc_wait E proc t).
Proof.
  intros Ht s. unfold Slow.proc_wait, bind at 1, Slow.time_time, gets.
  set (ends_ms := Slow.started proc * 1000 + _).
  destruct (ends_ms <=? Slow.clock s * 1000) eqn:H1; [apply respects_emit|].
  apply Z.leb_gt in H1.
  destruct (ends_ms <=? (Slow.clock s + t) * 1000) eqn:H2.
  - change (evolves s (snd (Slow.emit E (EProcWait t)
                              (Slow.set_clock (fun _ => (ends_ms + 999) / 1000) s)))).
    etrans; [|apply respects_emit]. unfold evolves; simpl.
    split; [done|]. split; [|split; [done|by split]].
    apply Z.div_le_lower_bound; lia.
  - change (evolves s (snd (Slow.emit E (EProcWait t)
                              (Slow.set_clock (fun c => c + t) s)))).
    etrans; [|apply respects_emit]. unfold evolves; simpl.
    split; [done|]. split; [lia|split; [done|by split]].
Qed.

Lemma respects_ws_check proc path : respects (Slow.ws_check E proc path).
Proof.
  unfold Slow.ws_check.
  apply respects_bind; [by apply respects_proc_wait|intros _].
  apply respects_bind; [apply respects_emit|intros _; apply respects_lift].
Qed.

(** One step of a proof that a closure respects the order, read off the
    head of the closure. *)
Ltac respects_step :=
  lazymatch goal with
  | |- respects (bind _ _) => apply respects_bind; [|intros ?]
  | |- respects (ret _) => apply respects_ret
  | |- respects (raise _) => apply respects_raise
  | |- respects (lift _) => apply respects_lift
  | |- respects (gets _) => apply respects_gets
  | |- respects (Slow.http _ _ _ _ _) => apply respects_http
  | |- respects (Slow.uuid6 _) => apply respects_uuid6
  | |- respects Slow.time_time => apply respects_time_time
  | |- respects (Slow.time_sleep _ _) => apply respects_time_sleep
  | |- respects (Slow.created_get _) => apply respects_created_get
  | |- respects (Slow.created_set _ _) =>
      apply respects_created_set; apply list_elem_of_In; simpl; tauto
  | |- respects (Slow.entry_get _) => apply respects_entry_get
  | |- respects (Slow.at2 _ _ _) => apply respects_at2
  | |- respects (Slow.emit _ _) => apply respects_emit
  | |- respects (Slow.shutdown _ _) => apply respects_shutdown
  | |- respects (Slow.start_server _ _) => apply respects_start_server
  | |- respects (Slow.swallow _) => apply respects_swallow
  | |- respects (Slow.check _ _ _) => apply respects_check
  | |- respects (Slow.wait_for _ _ _ _ _ _) => apply respects_wait_for
  | |- respects (Slow.ws_check _ _ _) => apply respects_ws_check
  | |- respects (Slow.capture_ws_messages _ _ _) => apply respects_capture
  | |- respects (modify (Slow.set_results _)) => apply respects_set_results
  | |- respects (modify (Slow.set_alert_history_entry _)) =>
      apply respects_set_alert_history_entry
  | |- respects (modify (Slow.set_stub (Slow.set_firing false))) =>
      apply respects_clear_firing
  | |- respects (if ?b then _ else _) => destruct b
  | |- respects (match ?x with _ => _ end) => destruct x
  end.

Ltac respects_all := cbv zeta; repeat respects_step.

Section Closures.
Context (login : value) (hdrs : list (string * string)) (group_id : value).

Lemma respects_create_test_user : respects (Slow.create_test_user E hdrs).
Proof. unfold Slow.create_test_user. respects_all. Qed.

Lemma respects_create_sla_config : respects (Slow.create_sla_config E hdrs).
Proof. unfold Slow.create_sla_config. respects_all. Qed.

Lemma respects_create_template : respects (Slow.create_template E hdrs).
Proof. unfold Slow.create_template. respects_all. Qed.

Lemma respects_create_channel : respects (Slow.create_channel E hdrs group_id).
Proof. unfold Slow.create_channel. respects_all. Qed.

Lemma respects_create_rule_and_bind : respects (Slow.create_rule_and_bind E hdrs group_id).
Proof. unfold Slow.create_rule_and_bind. respects_all. Qed.

Lemma respects_has_firing_rows rows : respects (Slow.has_firing_rows rows).
Proof. induction rows as [|row rows IH]; simpl; respects_all; exact IH. Qed.

Lemma respects_has_firing : respects (Slow.has_firing E hdrs).
Proof. unfold Slow.has_firing. respects_all. apply respects_has_firing_rows. Qed.

Lemma respects_has_resolved_rows rows : respects (Slow.has_resolved_rows rows).
Proof. induction rows as [|row rows IH]; simpl; respects_all; exact IH. Qed.

Lemma respects_has_resolved : respects (Slow.has_resolved E hdrs).
Proof. unfold Slow.has_resolved. respects_all. apply respects_has_resolved_rows. Qed.

Lemma respects_wait_for_firing fuel : respects (Slow.wait_for_firing E hdrs fuel).
Proof. unfold Slow.wait_for_firing. respects_all. apply respects_has_firing. Qed.

Lemma respects_wait_for_resolved fuel : respects (Slow.wait_for_resolved E hdrs fuel).
Proof. unfold Slow.wait_for_resolved. respects_all. apply respects_has_resolved. Qed.

Lemma respects_wait_for_webhook fuel n : respects (Slow.wait_for_webhook E fuel n).
Proof. unfold Slow.wait_for_webhook, Slow.wait_for_webhook_ready. respects_all. Qed.

Lemma respects_sla_breach_check : respects (Slow.sla_breach_check E hdrs).
Proof. unfold Slow.sla_breach_check. respects_all. Qed.

Lemma respects_oncall_flow : respects (Slow.oncall_flow E login hdrs).
Proof. unfold Slow.oncall_flow. respects_all. Qed.

Lemma respects_correlation_flow : respects (Slow.correlation_flow E hdrs).
Proof. unfold Slow.correlation_flow. respects_all. Qed.

Lemma respects_escalation_flow token username :
  respects (Slow.escalation_flow E hdrs token username).
Proof. unfold Slow.escalation_flow. respects_all. Qed.

Lemma respects_create_ticket_for_ws : respects (Slow.create_ticket_for_ws E hdrs).
Proof. unfold Slow.create_ticket_for_ws. respects_all. Qed.

Lemma respects_cleanup : respects (Slow.cleanup E hdrs).
Proof. unfold Slow.cleanup. respects_all. Qed.

Lemma respects_scenarios fuel : respects (Slow.scenarios E login hdrs group_id fuel).
Proof.
  unfold Slow.scenarios. respects_all;
    first [ apply respects_create_test_user | apply respects_create_sla_config
          | apply respects_create_template | apply respects_create_channel
          | apply respects_create_rule_and_bind | apply respects_wait_for_firing
          | apply respects_wait_for_webhook | apply respects_create_ticket_for_ws
          | apply respects_wait_for_resolved | apply respects_sla_breach_check
          | apply respects_oncall_flow | apply respects_correlation_flow
          | apply respects_escalation_flow ].
Qed.

End Closures.

Lemma respects_summary_loop rs : forall ok, respects (Slow.summary_loop E rs ok).
Proof.
  induction rs as [|[[name status] err] rs IH]; intros ok; simpl; respects_all; apply IH.
Qed.

Lemma respects_summary : respects (Slow.summary E).
Proof. unfold Slow.summary. respects_all; [apply respects_summary_loop|apply respects_sys_exit]. Qed.

Lemma respects_setup : respects (Slow.setup E).
Proof. unfold Slow.setup. respects_all. Qed.

Lemma respects_main fuel : respects (Slow.main E fuel).
Proof.
  unfold Slow.main. respects_all.
  - apply respects_modify. intros s. unfold evolves; simpl.
    split; [done|]. split; [lia|]. split; [done|]. split; [done|].
    intros _. apply registry_ok_init.
  - apply respects_setup.
  - apply respects_try_finally; respects_all; [apply respects_scenarios|apply respects_cleanup].
  - apply respects_summary.
Qed.

End Steps.

(** * Facts *)

(** ** The monad *)

Lemma bind_eq {S A B} (m : M S A) (k : A -> M S B) (s : S) r s' :
  m s = (r, s') ->
  bind m k s = match r with
               | Ret a => k a s'
               | Raise e => (Raise e, s')
               | OutOfFuel => (OutOfFuel, s')
               end.
Proof. intros H. unfold bind. rewrite H. destruct r; reflexivity. Qed.

(** ** The reporter *)

Section Reporter.
Context (E : env).

Lemma slow_summary_loop rs : forall ok s,
  fst (Slow.summary_loop E rs ok s) = Ret (ok && forallb status_ok rs).
Proof.
  induction rs as [|[[name status] err] rs IH]; intros ok s; simpl.
  - by rewrite andb_true_r.
  - unfold bind; simpl. rewrite IH. unfold status_ok at 2, status_of; simpl.
    destruct (String.eqb status "ok"); simpl; [done|]. by rewrite andb_false_r.
Qed.

Lemma fast_summary_loop rs : forall ok s,
  fst (Fast.summary_loop rs ok s) = Ret (ok && forallb status_ok rs).
Proof.
  induction rs as [|[[name status] err] rs IH]; intros ok s; simpl.
  - by rewrite andb_true_r.
  - unfold bind; simpl. rewrite IH. unfold status_ok at 2, status_of; simpl.
    destruct (String.eqb status "ok"); simpl; [done|]. by rewrite andb_false_r.
Qed.

Lemma slow_summary_status s :
  exit_status (fst (Slow.summary E s))
  = Some (if forallb status_ok (Slow.results s) then 0 else 1).
Proof.
  unfold Slow.summary, bind; simpl.
  pose proof (slow_summary_loop (Slow.results s) true
                (snd (Slow.emit E (EPrint "Summary:") s))) as H.
  unfold Slow.emit, modify in H; simpl in H.
  destruct (Slow.summary_loop _ _ _ _) as [r s'] eqn:Hr; simpl in H; subst r.
  by destruct (forallb _ _).
Qed.

Lemma fast_summary_status s :
  exit_status (fst (Fast.summary s))
  = Some (if forallb status_ok (Fast.results s) then 0 else 1).
Proof.
  unfold Fast.summary, bind; simpl.
  pose proof (fast_summary_loop (Fast.results s) true
                (snd (Fast.emit (EPrint "Summary:") s))) as H.
  unfold Fast.emit, modify in H; simpl in H.
  destruct (Fast.summary_loop _ _ _) as [r s'] eqn:Hr; simpl in H; subst r.
  by destruct (forallb _ _).
Qed.

Lemma forallb_status_ok rs :
  forallb status_ok rs = true <-> Forall (fun o => status_of o = "ok") rs.
Proof.
  rewrite forallb_forall, Forall_forall. unfold status_ok.
  split; intros H o Ho.
  - apply String.eqb_eq, H. by apply list_elem_of_In.
  - apply String.eqb_eq, H. by apply list_elem_of_In.
Qed.

End Reporter.

(** C8.  In both scripts the summary phase ends the process with status 0
    exactly when every recorded outcome has status [ok]; with any other
    recorded status it ends with status 1. *)
Theorem summary_success_iff_all_ok (E : env) :
  (forall s : Slow.state,
      (exit_status (fst (Slow.summary E s)) = Some 0
       <-> Forall (fun o => status_of o = "ok") (Slow.results s))
      /\ (exit_status (fst (Slow.summary E s)) = Some 0
          \/ exit_status (fst (Slow.summary E s)) = Some 1))
  /\ (forall s : Fast.state,
      (exit_status (fst (Fast.summary s)) = Some 0
       <-> Forall (fun o => status_of o = "ok") (Fast.results s))
      /\ (exit_status (fst (Fast.summary s)) = Some 0
          \/ exit_status (fst (Fast.summary s)) = Some 1)).
Proof.
  split; intros s.
  - rewrite slow_summary_status, <- forallb_status_ok.
    destruct (forallb status_ok _); split; try split; try done; auto.
  - rewrite fast_summary_status, <- forallb_status_ok.
    destruct (forallb status_ok _); split; try split; try done; auto.
Qed.

(** ** The scenario runner *)

(** C1, as amended.  In both scripts [check(name, fn)] returns normally when
    [fn] returns or raises an instance of [Exception], and it has then
    appended exactly one outcome after whatever [fn] did to the state:
    [(name, "ok", None)] in the first case, [(name, "fail", str(e))] in the
    second.  An exception that is not an instance of [Exception]
    ([SystemExit], [KeyboardInterrupt]) is not caught: it leaves [check]
    as it left [fn], and nothing is recorded. *)
Theorem check_records_one_outcome (E : env) (name : string) :
  (forall (A : Type) (fn : M Slow.state A) s s1,
      (forall a, fn s = (Ret a, s1) ->
         Slow.check E name fn s
         = (Ret tt, Slow.set_results (fun rs => rs ++ [(name, "ok", None)]) s1))
      /\ (forall cls msg, fn s = (Raise (Exception cls msg), s1) ->
         Slow.check E name fn s
         = (Ret tt, Slow.set_results (fun rs => rs ++ [(name, "fail", Some msg)]) s1))
      /\ (forall e, is_Exception e = false -> fn s = (Raise e, s1) ->
         Slow.check E name fn s = (Raise e, s1)))
  /\ (forall (A : Type) (fn : M Fast.state A) s s1,
      (forall a, fn s = (Ret a, s1) ->
         Fast.check E name fn s
         = (Ret tt, Fast.set_results (fun rs => rs ++ [(name, "ok", None)]) s1))
      /\ (forall cls msg, fn s = (Raise (Exception cls msg), s1) ->
         Fast.check E name fn s
         = (Ret tt, Fast.set_results (fun rs => rs ++ [(name, "fail", Some msg)]) s1))
      /\ (forall e, is_Exception e = false -> fn s = (Raise e, s1) ->
         Fast.check E name fn s = (Raise e, s1))).
Proof.
  split; intros A fn s s1; (split; [|split]).
  - intros a H. unfold Slow.check, try_except, bind. by rewrite H.
  - intros cls msg H. unfold Slow.check, try_except, bind. by rewrite H.
  - intros e He H. unfold Slow.check, try_except, bind. by rewrite H, He.
  - intros a H. unfold Fast.check, try_except, bind. by rewrite H.
  - intros cls msg H. unfold Fast.check, try_except, bind. by rewrite H.
  - intros e He H. unfold Fast.check, try_except, bind. by rewrite H, He.
Qed.

Lemma check_records_one_outcome_witness :
  Slow.check down "probe" (Slow.http down "GET" "/sla/report" None []) (Slow.boot 0)
  = (Ret tt,
     Slow.set_results (fun rs => rs ++ [("probe", "fail", Some "HTTP 500: down")])
       (snd (Slow.http down "GET" "/sla/report" None [] (Slow.boot 0)))).
Proof.
  apply (proj1 (proj2 (proj1 (check_records_one_outcome down "probe") _ _ _ _)))
    with (cls := "RuntimeError").
  reflexivity.
Defined.

(** C1, as stated, fails: a scenario that ends in [sys.exit(3)] takes
    [check] with it, and nothing is recorded. *)
Lemma check_lets_SystemExit_through :
  Slow.check down "probe" (sys_exit 3) (Slow.boot 0) = (Raise (SystemExit 3), Slow.boot 0)
  /\ Fast.check down "probe" (sys_exit 3) (Fast.boot 0) = (Raise (SystemExit 3), Fast.boot 0).
Proof. split; reflexivity. Qed.

(** ** The stub servers *)

Lemma prefix_append (p rest : string) : String.prefix p (p +:+ rest) = true.
Proof.
  induction p as [|c p IH]; simpl; [by destruct rest|].
  by destruct (ascii_dec c c).
Qed.

(** C6.  A GET whose path starts with [/api/v1/query] is answered 200 with
    a result vector that holds one sample, named [up], valued
    [[now, "1"]], while the flag is set, and that is empty while it is not.
    No request served by a stub changes the flag, and no step of [main]
    sets it again once it is cleared; so after [_State.firing = False]
    every query finds an empty vector. *)
Theorem metrics_stub_follows_flag (E : env) :
  (forall now rest st,
      let r := Slow.do_GET now ("/api/v1/query" +:+ rest) st in
      status r = 200
      /\ if Slow.firing st
         then exists x, result_vector r = Some [x]
                        /\ sample_name x = Ret (PStr "up")
                        /\ sample_value x = Ret (PList [PInt now; PStr "1"])
         else result_vector r = Some [])
  /\ (forall now tr rs st,
      Slow.firing (Slow.serve_all E now tr rs st) = Slow.firing st)
  /\ (forall now tr rs st now' rest,
      result_vector
        (Slow.do_GET now' ("/api/v1/query" +:+ rest)
           (Slow.serve_all E now tr rs (Slow.set_firing false st)))
      = Some [])
  /\ (forall login hdrs group_id fuel s,
      Slow.firing (Slow.stub s) = false ->
      Slow.firing (Slow.stub (snd (Slow.scenarios E login hdrs group_id fuel s))) = false)
  /\ (forall fuel s,
      Slow.firing (Slow.stub s) = false ->
      Slow.firing (Slow.stub (snd (Slow.main E fuel s))) = false).
Proof.
  split; [|split; [|split; [|split]]].
  - intros now rest st r. subst r. unfold Slow.do_GET. rewrite prefix_append.
    unfold Slow._handle_query. destruct (Slow.firing st); simpl.
    + split; [done|]. eexists. split; [reflexivity|]. by split.
    + done.
  - apply serve_all_firing.
  - intros now tr rs st now' rest. unfold Slow.do_GET. rewrite prefix_append.
    unfold Slow._handle_query. by rewrite serve_all_firing.
  - intros login hdrs group_id fuel s.
    by destruct (respects_scenarios E login hdrs group_id fuel s) as (_ & _ & _ & H & _).
  - intros fuel s. by destruct (respects_main E fuel s) as (_ & _ & _ & H & _).
Qed.

Lemma metrics_stub_follows_flag_witness :
  Slow.firing (Slow.stub (snd (Slow.main half_up 40
                 (Slow.set_stub (Slow.set_firing false) (Slow.boot 0))))) = false.
Proof.
  apply (proj2 (proj2 (proj2 (proj2 (metrics_stub_follows_flag half_up))))).
  reflexivity.
Defined.


(** ** The push-notification capture *)

Lemma pump_no_message n t crashed arrivals : forall msgs,
  no_message arrivals = true ->
  Slow.written (Slow.pump n t crashed msgs arrivals) = None
  \/ Slow.written (Slow.pump n t crashed msgs arrivals) = Some (join newline msgs).
Proof.
  induction arrivals as [|[at_ ev] arrivals IH]; intros msgs H; simpl in *.
  - unfold Slow.on_timer. destruct crashed as [c|]; [|by right].
    destruct (c <? t); [by left|by right].
  - apply andb_true_iff in H as [Hev H].
    destruct (Slow.due t crashed <=? at_).
    + unfold Slow.on_timer. destruct crashed as [c|]; [|by right].
      destruct (c <? t); [by left|by right].
    + destruct ev; try done; by apply IH.
Qed.

(** C9, as amended.  The capture writes its marker [NO_WEBSOCKET] when the
    node process finds no WebSocket implementation, and that differs from
    the empty transcript; a socket that dispatches no message, reachable or
    not, leaves the transcript empty; and [ws_check] reports the marker and
    the empty transcript with one and the same failure. *)
Theorem capture_marker_means_no_client (n t : Z) :
  Slow.transcript NoWebSocket n t = "NO_WEBSOCKET"
  /\ Slow.transcript NoWebSocket n t <> EmptyString
  /\ (forall arrivals crashed,
        no_message arrivals = true ->
        Slow.transcript (Socket arrivals crashed) n t = EmptyString)
  /\ Slow.ws_assert (strip "NO_WEBSOCKET")
     = Raise (RuntimeError "no websocket messages captured")
  /\ Slow.ws_assert (strip EmptyString)
     = Raise (RuntimeError "no websocket messages captured").
Proof.
  split; [done|]. split; [done|]. split; [|by split].
  intros arrivals crashed H. unfold Slow.transcript; simpl.
  by destruct (pump_no_message n t crashed arrivals [] H) as [-> | ->].
Qed.

Lemma capture_marker_means_no_client_witness :
  Slow.transcript unreachable_builtin 3 160000 = EmptyString.
Proof.
  apply (proj1 (proj2 (proj2 (capture_marker_means_no_client 3 160000)))).
  reflexivity.
Defined.

(** C9, as stated, fails: with the channel unreachable the transcript is
    the one of a connected and silent channel, under either WebSocket
    implementation, and [ws_check] fails with the same message. *)
Lemma unreachable_channel_looks_silent :
  Slow.transcript unreachable_builtin 3 160000 = Slow.transcript connected_silent 3 160000
  /\ Slow.transcript unreachable_package 3 160000 = Slow.transcript connected_silent 3 160000
  /\ Slow.ws_assert (strip (Slow.transcript unreachable_builtin 3 160000))
     = Slow.ws_assert (strip (Slow.transcript connected_silent 3 160000))
  /\ Slow.ws_assert (strip (Slow.transcript unreachable_package 3 160000))
     = Raise (RuntimeError "no websocket messages captured").
Proof. repeat split; reflexivity. Qed.

(** ** The condition poller *)

Section Poller.
Context (E : env) (p : M Slow.state bool) (step : Z) (label : string).

Lemma time_sleep_eq s :
  0 <= step ->
  Slow.time_sleep E step s
  = (Ret tt, snd (Slow.emit E (ESleep step) (Slow.set_clock (fun t => t + step) s))).
Proof.
  intros H. unfold Slow.time_sleep.
  destruct (step <? 0) eqn:Hs; [apply Z.ltb_lt in Hs; lia|]. reflexivity.
Qed.

Lemma time_sleep_clock s :
  0 <= step -> Slow.clock (snd (Slow.time_sleep E step s)) = Slow.clock s + step.
Proof. intros H. by rewrite time_sleep_eq. Qed.

(** One unfolding of the loop. *)
Lemma wait_loop_step fuel deadline s :
  Slow.wait_loop E (S fuel) p deadline step label s
  = if Slow.clock s <? deadline then
      match p s with
      | (Ret true, s1) => (Ret true, s1)
      | (Ret false, s1) =>
          bind (Slow.time_sleep E step)
               (fun _ => Slow.wait_loop E fuel p deadline step label) s1
      | (Raise e, s1) => (Raise e, s1)
      | (OutOfFuel, s1) => (OutOfFuel, s1)
      end
    else (Raise (timeout_error label), s).
Proof.
  simpl. unfold bind at 1. unfold Slow.time_time, gets.
  destruct (Slow.clock s <? deadline); [|done].
  unfold bind at 1. destruct (p s) as [[[|]| |] s1]; reflexivity.
Qed.

Hypothesis step_pos : 0 < step.
Hypothesis p_instantaneous : instantaneous p.
Hypothesis p_ends : ends p.

(** With the deadline at most [n] steps away, [n + 1] loop tests are
    enough, and the loop ends in one of three ways. *)
Lemma wait_loop_bounded deadline : forall (n : nat) s,
  deadline - Slow.clock s <= Z.of_nat n * step ->
  exists r s',
    (forall fuel, (n < fuel)%nat -> Slow.wait_loop E fuel p deadline step label s = (r, s'))
    /\ Slow.clock s <= Slow.clock s'
    /\ ((r = Ret true /\ Slow.clock s' < deadline)
        \/ (r = Raise (timeout_error label)
            /\ (Slow.clock s' = Slow.clock s \/ Slow.clock s' < deadline + step))
        \/ (exists e s0, r = Raise e /\ p s0 = (Raise e, s') /\ Slow.clock s' < deadline)).
Proof.
  assert (Hlate : forall n s, deadline <= Slow.clock s ->
    exists r s',
      (forall fuel, (n < fuel)%nat -> Slow.wait_loop E fuel p deadline step label s = (r, s'))
      /\ Slow.clock s <= Slow.clock s'
      /\ ((r = Ret true /\ Slow.clock s' < deadline)
          \/ (r = Raise (timeout_error label)
              /\ (Slow.clock s' = Slow.clock s \/ Slow.clock s' < deadline + step))
          \/ (exists e s0, r = Raise e /\ p s0 = (Raise e, s') /\ Slow.clock s' < deadline))).
  { intros n s Hs. exists (Raise (timeout_error label)), s. split; [|split].
    - intros [|fuel] Hf; [lia|]. rewrite wait_loop_step.
      destruct (Slow.clock s <? deadline) eqn:Hc; [apply Z.ltb_lt in Hc; lia|done].
    - lia.
    - right; left. split; [done|by left]. }
  induction n as [|n IH]; intros s Hn.
  - apply Hlate. lia.
  - destruct (Z_lt_le_dec (Slow.clock s) deadline) as [Hc|Hc]; [|by apply Hlate].
    pose proof (p_instantaneous s) as Hinst. pose proof (p_ends s) as Hend.
    destruct (p s) as [[[|]| e |] s1] eqn:Hp; simpl in Hinst, Hend; [| | |done].
    + exists (Ret true), s1. split; [|split].
      * intros [|fuel] Hf; [lia|]. rewrite wait_loop_step, Hp.
        by apply Z.ltb_lt in Hc as ->.
      * lia.
      * left. split; [done|lia].
    + destruct (IH (snd (Slow.time_sleep E step s1))) as (r & s' & Hrun & Hmono & Hcases).
      { rewrite time_sleep_clock by lia. lia. }
      rewrite time_sleep_clock in Hmono, Hcases by lia.
      exists r, s'. split; [|split].
      * intros [|fuel] Hf; [lia|]. rewrite wait_loop_step, Hp.
        apply Z.ltb_lt in Hc as ->. unfold bind. rewrite time_sleep_eq by lia.
        rewrite <- (Hrun fuel) by lia. by rewrite time_sleep_eq by lia.
      * lia.
      * destruct Hcases as [[-> Hlt] | [[-> Hlt] | (e & s0 & -> & Hs0 & Hlt)]].
        -- left. split; [done|lia].
        -- right; left. split; [done|]. right. lia.
        -- right; right. exists e, s0. split; [done|]. split; [done|lia].
    + exists (Raise e), s1. split; [|split].
      * intros [|fuel] Hf; [lia|]. rewrite wait_loop_step, Hp.
        by apply Z.ltb_lt in Hc as ->.
      * lia.
      * right; right. exists e, s. split; [done|]. split; [done|lia].
Qed.

End Poller.

(** C2, as amended.  With a positive step, and a predicate whose
    evaluation ends and takes no time, [wait_for] ends (a bounded number of
    loop tests is enough, and more change nothing) in one of three ways: it
    returns [True] less than [timeout_s] after the call; or it raises the
    timeout error that carries the label, at once or less than
    [timeout_s + step_s] after the call; or an evaluation of the predicate
    raised and that exception leaves [wait_for], less than [timeout_s]
    after the call. *)
Theorem wait_for_ends_in_time (E : env) (p : M Slow.state bool)
    (timeout_s step_s : Z) (label : string) (s : Slow.state) :
  0 < step_s -> instantaneous p -> ends p ->
  exists (n : nat) r s',
    (forall fuel, (n <= fuel)%nat ->
       Slow.wait_for E fuel p timeout_s step_s label s = (r, s'))
    /\ let elapsed := Slow.clock s' - Slow.clock s in
       0 <= elapsed
       /\ ((r = Ret true /\ elapsed < timeout_s)
           \/ (r = Raise (timeout_error label)
               /\ (elapsed = 0 \/ elapsed < timeout_s + step_s))
           \/ (exists e s0, r = Raise e /\ p s0 = (Raise e, s') /\ elapsed < timeout_s)).
Proof.
  intros Hstep Hinst Hend.
  set (n := Z.to_nat (timeout_s / step_s + 1)).
  destruct (wait_loop_bounded E p step_s label Hstep Hinst Hend
              (Slow.clock s + timeout_s) n s) as (r & s' & Hrun & Hmono & Hcases).
  { subst n. destruct (Z_lt_le_dec 0 timeout_s) as [Hpos|Hneg].
    - rewrite Z2Nat.id by (pose proof (Z.div_pos timeout_s step_s); lia).
      pose proof (Z.mul_succ_div_gt timeout_s step_s Hstep). lia.
    - assert (0 <= Z.of_nat (Z.to_nat (timeout_s / step_s + 1)) * step_s) by nia. lia. }
  exists (S n), r, s'. split.
  - intros fuel Hf. unfold Slow.wait_for, bind, Slow.time_time, gets.
    apply Hrun. lia.
  - simpl. split; [lia|].
    destruct Hcases as [[-> Hlt] | [[-> Hlt] | (e & s0 & -> & Hs0 & Hlt)]].
    + left. split; [done|lia].
    + right; left. split; [done|lia].
    + right; right. exists e, s0. split; [done|]. split; [done|lia].
Qed.

Lemma wait_for_ends_in_time_witness :
  exists (n : nat) r s',
    (forall fuel, (n <= fuel)%nat ->
       Slow.wait_for down fuel (Slow.wait_for_webhook_ready 1) 140 5 "webhook delivery"
         (Slow.boot 0) = (r, s'))
    /\ let elapsed := Slow.clock s' - Slow.clock (Slow.boot 0) in
       0 <= elapsed
       /\ ((r = Ret true /\ elapsed < 140)
           \/ (r = Raise (timeout_error "webhook delivery")
               /\ (elapsed = 0 \/ elapsed < 140 + 5))
           \/ (exists e s0, r = Raise e
                 /\ Slow.wait_for_webhook_ready 1 s0 = (Raise e, s') /\ elapsed < 140)).
Proof.
  apply (wait_for_ends_in_time down (Slow.wait_for_webhook_ready 1) 140 5
           "webhook delivery" (Slow.boot 0)).
  - lia.
  - intros s. reflexivity.
  - intros s. discriminate.
Defined.

(** C2, as stated, fails: polling the alert history of a platform that
    answers 500 neither returns success nor raises the timeout error; the
    error of the HTTP call leaves [wait_for] at the first evaluation. *)
Lemma wait_for_passes_on_predicate_error :
  Slow.wait_for down 30 (Slow.has_firing down []) 140 5 "firing alert history" (Slow.boot 0)
  = (Raise (RuntimeError "HTTP 500: down"),
     snd (Slow.has_firing down [] (Slow.boot 0)))
  /\ Raise (RuntimeError "HTTP 500: down") <> @Ret bool true
  /\ @Raise bool (RuntimeError "HTTP 500: down")
     <> Raise (timeout_error "firing alert history").
Proof. split; [reflexivity|]. split; discriminate. Qed.

(** C10.  With [timeout_s <= 0], [wait_for] raises the timeout error and
    leaves the state as it found it, whatever the predicate: the predicate
    is not run.  With [timeout_s > 0] the first thing it does is run the
    predicate, on the state of the call: if that returns [True], so does
    [wait_for], in the state the predicate left, with no sleep; the sleep
    comes only after a [False]. *)
Theorem wait_for_first_test (E : env) (p : M Slow.state bool)
    (timeout_s step_s : Z) (label : string) (s : Slow.state) (fuel : nat) :
  (0 < fuel)%nat ->
  (timeout_s <= 0 ->
     Slow.wait_for E fuel p timeout_s step_s label s = (Raise (timeout_error label), s))
  /\ (0 < timeout_s ->
      Slow.wait_for E fuel p timeout_s step_s label s
      = match p s with
        | (Ret true, s1) => (Ret true, s1)
        | (Ret false, s1) =>
            bind (Slow.time_sleep E step_s)
                 (fun _ => Slow.wait_loop E (pred fuel) p (Slow.clock s + timeout_s)
                             step_s label) s1
        | (Raise e, s1) => (Raise e, s1)
        | (OutOfFuel, s1) => (OutOfFuel, s1)
        end).
Proof.
  intros Hf. destruct fuel as [|fuel]; [lia|].
  assert (Hrun : Slow.wait_for E (S fuel) p timeout_s step_s label s
                 = Slow.wait_loop E (S fuel) p (Slow.clock s + timeout_s) step_s label s)
    by reflexivity.
  rewrite Hrun, wait_loop_step. split; intros Ht.
  - destruct (Slow.clock s <? Slow.clock s + timeout_s) eqn:Hc; [|done].
    apply Z.ltb_lt in Hc. lia.
  - destruct (Slow.clock s <? Slow.clock s + timeout_s) eqn:Hc; [reflexivity|].
    apply Z.ltb_ge in Hc. lia.
Qed.

Lemma wait_for_first_test_witness :
  Slow.wait_for down 1 (ret true) 0 5 "webhook delivery" (Slow.boot 7)
  = (Raise (timeout_error "webhook delivery"), Slow.boot 7)
  /\ Slow.wait_for down 1 (ret true) 140 5 "webhook delivery" (Slow.boot 7)
     = (Ret true, Slow.boot 7).
Proof.
  split.
  - apply (wait_for_first_test down (ret true) 0 5 "webhook delivery" (Slow.boot 7) 1); lia.
  - rewrite (proj2 (wait_for_first_test down (ret true) 140 5 "webhook delivery"
                      (Slow.boot 7) 1 ltac:(lia))) by lia.
    reflexivity.
Defined.

(** ** Cleanup *)

Lemma bind_ret_eq {S A B} (m : M S A) (k : A -> M S B) s a s' :
  m s = (Ret a, s') -> bind m k s = k a s'.
Proof. intros H. unfold bind. by rewrite H. Qed.

Lemma bind_raise_eq {S A B} (m : M S A) (k : A -> M S B) s e s' :
  m s = (Raise e, s') -> bind m k s = (Raise e, s').
Proof. intros H. unfold bind. by rewrite H. Qed.

Section Cleanup.
Context (E : env) (hdrs : list (string * string)).


Lemma created_get_some s k v :
  Slow.created s !! k = Some v -> Slow.created_get k s = (Ret v, s).
Proof. intros H. unfold Slow.created_get, bind, gets. by rewrite H. Qed.

Lemma called_created q s : Slow.created (called E q s) = Slow.created s.
Proof. reflexivity. Qed.

Lemma called_trace q s :
  Slow.trace (called E q s) = Slow.trace s ++ [EHttp q (platform E (Slow.trace s) q)].
Proof. reflexivity. Qed.

Lemma http_delete_state path s :
  snd (Slow.http E "DELETE" path None hdrs s) = called E (delete_request hdrs path) s
  /\ match fst (Slow.http E "DELETE" path None hdrs s) with
     | Ret _ => True
     | Raise e => is_Exception e = true
     | OutOfFuel => False
     end.
Proof.
  unfold Slow.http, bind, gets, called, delete_request; simpl.
  by destruct (platform E _ _).
Qed.

Lemma swallowed_delete key pre s v :
  Slow.created s !! key = Some v ->
  Slow.swallow (let! id := Slow.created_get key in
                Slow.http E "DELETE" (pre +:+ py_str E id) None hdrs) s
  = (Ret tt, called E (delete_request hdrs (pre +:+ py_str E v)) s).
Proof.
  intros H. unfold Slow.swallow, try_except.
  rewrite (bind_eq _ _ s (fst (Slow.http E "DELETE" (pre +:+ py_str E v) None hdrs s))
             (called E (delete_request hdrs (pre +:+ py_str E v)) s)).
  - destruct (http_delete_state (pre +:+ py_str E v) s) as [_ Hr].
    destruct (fst (Slow.http E _ _ _ _ s)) as [a|e|]; simpl; [done| |done].
    by rewrite Hr.
  - rewrite (bind_ret_eq _ _ _ _ _ (created_get_some s key v H)).
    destruct (http_delete_state (pre +:+ py_str E v) s) as [<- _].
    by destruct (Slow.http E _ _ _ _ s).
Qed.

Lemma block_last_eq key pre s v :
  Slow.created s !! key = Some v ->
  (let! x := Slow.created_get key in
   if truthy x then
     Slow.swallow (let! id := Slow.created_get key in
                   Slow.http E "DELETE" (pre +:+ py_str E id) None hdrs)
   else ret tt) s
  = (Ret tt, after_block E hdrs key pre s).
Proof.
  intros H. rewrite (bind_ret_eq _ _ _ _ _ (created_get_some s key v H)).
  unfold after_block. rewrite H. destruct (truthy v).
  - by apply swallowed_delete.
  - reflexivity.
Qed.

Lemma block_eq key pre s v (rest : M Slow.state unit) :
  Slow.created s !! key = Some v ->
  (let! x := Slow.created_get key in
   (if truthy x then
      Slow.swallow (let! id := Slow.created_get key in
                    Slow.http E "DELETE" (pre +:+ py_str E id) None hdrs)
    else ret tt) >> rest) s
  = rest (after_block E hdrs key pre s).
Proof.
  intros H. rewrite (bind_ret_eq _ _ _ _ _ (created_get_some s key v H)).
  unfold after_block. rewrite H. destruct (truthy v).
  - by rewrite (bind_ret_eq _ _ _ _ _ (swallowed_delete key pre s v H)).
  - reflexivity.
Qed.

Lemma after_block_created key pre s :
  Slow.created (after_block E hdrs key pre s) = Slow.created s.
Proof.
  unfold after_block. destruct (Slow.created s !! key) as [v|]; [|done].
  by destruct (truthy v).
Qed.

Lemma after_block_requests key pre s :
  requests_of (Slow.trace (after_block E hdrs key pre s))
  = requests_of (Slow.trace s)
    ++ match Slow.created s !! key with
       | Some v => if truthy v then [delete_request hdrs (pre +:+ py_str E v)] else []
       | None => []
       end.
Proof.
  unfold after_block.
  destruct (Slow.created s !! key) as [v|]; [|by rewrite app_nil_r].
  destruct (truthy v); [|by rewrite app_nil_r].
  rewrite called_trace. unfold requests_of. by rewrite omap_app.
Qed.

Lemma after_block_trace key pre s :
  Slow.trace s `prefix_of` Slow.trace (after_block E hdrs key pre s).
Proof.
  unfold after_block. destruct (Slow.created s !! key) as [v|]; [|done].
  destruct (truthy v); [|done]. rewrite called_trace. by apply prefix_app_r.
Qed.

Lemma cleanup_eq s :
  (forall k, k ∈ registry_keys -> is_Some (Slow.created s !! k)) ->
  Slow.cleanup E hdrs s = (Ret tt, cleaned E hdrs s).
Proof.
  intros Hkeys. unfold Slow.cleanup, cleaned.
  destruct (Hkeys "rule_id") as [v1 H1]; [set_solver|].
  destruct (Hkeys "channel_id") as [v2 H2]; [set_solver|].
  destruct (Hkeys "template_id") as [v3 H3]; [set_solver|].
  destruct (Hkeys "sla_config_id") as [v4 H4]; [set_solver|].
  destruct (Hkeys "user_id") as [v5 H5]; [set_solver|].
  rewrite (block_eq _ _ _ v1) by done.
  rewrite (block_eq _ _ _ v2) by (by rewrite after_block_created).
  rewrite (block_eq _ _ _ v3) by (by rewrite !after_block_created).
  rewrite (block_eq _ _ _ v4) by (by rewrite !after_block_created).
  apply (block_last_eq _ _ _ v5). by rewrite !after_block_created.
Qed.

Lemma cleaned_created s : Slow.created (cleaned E hdrs s) = Slow.created s.
Proof. unfold cleaned. by rewrite !after_block_created. Qed.

Lemma cleaned_requests s :
  requests_of (Slow.trace (cleaned E hdrs s))
  = requests_of (Slow.trace s) ++ deletions E hdrs (Slow.created s).
Proof.
  unfold cleaned. rewrite !after_block_requests, !after_block_created.
  rewrite <- !app_assoc. f_equal. unfold deletions, collections; simpl.
  destruct (Slow.created s !! "rule_id") as [v1|];
    destruct (Slow.created s !! "channel_id") as [v2|];
    destruct (Slow.created s !! "template_id") as [v3|];
    destruct (Slow.created s !! "sla_config_id") as [v4|];
    destruct (Slow.created s !! "user_id") as [v5|];
    repeat match goal with |- context [truthy ?v] => destruct (truthy v) end;
    reflexivity.
Qed.

Lemma cleaned_trace s : Slow.trace s `prefix_of` Slow.trace (cleaned E hdrs s).
Proof. unfold cleaned. repeat (etrans; [|apply after_block_trace]). done. Qed.

End Cleanup.

Lemma registry_kept {A} (m : M Slow.state A) s :
  respects m -> registry_ok (Slow.created s) -> registry_ok (Slow.created (snd (m s))).
Proof. intros H. by destruct (H s) as (_ & _ & _ & _ & Hreg). Qed.

Lemma registry_ok_keys (c : gmap string value) :
  registry_ok c -> forall k, is_Some (c !! k) <-> k ∈ registry_keys.
Proof.
  intros [Hdom _] k. rewrite <- elem_of_dom, Hdom. apply elem_of_list_to_set.
Qed.

Lemma cleaned_new_requests (E : env) (hdrs : list (string * string)) (s : Slow.state) :
  requests_of (new_events s (cleaned E hdrs s)) = deletions E hdrs (Slow.created s).
Proof.
  unfold new_events. destruct (cleaned_trace E hdrs s) as [l Hl].
  pose proof (cleaned_requests E hdrs s) as H. rewrite Hl in H |- *.
  rewrite drop_app_length. unfold requests_of in *. rewrite omap_app in H.
  by apply app_inv_head in H.
Qed.

Lemma deletions_present (E : env) (hdrs : list (string * string))
    (c : gmap string value) k pre v :
  (k, pre) ∈ collections -> c !! k = Some v -> truthy v = true ->
  delete_request hdrs (pre +:+ py_str E v) ∈ deletions E hdrs c.
Proof.
  intros Hpre Hk Hv. unfold deletions. apply list_elem_of_omap.
  exists (k, pre). split; [done|]. simpl. by rewrite Hk, Hv.
Qed.



(** ** Setup and the guarded phase *)

Section Setup.
Context (E : env).

Lemma main_opened fuel s :
  bind_ok E Slow.PROM_STUB_PORT = true ->
  bind_ok E Slow.WEBHOOK_STUB_PORT = true ->
  Slow.main E fuel s
  = (let! c := Slow.setup E in
     modify (Slow.set_alert_history_entry (fun _ => [])) >>
     try_finally
       (Slow.scenarios E (Slow.login c) (Slow.admin_headers c) (Slow.group_id c) fuel)
       (Slow.cleanup E (Slow.admin_headers c) >>
        Slow.shutdown E Slow.PROM_STUB_PORT >> Slow.shutdown E Slow.WEBHOOK_STUB_PORT) >>
     Slow.summary E) (opened E s).
Proof.
  intros H1 H2. unfold Slow.main, Slow.start_server. rewrite H1, H2. reflexivity.
Qed.

Lemma opened_trace s :
  Slow.trace (opened E s)
  = Slow.trace s ++ [EStartServer Slow.PROM_STUB_PORT; EStartServer Slow.WEBHOOK_STUB_PORT].
Proof. unfold opened; simpl. by rewrite <- app_assoc. Qed.

(** What the setup leaves behind, however it ends. *)
Lemma setup_frame s0 :
  let s1 := snd (Slow.setup E s0) in
  Slow.results s1 = Slow.results s0
  /\ Slow.created s1 = Slow.created s0
  /\ exists l, Slow.trace s1 = Slow.trace s0 ++ l /\ forallb setup_event l = true.
Proof.
  unfold Slow.setup, Slow.http, Slow.at2, bind, gets, lift, Slow.emit, modify; simpl.
  destruct (platform E (Slow.trace s0) _) as [v|code raw|cls msg]; simpl;
    [|split; [done|]; split; [done|]; eexists; split; [reflexivity|done]..].
  destruct (subscript v "data") as [d| |]; simpl;
    [|split; [done|]; split; [done|]; eexists; split; [reflexivity|done]..].
  destruct (subscript d "token") as [token| |]; simpl;
    [|split; [done|]; split; [done|]; eexists; split; [reflexivity|done]..].
  destruct (platform E _ _) as [v2|code raw|cls msg]; simpl;
    [|split; [done|]; split; [done|]; eexists; split; [by rewrite <- app_assoc|done]..].
  destruct (subscript v2 "data") as [d2| |]; simpl;
    [|split; [done|]; split; [done|]; eexists; split; [by rewrite <- app_assoc|done]..].
  destruct (subscript d2 "data") as [groups| |]; simpl;
    [|split; [done|]; split; [done|]; eexists; split; [by rewrite <- app_assoc|done]..].
  destruct (truthy groups); simpl;
    [|split; [done|]; split; [done|]; eexists; split; [by rewrite <- app_assoc|done]].
  destruct (subscript0 groups) as [g0| |]; simpl;
    [|split; [done|]; split; [done|]; eexists; split; [by rewrite <- app_assoc|done]..].
  destruct (subscript g0 "id") as [gid| |]; simpl;
    split; [done| |done| |done|]; (split; [done|]);
    eexists; (split; [by rewrite <- app_assoc|done]).
Qed.

(** The two failures of the setup that the script provides for. *)
Lemma setup_login_refused s0 code raw :
  platform E (Slow.trace s0) login_request = HTTPError code raw ->
  fst (Slow.setup E s0)
  = Raise (RuntimeError ("HTTP " +:+ py_str E (PInt code) +:+ ": " +:+ raw)).
Proof.
  intros H. unfold Slow.setup, Slow.http, bind, gets, Slow.emit, modify; simpl.
  fold login_request. by rewrite H.
Qed.

Lemma setup_no_group s0 v d token v2 d2 groups :
  platform E (Slow.trace s0) login_request = Body v ->
  subscript v "data" = Ret d -> subscript d "token" = Ret token ->
  platform E (Slow.trace s0 ++ [EHttp login_request (Body v)]) (groups_request E token)
  = Body v2 ->
  subscript v2 "data" = Ret d2 -> subscript d2 "data" = Ret groups ->
  truthy groups = false ->
  fst (Slow.setup E s0) = Raise (RuntimeError "no business group found").
Proof.
  intros H1 Hd Ht H2 Hd2 Hg Hf.
  unfold Slow.setup, Slow.http, Slow.at2, bind, gets, lift, Slow.emit, modify; simpl.
  fold login_request. rewrite H1; simpl. rewrite Hd; simpl. rewrite Ht; simpl.
  fold (groups_request E token). rewrite H2; simpl. rewrite Hd2; simpl.
  rewrite Hg; simpl. by rewrite Hf.
Qed.

End Setup.

Lemma try_finally_eq {S A} (body : M S A) (fin : M S unit) s r s2 s3 :
  body s = (r, s2) -> fin s2 = (Ret tt, s3) -> r <> OutOfFuel ->
  try_finally body fin s = (r, s3).
Proof.
  intros Hb Hf Hr. unfold try_finally. rewrite Hb.
  destruct r; [by rewrite Hf|by rewrite Hf|done].
Qed.

(** C5, as amended.  The setup of [main] raises when the login is refused
    and when the list of business groups is empty.  When the setup raises,
    for these or any other reason, [main] ends there with that exception: nothing has been recorded or
    registered, and the only events are the start of the two stub servers
    and the requests of the setup, so no scenario has run, no deletion has
    been sent and no server has been shut down.  Once the setup has
    succeeded, however the guarded phase ends, [cleanup] returns and both
    servers are shut down before [main] goes on or passes the exception
    on. *)
Theorem setup_failure_and_finally (E : env) (fuel : nat) (s : Slow.state) :
  bind_ok E Slow.PROM_STUB_PORT = true ->
  bind_ok E Slow.WEBHOOK_STUB_PORT = true ->
  (forall code raw,
      platform E (Slow.trace (opened E s)) login_request = HTTPError code raw ->
      exists e, fst (Slow.setup E (opened E s)) = Raise e)
  /\ (forall v d token v2 d2 groups,
      platform E (Slow.trace (opened E s)) login_request = Body v ->
      subscript v "data" = Ret d -> subscript d "token" = Ret token ->
      platform E (Slow.trace (opened E s) ++ [EHttp login_request (Body v)])
        (groups_request E token) = Body v2 ->
      subscript v2 "data" = Ret d2 -> subscript d2 "data" = Ret groups ->
      truthy groups = false ->
      fst (Slow.setup E (opened E s)) = Raise (RuntimeError "no business group found"))
  /\ (forall e s1,
      Slow.setup E (opened E s) = (Raise e, s1) ->
      Slow.main E fuel s = (Raise e, s1)
      /\ Slow.results s1 = []
      /\ Slow.created s1 = Slow.created_init
      /\ forallb setup_event (new_events s s1) = true)
  /\ (forall c s1 r s2,
      Slow.setup E (opened E s) = (Ret c, s1) ->
      Slow.scenarios E (Slow.login c) (Slow.admin_headers c) (Slow.group_id c) fuel
        (Slow.set_alert_history_entry (fun _ => []) s1) = (r, s2) ->
      r <> OutOfFuel ->
      exists s3,
        Slow.trace s3
        = Slow.trace (cleaned E (Slow.admin_headers c) s2)
          ++ [EShutdown Slow.PROM_STUB_PORT; EShutdown Slow.WEBHOOK_STUB_PORT]
        /\ Slow.main E fuel s
           = match r with
             | Ret _ => Slow.summary E s3
             | Raise e => (Raise e, s3)
             | OutOfFuel => (OutOfFuel, s2)
             end).
Proof.
  intros Hprom Hweb. split; [|split; [|split]].
  - intros code raw H. eexists. by apply (setup_login_refused E _ code raw).
  - intros v d token v2 d2 groups. apply setup_no_group.
  - intros e s1 Hsetup. rewrite (main_opened E fuel s Hprom Hweb).
    split; [by apply bind_raise_eq|].
    pose proof (setup_frame E (opened E s)) as Hframe. rewrite Hsetup in Hframe.
    cbv zeta in Hframe. cbn [snd] in Hframe.
    destruct Hframe as (Hres & Hcre & l & Htr & Hl).
    split; [by rewrite Hres|]. split; [by rewrite Hcre|].
    unfold new_events. rewrite Htr, opened_trace, <- app_assoc, drop_app_length.
    rewrite forallb_app. by rewrite Hl.
  - intros c s1 r s2 Hsetup Hscen Hr.
    assert (Hreg : registry_ok (Slow.created s2)).
    { pose proof (registry_kept (Slow.setup E) (opened E s) (respects_setup E)
                    (registry_ok_init)) as H1.
      rewrite Hsetup in H1. simpl in H1.
      pose proof (registry_kept
                    (Slow.scenarios E (Slow.login c) (Slow.admin_headers c)
                       (Slow.group_id c) fuel)
                    (Slow.set_alert_history_entry (fun _ => []) s1)
                    (respects_scenarios E _ _ _ fuel) H1) as H2.
      by rewrite Hscen in H2. }
    assert (Hclean : Slow.cleanup E (Slow.admin_headers c) s2
                     = (Ret tt, cleaned E (Slow.admin_headers c) s2)).
    { apply cleanup_eq. intros k Hk. by apply (registry_ok_keys _ Hreg). }
    set (s3 := snd (Slow.shutdown E Slow.WEBHOOK_STUB_PORT
                      (snd (Slow.shutdown E Slow.PROM_STUB_PORT
                              (cleaned E (Slow.admin_headers c) s2))))).
    assert (Hfin : (Slow.cleanup E (Slow.admin_headers c) >>
                    Slow.shutdown E Slow.PROM_STUB_PORT >>
                    Slow.shutdown E Slow.WEBHOOK_STUB_PORT) s2 = (Ret tt, s3)).
    { by rewrite (bind_ret_eq _ _ _ _ _ Hclean). }
    exists s3. split; [subst s3; simpl; by rewrite <- app_assoc|].
    rewrite (main_opened E fuel s Hprom Hweb).
    rewrite (bind_ret_eq _ _ _ _ _ Hsetup).
    rewrite (bind_ret_eq _ _ _ tt (Slow.set_alert_history_entry (fun _ => []) s1))
      by reflexivity.
    rewrite (bind_eq _ _ _ r s3).
    + by destruct r.
    + by apply (try_finally_eq _ _ _ r s2 s3).
Qed.

Lemma setup_failure_and_finally_witness :
  Slow.main down 0 (Slow.boot 0)
  = (Raise (RuntimeError "HTTP 500: down"),
     snd (Slow.setup down (opened down (Slow.boot 0)))).
Proof.
  apply (proj1 (proj2 (proj2
           (setup_failure_and_finally down 0 (Slow.boot 0) eq_refl eq_refl)))).
  reflexivity.
Defined.

(** C5, as stated, fails: when the login is refused, and when no business
    group exists, [main] ends with the two stub servers started and
    neither of them shut down. *)
Lemma setup_failure_leaves_stubs_running :
  (fst (Slow.main down 0 (Slow.boot 0)) = Raise (RuntimeError "HTTP 500: down")
   /\ Slow.results (snd (Slow.main down 0 (Slow.boot 0))) = []
   /\ shut_down (Slow.trace (snd (Slow.main down 0 (Slow.boot 0)))) = false)
  /\ (fst (Slow.main no_group 0 (Slow.boot 0))
      = Raise (RuntimeError "no business group found")
      /\ Slow.results (snd (Slow.main no_group 0 (Slow.boot 0))) = []
      /\ shut_down (Slow.trace (snd (Slow.main no_group 0 (Slow.boot 0)))) = false).
Proof. repeat split; by vm_compute. Qed.

(** ** The registry *)

Section Registry.
Context (E : env) (hdrs : list (string * string)) (group_id : value).

Lemma created_by_inv q rep id :
  created_by (EHttp q rep) = Some id ->
  exists v d, rep = Body v /\ subscript v "data" = Ret d /\ subscript d "id" = Ret id.
Proof.
  unfold created_by. destruct rep as [v| |]; [|done..].
  destruct (_ && _); [|done].
  destruct (subscript v "data") as [d| |] eqn:Hd; [|done..].
  destruct (subscript d "id") as [x| |] eqn:Hx; [|done..].
  intros [= ->]. by exists v, d.
Qed.

Lemma drop_whole {A} (l : list A) : drop (length l) l = [].
Proof. by apply drop_ge. Qed.

(** Run a closure symbolically: case on each answer of the platform, on
    each subscript and on each lookup in the registry, as they come up. *)
Ltac run_closure :=
  repeat (simpl;
          first
            [ rewrite lookup_insert_eq
            | rewrite lookup_insert_ne by done
            | match goal with
              | |- context [platform E ?tr ?q] =>
                  destruct (platform E tr q) as [?v|?code ?raw|?cls ?msg] eqn:?
              | |- context [subscript ?v ?k] =>
                  destruct (subscript v k) as [?d| |] eqn:?
              | |- context [Slow.created ?s !! ?k] =>
                  destruct (Slow.created s !! k) as [?x|] eqn:?
              end ]).

(** Settle what one event of the run created. *)
Ltac settle_event Hby :=
  first
    [ by simpl in Hby
    | apply created_by_inv in Hby as (?v & ?d & ? & ? & ?);
      simplify_eq; try congruence;
      rewrite ?lookup_insert_eq; congruence ].

Ltac settle_events :=
  rewrite <- ?app_assoc; rewrite ?drop_app_length, ?drop_whole;
  let Hev := fresh "Hev" in
  let Hby := fresh "Hby" in
  intros Hev Hby;
  repeat (apply elem_of_cons in Hev as [-> | Hev]; [settle_event Hby|]);
  by apply elem_of_nil in Hev.

Ltac unfold_closure :=
  unfold new_events, Slow.uuid6, Slow.http, Slow.at2, Slow.created_set, Slow.created_get,
    Slow.entry_get, bind, gets, modify, lift, ret, raise, Slow.emit.

Lemma registers_create_sla_config :
  registers_under "sla_config_id" (Slow.create_sla_config E hdrs).
Proof.
  intros s ev id. unfold Slow.create_sla_config. unfold_closure.
  run_closure; settle_events.
Qed.

Lemma registers_create_template :
  registers_under "template_id" (Slow.create_template E hdrs).
Proof.
  intros s ev id. unfold Slow.create_template. unfold_closure.
  run_closure; settle_events.
Qed.

Lemma registers_create_channel :
  registers_under "channel_id" (Slow.create_channel E hdrs group_id).
Proof.
  intros s ev id. unfold Slow.create_channel. unfold_closure.
  run_closure; settle_events.
Qed.

Lemma registers_create_test_user :
  registers_under "user_id" (Slow.create_test_user E hdrs).
Proof.
  intros s ev id. unfold Slow.create_test_user. unfold_closure.
  run_closure; settle_events.
Qed.

Lemma registers_create_rule_and_bind :
  registers_under "rule_id" (Slow.create_rule_and_bind E hdrs group_id).
Proof.
  intros s ev id. unfold Slow.create_rule_and_bind. unfold_closure.
  run_closure; settle_events.
Qed.

End Registry.

Lemma created_init_values k v : Slow.created_init !! k = Some v -> v = PNone.
Proof.
  unfold Slow.created_init. intros H.
  repeat (rewrite lookup_insert in H; case_decide; [by simplify_eq|]).
  by rewrite lookup_empty in H.
Qed.

Lemma kept_from_registers (E : env) (hdrs : list (string * string)) {A}
    (m : M Slow.state A) key pre :
  (key, pre) ∈ collections -> registers_under key m -> respects m ->
  kept_for_cleanup E hdrs key pre m.
Proof.
  intros Hpre Hreg Hres s ev id Hev Hby.
  pose proof (Hreg s ev id Hev Hby) as Hk. split; [done|].
  intros Hok Hid. apply (registry_kept m s Hres) in Hok.
  exists (cleaned E hdrs (snd (m s))). split.
  - apply cleanup_eq. intros k Hin. by apply (registry_ok_keys _ Hok).
  - rewrite cleaned_new_requests. by apply (deletions_present E hdrs _ key).
Qed.

(** C3, as amended.  Each of [create_test_user], [create_sla_config],
    [create_template], [create_channel] and [create_rule_and_bind] has put
    the identifier of what it created in the registry, under its key, by
    the time it ends, whether it returns or a later step of it raises; and
    [cleanup], run from there, asks for the deletion of it. *)
Theorem creators_register_what_they_create (E : env)
    (hdrs : list (string * string)) (group_id : value) :
  kept_for_cleanup E hdrs "user_id" "/users/" (Slow.create_test_user E hdrs)
  /\ kept_for_cleanup E hdrs "sla_config_id" "/sla/configs/" (Slow.create_sla_config E hdrs)
  /\ kept_for_cleanup E hdrs "template_id" "/templates/" (Slow.create_template E hdrs)
  /\ kept_for_cleanup E hdrs "channel_id" "/channels/" (Slow.create_channel E hdrs group_id)
  /\ kept_for_cleanup E hdrs "rule_id" "/alert-rules/"
       (Slow.create_rule_and_bind E hdrs group_id).
Proof.
  assert (Hin : forall kp, In kp collections -> kp ∈ collections)
    by (intros kp; apply list_elem_of_In).
  split; [|split; [|split; [|split]]].
  - apply kept_from_registers; [apply Hin; simpl; tauto| |].
    + exact (registers_create_test_user E hdrs).
    + exact (respects_create_test_user E hdrs).
  - apply kept_from_registers; [apply Hin; simpl; tauto| |].
    + exact (registers_create_sla_config E hdrs).
    + exact (respects_create_sla_config E hdrs).
  - apply kept_from_registers; [apply Hin; simpl; tauto| |].
    + exact (registers_create_template E hdrs).
    + exact (respects_create_template E hdrs).
  - apply kept_from_registers; [apply Hin; simpl; tauto| |].
    + exact (registers_create_channel E hdrs group_id).
    + exact (respects_create_channel E hdrs group_id).
  - apply kept_from_registers; [apply Hin; simpl; tauto| |].
    + exact (registers_create_rule_and_bind E hdrs group_id).
    + exact (respects_create_rule_and_bind E hdrs group_id).
Qed.

Lemma creators_register_what_they_create_witness :
  let s1 := snd (Slow.create_rule_and_bind creates_only [] (PInt 7) ready) in
  fst (Slow.create_rule_and_bind creates_only [] (PInt 7) ready)
  = Raise (RuntimeError "HTTP 500: down")
  /\ Slow.created s1 !! "rule_id" = Some (PInt 42)
  /\ exists s2,
       Slow.cleanup creates_only [] s1 = (Ret tt, s2)
       /\ delete_request [] ("/alert-rules/" +:+ "42") ∈ requests_of (new_events s1 s2).
Proof.
  intros s1. split; [reflexivity|].
  destruct (proj2 (proj2 (proj2 (proj2
              (creators_register_what_they_create creates_only [] (PInt 7)))))
              ready
              (EHttp {| req_method := "POST";
                        req_url := Slow.API_BASE +:+ "/alert-rules";
                        req_body := Some (PDict [
                          ("name", PStr "IT-Rule-c0ffee");
                          ("description", PStr "integration test rule");
                          ("expression", PStr "up");
                          ("evaluation_interval_seconds", PInt 60);
                          ("for_duration", PInt 1);
                          ("severity", PStr "warning");
                          ("labels", PDict [("env", PStr "it")]);
                          ("annotations", PDict [("summary", PStr "integration test")]);
                          ("group_id", PInt 7);
                          ("template_id", PNone);
                          ("data_source_type", PStr "prometheus");
                          ("data_source_url", PStr Slow.PROM_STUB_URL);
                          ("status", PInt 1);
                          ("effective_start_time", PStr "00:00");
                          ("effective_end_time", PStr "23:59");
                          ("exclusion_windows", PList [])]);
                        req_headers := [("Content-Type", "application/json")] |}
                    (Body (PDict [("data", PDict [("id", PInt 42)])])))
              (PInt 42)) as [Hkey Hclean].
  - apply list_elem_of_lookup_2 with (i := 0%nat). vm_compute. reflexivity.
  - reflexivity.
  - split; [exact Hkey|]. apply Hclean; [apply registry_ok_init|reflexivity].
Defined.

(** C3, as stated, fails: [escalation_flow] and [oncall_flow] go on to
    requests that fail with the escalation and the schedule they created
    in no entry of the registry. *)
Lemma escalation_and_schedule_stay_unregistered :
  ~ registers (Slow.escalation_flow creates_only [] (PStr "t0k3n") "it_user_c0ffee")
  /\ ~ registers (Slow.oncall_flow creates_only
                    (PDict [("data", PDict [("user", PDict [("id", PInt 1)])])]) []).
Proof.
  split; intros H.
  - destruct (H ready
                (EHttp {| req_method := "POST";
                          req_url := Slow.API_BASE +:+ "/escalations";
                          req_body := Some (PDict [
                            ("alert_id", PNone); ("to_user_id", PNone);
                            ("to_username", PStr "it_user_c0ffee");
                            ("reason", PStr "integration test")]);
                          req_headers := [("Content-Type", "application/json")] |}
                      (Body (PDict [("data", PDict [("id", PInt 42)])])))
                (PInt 42)) as [k Hk].
    + apply list_elem_of_lookup_2 with (i := 0%nat). vm_compute. reflexivity.
    + reflexivity.
    + assert (Hc : Slow.created
                     (snd (Slow.escalation_flow creates_only [] (PStr "t0k3n")
                             "it_user_c0ffee" ready)) = Slow.created_init)
        by (vm_compute; reflexivity).
      rewrite Hc in Hk. by apply created_init_values in Hk.
  - destruct (H ready
                (EHttp {| req_method := "POST";
                          req_url := Slow.API_BASE +:+ "/oncall/schedules";
                          req_body := Some (PDict [
                            ("name", PStr "IT-Schedule-c0ffee");
                            ("description", PStr "integration schedule");
                            ("timezone", PStr "UTC");
                            ("rotation_type", PStr "weekly");
                            ("rotation_start", PStr "1970-01-01T00:00:00Z")]);
                          req_headers := [("Content-Type", "application/json")] |}
                      (Body (PDict [("data", PDict [("id", PInt 42)])])))
                (PInt 42)) as [k Hk].
    + apply list_elem_of_lookup_2 with (i := 0%nat). vm_compute. reflexivity.
    + reflexivity.
    + assert (Hc : Slow.created
                     (snd (Slow.oncall_flow creates_only
                             (PDict [("data", PDict [("user", PDict [("id", PInt 1)])])])
                             [] ready)) = Slow.created_init)
        by (vm_compute; reflexivity).
      rewrite Hc in Hk. by apply created_init_values in Hk.
Qed.

(** The same shows in whole runs.  On a platform that creates what it is
    asked to create and fails every other request, the slow script sends
    deletions for the five registered resources and for nothing else, and
    the fast script, which keeps no registry, sends none although six of
    its requests created a resource. *)
Lemma unregistered_resources_are_left_behind :
  deletes_of (Slow.trace (snd (Slow.main half_up 40 (Slow.boot 0))))
  = map (fun p => Slow.API_BASE +:+ p)
      ["/alert-rules/42"; "/channels/42"; "/templates/42"; "/sla/configs/42"; "/users/42"]
  /\ deletes_of (Fast.trace (snd (Fast.main half_up (Fast.boot 0)))) = []
  /\ length (omap created_by (Fast.trace (snd (Fast.main half_up (Fast.boot 0))))) = 8%nat.
Proof. repeat split; vm_compute; reflexivity. Qed.

(** * More facts *)

(** ** The suite selector *)

Section SelectorFacts.
Context (P : Selector.sel_env).

Lemma run_all_cases cs : forall tr,
  exists new,
    snd (Selector.run_all P cs tr) = tr ++ new
    /\ match fst (Selector.run_all P cs tr) with
       | Ret _ =>
           map fst (ran_of new) = cs /\ Forall (fun x => snd x = 0) (ran_of new)
       | Raise e =>
           exists before cmd rc after,
             ran_of new = before ++ [(cmd, rc)]
             /\ cs = map fst before ++ cmd :: after
             /\ Forall (fun x => snd x = 0) before
             /\ rc <> 0 /\ e = SystemExit rc
       | OutOfFuel => False
       end.
Proof.
  induction cs as [|cmd cs IH]; intros tr.
  - exists []. split; [by rewrite app_nil_r|]. by split.
  - simpl. unfold bind, Selector.print, Selector.subprocess_run, modify, gets, ret; simpl.
    set (tr1 := tr ++ [Selector.Printed _]).
    set (rc := Selector.returncode P tr1 cmd).
    destruct (rc =? 0) eqn:Hrc; simpl.
    + apply Z.eqb_eq in Hrc.
      destruct (IH (tr1 ++ [Selector.Ran cmd rc])) as (new & Htr & Hres).
      exists ([Selector.Printed ("Running: " +:+ join " " cmd); Selector.Ran cmd rc] ++ new).
      split; [rewrite Htr; subst tr1; by rewrite <- !app_assoc|].
      destruct (fst (Selector.run_all P cs _)) as [[]|e|]; [| |done].
      * destruct Hres as [Hcmds Hzero]. split; [simpl; by rewrite Hcmds|].
        simpl. by constructor.
      * destruct Hres as (before & c & rc' & after & Hran & Hcs & Hzero & Hne & ->).
        exists ((cmd, rc) :: before), c, rc', after. simpl. rewrite Hran.
        split; [done|]. split; [by rewrite Hcs|]. split; [by constructor|done].
    + apply Z.eqb_neq in Hrc.
      exists [Selector.Printed ("Running: " +:+ join " " cmd); Selector.Ran cmd rc].
      split; [subst tr1; by rewrite <- app_assoc|].
      exists [], cmd, rc, cs. by repeat split.
Qed.

End SelectorFacts.

(** X1.  Started with a mode other than [all], [fast] and [slow], the
    selector prints its usage line, starts no suite and ends with
    [sys.exit(1)]. *)
Theorem selector_rejects_unknown_mode (P : Selector.sel_env) (argv : list string)
    (tr : list Selector.sel_event) :
  valid_mode (Selector.MODE argv) = false ->
  Selector.main P argv tr
  = (Raise (SystemExit 1),
     tr ++ [Selector.Printed "Usage: integration_smoke.py [all|fast|slow]"]).
Proof.
  unfold valid_mode. intros H.
  apply orb_false_iff in H as [H Hslow]. apply orb_false_iff in H as [Hall Hfast].
  unfold Selector.main, Selector.cmds. by rewrite Hall, Hfast, Hslow.
Qed.

Lemma selector_rejects_unknown_mode_witness :
  Selector.main (suites 0 0) ["integration_smoke.py"; "quick"] []
  = (Raise (SystemExit 1),
     [] ++ [Selector.Printed "Usage: integration_smoke.py [all|fast|slow]"]).
Proof. apply selector_rejects_unknown_mode. reflexivity. Defined.

(** X2.  Started with a valid mode, or with none, which means [all], the
    selector runs the selected suites in order, the fast one before the
    slow one.  It returns only when every one of them has returned 0, and
    then its last line is the success line; at the first suite that
    returns another code it ends with [sys.exit] of that code, and the
    suites after it are not started. *)
Theorem selector_stops_at_first_failure (P : Selector.sel_env) (argv : list string)
    (tr : list Selector.sel_event) :
  valid_mode (Selector.MODE argv) = true ->
  Selector.cmds P argv
  = (if String.eqb (Selector.MODE argv) "slow" then []
     else [[Selector.executable P; Selector.FAST P]])
    ++ (if String.eqb (Selector.MODE argv) "fast" then []
        else [[Selector.executable P; Selector.SLOW P]])
  /\ exists new,
       snd (Selector.main P argv tr) = tr ++ new
       /\ match fst (Selector.main P argv tr) with
          | Ret _ =>
              map fst (ran_of new) = Selector.cmds P argv
              /\ Forall (fun x => snd x = 0) (ran_of new)
              /\ last new = Some (Selector.Printed "All integration smoke tests passed")
          | Raise e =>
              exists before cmd rc after,
                ran_of new = before ++ [(cmd, rc)]
                /\ Selector.cmds P argv = map fst before ++ cmd :: after
                /\ Forall (fun x => snd x = 0) before
                /\ rc <> 0 /\ e = SystemExit rc
          | OutOfFuel => False
          end.
Proof.
  intros Hmode.
  assert (Hcmds : Selector.cmds P argv
                  = (if String.eqb (Selector.MODE argv) "slow" then []
                     else [[Selector.executable P; Selector.FAST P]])
                    ++ (if String.eqb (Selector.MODE argv) "fast" then []
                        else [[Selector.executable P; Selector.SLOW P]])).
  { unfold Selector.cmds, valid_mode in *.
    destruct (String.eqb (Selector.MODE argv) "all") eqn:Hall.
    - apply String.eqb_eq in Hall. by rewrite Hall.
    - destruct (String.eqb (Selector.MODE argv) "fast") eqn:Hfast.
      + apply String.eqb_eq in Hfast. by rewrite Hfast.
      + simpl in Hmode. by rewrite Hmode. }
  split; [exact Hcmds|].
  assert (Hne : Selector.cmds P argv <> []).
  { rewrite Hcmds. destruct (String.eqb (Selector.MODE argv) "slow") eqn:Hslow; [|done].
    apply String.eqb_eq in Hslow. by rewrite Hslow. }
  unfold Selector.main. destruct (Selector.cmds P argv) as [|c cs] eqn:Hcs; [done|].
  destruct (run_all_cases P (c :: cs) tr) as (new & Htr & Hres).
  unfold bind. destruct (Selector.run_all P (c :: cs) tr) as [[[]|e|] tr'];
    simpl in Htr, Hres; subst tr'; [| |done].
  - exists (new ++ [Selector.Printed "All integration smoke tests passed"]).
    unfold Selector.print, modify; simpl. split; [by rewrite app_assoc|].
    destruct Hres as [Hran Hzero]. unfold ran_of in *. rewrite omap_app; simpl.
    rewrite app_nil_r. split; [done|]. split; [done|]. by rewrite last_snoc.
  - exists new. by split.
Qed.

Lemma selector_stops_at_first_failure_witness :
  Selector.cmds (suites 3 0) ["integration_smoke.py"]
  = (if String.eqb (Selector.MODE ["integration_smoke.py"]) "slow" then []
     else [[Selector.executable (suites 3 0); Selector.FAST (suites 3 0)]])
    ++ (if String.eqb (Selector.MODE ["integration_smoke.py"]) "fast" then []
        else [[Selector.executable (suites 3 0); Selector.SLOW (suites 3 0)]])
  /\ exists new,
       snd (Selector.main (suites 3 0) ["integration_smoke.py"] []) = [] ++ new
       /\ match fst (Selector.main (suites 3 0) ["integration_smoke.py"] []) with
          | Ret _ =>
              map fst (ran_of new) = Selector.cmds (suites 3 0) ["integration_smoke.py"]
              /\ Forall (fun x => snd x = 0) (ran_of new)
              /\ last new = Some (Selector.Printed "All integration smoke tests passed")
          | Raise e =>
              exists before cmd rc after,
                ran_of new = before ++ [(cmd, rc)]
                /\ Selector.cmds (suites 3 0) ["integration_smoke.py"]
                   = map fst before ++ cmd :: after
                /\ Forall (fun x => snd x = 0) before
                /\ rc <> 0 /\ e = SystemExit rc
          | OutOfFuel => False
          end.
Proof. apply selector_stops_at_first_failure. reflexivity. Defined.

(** ** The capture process *)

Lemma take_length_take {A} (k : nat) (l : list A) : take (length (take k l)) l = take k l.
Proof.
  rewrite length_take. destruct (Nat.le_ge_cases k (length l)) as [H|H].
  - by rewrite Nat.min_l.
  - rewrite Nat.min_r by done. by rewrite !take_ge.
Qed.

Lemma on_timer_bounded n t crashed msgs :
  (Z.of_nat (length msgs) < n \/ msgs = []) ->
  Slow.exit_ms (Slow.on_timer t crashed msgs) <= t
  /\ Z.of_nat (length msgs) <= Z.max n 1
  /\ (Slow.written (Slow.on_timer t crashed msgs) = None
      \/ Slow.written (Slow.on_timer t crashed msgs) = Some (join newline msgs)).
Proof.
  intros Hm. split; [|split].
  - unfold Slow.on_timer. destruct crashed as [c|]; simpl; [|lia].
    destruct (c <? t) eqn:Hc; simpl; [apply Z.ltb_lt in Hc|]; lia.
  - destruct Hm as [Hm | ->]; simpl; lia.
  - unfold Slow.on_timer. destruct crashed as [c|]; [|by right].
    destruct (c <? t); [by left|by right].
Qed.

Lemma pump_bounded n t crashed arrivals : forall msgs,
  (Z.of_nat (length msgs) < n \/ msgs = []) ->
  Slow.exit_ms (Slow.pump n t crashed msgs arrivals) <= t
  /\ exists k,
       (Z.of_nat (length (msgs ++ take k (messages_of arrivals))) <= Z.max n 1)
       /\ (Slow.written (Slow.pump n t crashed msgs arrivals) = None
           \/ Slow.written (Slow.pump n t crashed msgs arrivals)
              = Some (join newline (msgs ++ take k (messages_of arrivals)))).
Proof.
  induction arrivals as [|[at_ ev] arrivals IH]; intros msgs Hm.
  - destruct (on_timer_bounded n t crashed msgs Hm) as (H1 & H2 & H3).
    split; [done|]. exists 0%nat. by rewrite take_0, app_nil_r.
  - simpl. destruct (Slow.due t crashed <=? at_) eqn:Hdue.
    { destruct (on_timer_bounded n t crashed msgs Hm) as (H1 & H2 & H3).
      split; [done|]. exists 0%nat. by rewrite take_0, app_nil_r. }
    apply Z.leb_gt in Hdue.
    assert (Hat : at_ <= t) by (unfold Slow.due in Hdue; destruct crashed; lia).
    destruct ev as [|data| |]; try (by apply IH).
    unfold messages_of; simpl. fold (messages_of arrivals).
    destruct (n <=? Z.of_nat (length (msgs ++ [data]))) eqn:Hn.
    + simpl. split; [done|]. exists 1%nat. simpl. rewrite take_0. split; [|by right].
      rewrite length_app; simpl. destruct Hm as [Hm | ->]; simpl; lia.
    + apply Z.leb_gt in Hn. destruct (IH (msgs ++ [data])) as (H1 & k & Hk & Hw);
        [by left|]. split; [done|]. exists (S k). simpl.
      replace (msgs ++ data :: take k (messages_of arrivals))
        with ((msgs ++ [data]) ++ take k (messages_of arrivals))
        by (by rewrite <- app_assoc).
      by split.
Qed.

(** X3.  The capture process never outlives its timer, and what it leaves
    in the file is made of the first messages of the socket, in the order
    of their arrival, joined by newlines: at most [expected_count] of them
    (one, if [expected_count] is not positive).  Events of the socket
    other than messages leave no mark. *)
Theorem capture_is_bounded (arrivals : list (Z * ws_event)) (crashed : option Z)
    (expected_count timeout_ms : Z) :
  Slow.exit_ms (Slow.node_script (Socket arrivals crashed) expected_count timeout_ms)
  <= timeout_ms
  /\ exists k,
       (Z.of_nat k <= Z.max expected_count 1)
       /\ Slow.transcript (Socket arrivals crashed) expected_count timeout_ms
          = join newline (take k (messages_of arrivals)).
Proof.
  destruct (pump_bounded expected_count timeout_ms crashed arrivals [])
    as (Hexit & k & Hk & Hw); [by right|].
  split; [exact Hexit|]. simpl in Hk, Hw. unfold Slow.transcript; simpl.
  destruct Hw as [-> | ->].
  - exists 0%nat. rewrite take_0. split; [lia|done].
  - exists (length (take k (messages_of arrivals))). split; [done|].
    simpl. by rewrite take_length_take.
Qed.

Lemma node_script_bounded (w : ws_world) (n t : Z) :
  0 <= t -> Slow.exit_ms (Slow.node_script w n t) <= t.
Proof.
  intros Ht. destruct w as [|arrivals crashed]; simpl; [done|].
  by destruct (pump_bounded n t crashed arrivals []) as [H _]; [by right|].
Qed.

(** X4.  When [ws_check] is called late enough for the timer of the
    capture to have ended by the end of its wait of 130 seconds (with the
    160 seconds of [main]: 30 seconds or more after the capture was
    started), [proc.wait] does not time out, the clock moves on by at most
    the wait, and [ws_check] ends as its assertions do on the transcript,
    stripped of the white space of [str.strip]. *)
Theorem ws_check_depends_on_transcript_only (E : env) (proc : Slow.popen)
    (path : string) (s : Slow.state) :
  0 <= Slow.timer_ms proc ->
  Slow.started proc * 1000 + Slow.timer_ms proc <= (Slow.clock s + 130) * 1000 ->
  fst (Slow.proc_wait E proc 130 s) = Ret tt
  /\ Slow.clock s <= Slow.clock (snd (Slow.ws_check E proc path s)) <= Slow.clock s + 130
  /\ fst (Slow.ws_check E proc path s)
     = Slow.ws_assert (strip (Slow.transcript (ws E) (Slow.expected proc)
                                (Slow.timer_ms proc))).
Proof.
  intros Htimer Hlate.
  pose proof (node_script_bounded (ws E) (Slow.expected proc) (Slow.timer_ms proc) Htimer)
    as Hexit.
  unfold Slow.ws_check, Slow.proc_wait, bind, Slow.time_time, gets.
  set (ends_ms := Slow.started proc * 1000
                  + Slow.exit_ms (Slow.node_script (ws E) (Slow.expected proc)
                                    (Slow.timer_ms proc))) in *.
  assert (Hends : ends_ms <= (Slow.clock s + 130) * 1000) by (subst ends_ms; lia).
  destruct (ends_ms <=? Slow.clock s * 1000) eqn:H1; simpl.
  { split; [done|]. split; [lia|done]. }
  apply Z.leb_gt in H1.
  destruct (ends_ms <=? (Slow.clock s + 130) * 1000) eqn:H2; simpl.
  - split; [done|]. split; [|done]. split.
    + apply Z.div_le_lower_bound; lia.
    + apply Z.lt_succ_r, Z.div_lt_upper_bound; lia.
  - apply Z.leb_gt in H2. lia.
Qed.

Lemma ws_check_depends_on_transcript_only_witness :
  fst (Slow.proc_wait down capture_at_0 130 (Slow.boot 70)) = Ret tt
  /\ Slow.clock (Slow.boot 70)
     <= Slow.clock (snd (Slow.ws_check down capture_at_0 "/tmp/tmpcapture" (Slow.boot 70)))
     <= Slow.clock (Slow.boot 70) + 130
  /\ fst (Slow.ws_check down capture_at_0 "/tmp/tmpcapture" (Slow.boot 70))
     = Slow.ws_assert (strip (Slow.transcript (ws down) (Slow.expected capture_at_0)
                                (Slow.timer_ms capture_at_0))).
Proof. apply ws_check_depends_on_transcript_only; simpl; lia. Defined.

(** ** The poller, when the condition never holds *)

Section Stuck.
Context (E : env) (p : M Slow.state bool) (step : Z) (label : string).
Hypothesis step_pos : 0 < step.
Hypothesis p_false : stays_false p.

Lemma wait_loop_stuck deadline : forall (k : nat) s,
  Z.of_nat k * step - step < deadline - Slow.clock s <= Z.of_nat k * step ->
  exists s',
    (forall fuel, (k < fuel)%nat ->
       Slow.wait_loop E fuel p deadline step label s = (Raise (timeout_error label), s'))
    /\ Slow.clock s' = Slow.clock s + Z.of_nat k * step.
Proof.
  induction k as [|k IH]; intros s Hk.
  - exists s. split; [|lia]. intros [|fuel] Hf; [lia|]. rewrite wait_loop_step.
    destruct (Slow.clock s <? deadline) eqn:Hc; [apply Z.ltb_lt in Hc; lia|done].
  - destruct (p_false s) as (s1 & Hp & Hclock).
    destruct (IH (snd (Slow.time_sleep E step s1))) as (s' & Hrun & Hs').
    { rewrite time_sleep_clock by lia. lia. }
    rewrite time_sleep_clock in Hs' by lia.
    exists s'. split; [|lia].
    intros [|fuel] Hf; [lia|]. rewrite wait_loop_step, Hp.
    destruct (Slow.clock s <? deadline) eqn:Hc; [|apply Z.ltb_ge in Hc; lia].
    unfold bind. rewrite time_sleep_eq by lia.
    rewrite <- (Hrun fuel) by lia. by rewrite time_sleep_eq by lia.
Qed.

End Stuck.

(** X5.  A condition that never holds costs the whole timeout, rounded up
    to a multiple of the step: with a positive timeout and a positive
    step, and a predicate that answers [False] at no cost, [wait_for]
    raises its timeout error after [k] sleeps, where [k] steps are the
    least multiple of the step that reaches the timeout. *)
Theorem wait_for_costs_the_timeout (E : env) (p : M Slow.state bool)
    (timeout_s step_s : Z) (label : string) (s : Slow.state) :
  0 < step_s -> 0 < timeout_s -> stays_false p ->
  exists (k : nat) s',
    (forall fuel, (k < fuel)%nat ->
       Slow.wait_for E fuel p timeout_s step_s label s = (Raise (timeout_error label), s'))
    /\ Slow.clock s' - Slow.clock s = Z.of_nat k * step_s
    /\ timeout_s <= Z.of_nat k * step_s < timeout_s + step_s.
Proof.
  intros Hstep Htimeout Hp.
  set (q := (timeout_s + step_s - 1) / step_s).
  assert (Hq : q * step_s <= timeout_s + step_s - 1 < (q + 1) * step_s).
  { subst q. pose proof (Z.mul_div_le (timeout_s + step_s - 1) step_s Hstep).
    pose proof (Z.mul_succ_div_gt (timeout_s + step_s - 1) step_s Hstep). lia. }
  assert (Hq0 : 0 <= q) by (subst q; apply Z.div_pos; lia).
  destruct (wait_loop_stuck E p step_s label Hstep Hp (Slow.clock s + timeout_s)
              (Z.to_nat q) s) as (s' & Hrun & Hs').
  { rewrite Z2Nat.id by done. lia. }
  exists (Z.to_nat q), s'. rewrite Z2Nat.id in * by done.
  split; [|split; lia].
  intros fuel Hf. unfold Slow.wait_for, bind, Slow.time_time, gets. by apply Hrun.
Qed.

Lemma wait_for_costs_the_timeout_witness :
  exists (k : nat) s',
    (forall fuel, (k < fuel)%nat ->
       Slow.wait_for no_group fuel (Slow.has_firing no_group []) 140 5
         "firing alert history" (Slow.boot 0)
       = (Raise (timeout_error "firing alert history"), s'))
    /\ Slow.clock s' - Slow.clock (Slow.boot 0) = Z.of_nat k * 5
    /\ 140 <= Z.of_nat k * 5 < 140 + 5.
Proof.
  apply wait_for_costs_the_timeout; [lia|lia|].
  intros s. eexists. split; reflexivity.
Defined.

(** ** Cleanup, twice *)

(** X6.  [cleanup] leaves every entry of the registry in place, so it can
    be run again: on the registry as [main] keeps it, a second [cleanup]
    returns as the first did and sends the same deletions once more. *)
Theorem cleanup_can_be_repeated (E : env) (hdrs : list (string * string)) (s : Slow.state) :
  registry_ok (Slow.created s) ->
  exists s1 s2,
    Slow.cleanup E hdrs s = (Ret tt, s1)
    /\ Slow.cleanup E hdrs s1 = (Ret tt, s2)
    /\ Slow.created s2 = Slow.created s
    /\ requests_of (new_events s1 s2) = requests_of (new_events s s1).
Proof.
  intros Hok. exists (cleaned E hdrs s), (cleaned E hdrs (cleaned E hdrs s)).
  assert (Hkeys : forall s0, Slow.created s0 = Slow.created s ->
                  forall k, k ∈ registry_keys -> is_Some (Slow.created s0 !! k)).
  { intros s0 Hs0 k Hk. rewrite Hs0. by apply (registry_ok_keys _ Hok). }
  split; [by apply cleanup_eq, Hkeys|].
  split; [by apply cleanup_eq, Hkeys, cleaned_created|].
  split; [by rewrite !cleaned_created|].
  by rewrite !cleaned_new_requests, cleaned_created.
Qed.

Lemma cleanup_can_be_repeated_witness :
  exists s1 s2,
    Slow.cleanup down [] rule_registered = (Ret tt, s1)
    /\ Slow.cleanup down [] s1 = (Ret tt, s2)
    /\ Slow.created s2 = Slow.created rule_registered
    /\ requests_of (new_events s1 s2) = requests_of (new_events rule_registered s1).
Proof.
  apply cleanup_can_be_repeated.
  apply (registry_ok_insert Slow.created_init "rule_id" (PInt 42)).
  - apply list_elem_of_In. simpl. tauto.
  - apply registry_ok_init.
Defined.

(** ** Reading the alert history *)

(** X7.  Over rows that are JSON objects, [has_firing] stops at the first
    row of the rule whose status is [firing], puts the items of that row
    in front of the snapshot and answers [True]; without such a row it
    answers [False] and changes nothing.  [has_resolved] answers whether
    some row of the rule has status [resolved], and changes nothing in
    either case.  A row is of the rule when its [rule_id] equals the
    registered one as [==] has it: numbers by their value, dicts whatever
    the order of their keys. *)
Theorem has_firing_takes_the_first_match (rows : list value) (s : Slow.state)
    (rule_id : value) :
  forallb is_dict rows = true ->
  Slow.created s !! "rule_id" = Some rule_id ->
  Slow.has_firing_rows rows s
  = match List.find (row_matches rule_id "firing") rows with
    | Some row =>
        (Ret true, Slow.set_alert_history_entry (fun d => Slow.dict_items row ++ d) s)
    | None => (Ret false, s)
    end
  /\ Slow.has_resolved_rows rows s
     = (Ret (existsb (row_matches rule_id "resolved") rows), s).
Proof.
  intros Hrows Hrule.
  pose proof (created_get_some s "rule_id" rule_id Hrule) as Hget.
  induction rows as [|row rows IH]; [done|].
  simpl in Hrows. apply andb_true_iff in Hrows as [Hrow Hrows].
  destruct (IH Hrows) as [IHf IHr]. destruct row as [| | | | | |d]; try done.
  split.
  - simpl. unfold bind at 1, lift at 1. unfold bind at 1. rewrite Hget.
    destruct (value_eqb (default PNone (assoc "rule_id" d)) rule_id); simpl; [|done].
    unfold bind at 1, lift at 1.
    by destruct (value_eqb (default PNone (assoc "status" d)) (PStr "firing")).
  - simpl. unfold bind at 1, lift at 1. unfold bind at 1. rewrite Hget.
    destruct (value_eqb (default PNone (assoc "rule_id" d)) rule_id); simpl; [|done].
    unfold bind at 1, lift at 1.
    destruct (value_eqb (default PNone (assoc "status" d)) (PStr "resolved")); [done|].
    by rewrite IHr.
Qed.

Lemma has_firing_takes_the_first_match_witness :
  Slow.has_firing_rows sample_history rule_registered
  = (Ret true,
     Slow.set_alert_history_entry
       (fun d => [("id", PInt 5); ("rule_id", PInt 42); ("status", PStr "firing")] ++ d)
       rule_registered).
Proof.
  apply (proj1 (has_firing_takes_the_first_match sample_history rule_registered (PInt 42)
                  eq_refl eq_refl)).
Defined.

(** ** Runs that end settled *)

Lemma subscript_settled v k : settled (subscript v k).
Proof. destruct v as [| | | | | |d]; simpl; try done. by destruct (assoc k d). Qed.

Lemma subscript0_settled v : settled (subscript0 v).
Proof. destruct v as [| | | |[|]|[|]|]; simpl; done. Qed.

Lemma dict_get_settled v k : settled (dict_get v k).
Proof. by destruct v. Qed.

Lemma iterate_settled v : settled (iterate v).
Proof. by destruct v. Qed.

Lemma ws_assert_settled content : settled (Slow.ws_assert content).
Proof.
  unfold Slow.ws_assert. destruct (_ || _); [done|].
  destruct (negb _); [done|]. by destruct (negb _).
Qed.

Section Steady.
Context {S T : Type} (part : S -> T).

Lemma steady_ret {A} (a : A) : steady (unchanged part) (ret a).
Proof. intros s. by split. Qed.

Lemma steady_raise {A} (e : exn) :
  is_Exception e = true -> steady (unchanged part) (@raise S A e).
Proof. intros H s. by split. Qed.

Lemma steady_lift {A} (r : res A) : settled r -> steady (unchanged part) (lift r).
Proof. intros H s. by split. Qed.

Lemma steady_gets {A} (f : S -> A) : steady (unchanged part) (gets f).
Proof. intros s. by split. Qed.

Lemma steady_modify (f : S -> S) :
  (forall s, part (f s) = part s) -> steady (unchanged part) (modify f).
Proof. intros H s. by split; [apply H|]. Qed.

Lemma steady_bind {A B} (m : M S A) (k : A -> M S B) :
  steady (unchanged part) m -> (forall a, steady (unchanged part) (k a)) ->
  steady (unchanged part) (bind m k).
Proof.
  intros Hm Hk s. unfold bind. destruct (Hm s) as [HR Hs].
  destruct (m s) as [[a|e|] s1]; simpl in *; [|done..].
  destruct (Hk a s1) as [HR' Hs']. split; [|done]. unfold unchanged in *. congruence.
Qed.

Lemma steady_try_except {A} (body : M S A) handler :
  steady (unchanged part) body -> (forall e, steady (unchanged part) (handler e)) ->
  steady (unchanged part) (try_except body handler).
Proof.
  intros Hb Hh s. unfold try_except. destruct (Hb s) as [HR Hs].
  destruct (body s) as [[a|e|] s1]; simpl in *; [done| |done].
  rewrite Hs. destruct (Hh e s1) as [HR' Hs']. split; [|done].
  unfold unchanged in *. congruence.
Qed.

End Steady.

Lemma steady_at_rest {A} (m : M Slow.state A) :
  steady (unchanged at_rest) m -> steady (unchanged Slow.results) m.
Proof.
  intros Hm s. destruct (Hm s) as [HR Hs]. split; [|done].
  unfold unchanged, at_rest in *. congruence.
Qed.

Section SlowSteady.
Context (E : env).

Lemma steady_emit e : steady (unchanged at_rest) (Slow.emit E e).
Proof. by apply steady_modify. Qed.

Lemma steady_http method path data hdrs :
  steady (unchanged at_rest) (Slow.http E method path data hdrs).
Proof.
  unfold Slow.http. apply steady_bind; [apply steady_gets|intros tr].
  cbv beta zeta. apply steady_bind; [apply steady_emit|intros _].
  destruct (platform E tr _); [apply steady_ret|by apply steady_raise..].
Qed.

Lemma steady_uuid6 : steady (unchanged at_rest) (Slow.uuid6 E).
Proof.
  unfold Slow.uuid6. apply steady_bind; [apply steady_gets|intros n].
  apply steady_bind; [by apply steady_modify|intros; apply steady_ret].
Qed.

Lemma steady_created_get key : steady (unchanged at_rest) (Slow.created_get key).
Proof.
  unfold Slow.created_get. apply steady_bind; [apply steady_gets|intros c].
  destruct (c !! key); [apply steady_ret|by apply steady_raise].
Qed.

Lemma steady_created_set key v : steady (unchanged at_rest) (Slow.created_set key v).
Proof. by apply steady_modify. Qed.

Lemma steady_entry_get key : steady (unchanged at_rest) (Slow.entry_get key).
Proof.
  unfold Slow.entry_get. apply steady_bind; [apply steady_gets|intros; apply steady_ret].
Qed.

Lemma steady_at2 v k1 k2 : steady (unchanged at_rest) (Slow.at2 v k1 k2).
Proof.
  unfold Slow.at2. apply steady_bind; [|intros d]; apply steady_lift, subscript_settled.
Qed.

Lemma steady_time_sleep secs :
  0 <= secs -> steady (unchanged Slow.results) (Slow.time_sleep E secs).
Proof.
  intros H. unfold Slow.time_sleep. destruct (secs <? 0) eqn:Hs; [apply Z.ltb_lt in Hs; lia|].
  apply steady_bind; [by apply steady_modify|intros _].
  apply steady_at_rest, steady_emit.
Qed.

End SlowSteady.

Section SlowClosures.
Context (E : env).

(** One step of a proof that a closure is steady, read off its head. *)
Ltac steady_step :=
  lazymatch goal with
  | |- steady _ (bind _ _) => apply steady_bind; [|intros ?; cbv beta zeta]
  | |- steady _ (ret _) => apply steady_ret
  | |- steady _ (raise _) => by apply steady_raise
  | |- steady _ (lift (subscript _ _)) => apply steady_lift, subscript_settled
  | |- steady _ (lift (subscript0 _)) => apply steady_lift, subscript0_settled
  | |- steady _ (lift (dict_get _ _)) => apply steady_lift, dict_get_settled
  | |- steady _ (lift (iterate _)) => apply steady_lift, iterate_settled
  | |- steady _ (lift (Slow.ws_assert _)) => apply steady_lift, ws_assert_settled
  | |- steady _ (gets _) => apply steady_gets
  | |- steady _ Slow.time_time => apply steady_gets
  | |- steady _ (Slow.http _ _ _ _ _) =>
      first [apply steady_http | apply steady_at_rest, steady_http]
  | |- steady _ (Slow.uuid6 _) =>
      first [apply steady_uuid6 | apply steady_at_rest, steady_uuid6]
  | |- steady _ (Slow.created_get _) =>
      first [apply steady_created_get | apply steady_at_rest, steady_created_get]
  | |- steady _ (Slow.created_set _ _) =>
      first [apply steady_created_set | apply steady_at_rest, steady_created_set]
  | |- steady _ (Slow.entry_get _) =>
      first [apply steady_entry_get | apply steady_at_rest, steady_entry_get]
  | |- steady _ (Slow.at2 _ _ _) =>
      first [apply steady_at2 | apply steady_at_rest, steady_at2]
  | |- steady _ (Slow.emit _ _) =>
      first [apply steady_emit | apply steady_at_rest, steady_emit]
  | |- steady _ (Slow.shutdown _ _) =>
      first [apply steady_emit | apply steady_at_rest, steady_emit]
  | |- steady _ (modify (Slow.set_alert_history_entry _)) => by apply steady_modify
  | |- steady _ (Slow.swallow _) =>
      unfold Slow.swallow; apply steady_try_except; [|intros ?]
  | |- steady _ (if ?b then _ else _) => destruct b
  | |- steady _ (match ?x with _ => _ end) => destruct x
  end.

Ltac steady_all := cbv zeta; repeat steady_step.

Lemma steady_capture n t : steady (unchanged at_rest) (Slow.capture_ws_messages E n t).
Proof. unfold Slow.capture_ws_messages. steady_all. Qed.

Lemma steady_proc_wait proc t :
  0 <= t -> steady (unchanged Slow.results) (Slow.proc_wait E proc t).
Proof.
  intros Ht s. unfold Slow.proc_wait, bind, Slow.time_time, gets, modify, Slow.emit; simpl.
  destruct (_ <=? Slow.clock s * 1000); [by split|].
  destruct (_ <=? (Slow.clock s + t) * 1000); by split.
Qed.

Lemma steady_ws_check proc path : steady (unchanged Slow.results) (Slow.ws_check E proc path).
Proof.
  unfold Slow.ws_check. apply steady_bind; [by apply steady_proc_wait|intros _].
  steady_all.
Qed.

Lemma wait_loop_results p deadline step label :
  steady (unchanged at_rest) p ->
  forall fuel s,
    Slow.results (snd (Slow.wait_loop E fuel p deadline step label s)) = Slow.results s.
Proof.
  intros Hp. induction fuel as [|fuel IH]; intros s; [done|].
  rewrite wait_loop_step. destruct (Slow.clock s <? deadline); [|done].
  destruct (Hp s) as [Hrest _]. unfold unchanged, at_rest in Hrest.
  destruct (p s) as [[[|]|e|] s1]; simpl in *; try congruence.
  unfold bind, Slow.time_sleep. destruct (step <? 0); simpl; [congruence|].
  rewrite IH. simpl. congruence.
Qed.

Lemma steady_wait_for fuel p timeout step label (n : nat) :
  steady (unchanged at_rest) p ->
  0 < step -> timeout <= Z.of_nat n * step -> (n < fuel)%nat ->
  steady (unchanged Slow.results) (Slow.wait_for E fuel p timeout step label).
Proof.
  intros Hp Hstep Hn Hfuel s. split.
  - apply (wait_loop_results p _ step label Hp).
  - assert (Hinst : instantaneous p).
    { intros s0. destruct (Hp s0) as [H _]. unfold unchanged, at_rest in H. congruence. }
    assert (Hend : ends p).
    { intros s0 H0. destruct (Hp s0) as [_ H]. by rewrite H0 in H. }
    destruct (wait_loop_bounded E p step label Hstep Hinst Hend
                (Slow.clock s + timeout) n s) as (r & s' & Hrun & _ & Hcases); [lia|].
    unfold Slow.wait_for, bind, Slow.time_time, gets. rewrite (Hrun fuel Hfuel). simpl.
    destruct Hcases as [[-> _] | [[-> _] | (e & s0 & -> & Hs0 & _)]]; [done..|].
    destruct (Hp s0) as [_ H]. by rewrite Hs0 in H.
Qed.

Section Closures.
Context (login : value) (hdrs : list (string * string)) (group_id : value).

Lemma steady_create_test_user : steady (unchanged at_rest) (Slow.create_test_user E hdrs).
Proof. unfold Slow.create_test_user. steady_all. Qed.

Lemma steady_create_sla_config : steady (unchanged at_rest) (Slow.create_sla_config E hdrs).
Proof. unfold Slow.create_sla_config. steady_all. Qed.

Lemma steady_create_template : steady (unchanged at_rest) (Slow.create_template E hdrs).
Proof. unfold Slow.create_template. steady_all. Qed.

Lemma steady_create_channel :
  steady (unchanged at_rest) (Slow.create_channel E hdrs group_id).
Proof. unfold Slow.create_channel. steady_all. Qed.

Lemma steady_create_rule_and_bind :
  steady (unchanged at_rest) (Slow.create_rule_and_bind E hdrs group_id).
Proof. unfold Slow.create_rule_and_bind. steady_all. Qed.

Lemma steady_has_firing_rows rows : steady (unchanged at_rest) (Slow.has_firing_rows rows).
Proof. induction rows as [|row rows IH]; simpl; steady_all; exact IH. Qed.

Lemma steady_has_firing : steady (unchanged at_rest) (Slow.has_firing E hdrs).
Proof. unfold Slow.has_firing. steady_all. apply steady_has_firing_rows. Qed.

Lemma steady_has_resolved_rows rows :
  steady (unchanged at_rest) (Slow.has_resolved_rows rows).
Proof. induction rows as [|row rows IH]; simpl; steady_all; exact IH. Qed.

Lemma steady_has_resolved : steady (unchanged at_rest) (Slow.has_resolved E hdrs).
Proof. unfold Slow.has_resolved. steady_all. apply steady_has_resolved_rows. Qed.

Lemma steady_webhook_ready n : steady (unchanged at_rest) (Slow.wait_for_webhook_ready n).
Proof. unfold Slow.wait_for_webhook_ready. steady_all. Qed.

Lemma steady_wait_for_firing fuel :
  (28 < fuel)%nat -> steady (unchanged Slow.results) (Slow.wait_for_firing E hdrs fuel).
Proof.
  intros H. apply (steady_wait_for _ _ _ _ _ 28%nat); [apply steady_has_firing|lia..].
Qed.

Lemma steady_wait_for_resolved fuel :
  (28 < fuel)%nat -> steady (unchanged Slow.results) (Slow.wait_for_resolved E hdrs fuel).
Proof.
  intros H. apply (steady_wait_for _ _ _ _ _ 28%nat); [apply steady_has_resolved|lia..].
Qed.

Lemma steady_wait_for_webhook fuel n :
  (28 < fuel)%nat -> steady (unchanged Slow.results) (Slow.wait_for_webhook E fuel n).
Proof.
  intros H. apply (steady_wait_for _ _ _ _ _ 28%nat); [apply steady_webhook_ready|lia..].
Qed.

Lemma steady_sla_breach_check : steady (unchanged at_rest) (Slow.sla_breach_check E hdrs).
Proof. unfold Slow.sla_breach_check. steady_all. Qed.

Lemma steady_oncall_flow : steady (unchanged at_rest) (Slow.oncall_flow E login hdrs).
Proof. unfold Slow.oncall_flow. steady_all. Qed.

Lemma steady_correlation_flow : steady (unchanged at_rest) (Slow.correlation_flow E hdrs).
Proof. unfold Slow.correlation_flow. steady_all. Qed.

Lemma steady_escalation_flow token username :
  steady (unchanged at_rest) (Slow.escalation_flow E hdrs token username).
Proof. unfold Slow.escalation_flow. steady_all. Qed.

Lemma steady_create_ticket_for_ws :
  steady (unchanged at_rest) (Slow.create_ticket_for_ws E hdrs).
Proof. unfold Slow.create_ticket_for_ws. steady_all. Qed.

Lemma steady_cleanup : steady (unchanged at_rest) (Slow.cleanup E hdrs).
Proof. unfold Slow.cleanup. steady_all. Qed.

End Closures.

Lemma steady_setup : steady (unchanged at_rest) (Slow.setup E).
Proof. unfold Slow.setup, Slow.bearer. steady_all. Qed.

End SlowClosures.

(** ** The outcomes of a whole run *)

Section Then.
Context {S T : Type} (part : S -> T).

(** What holds after a steady step holds after the script that begins
    with it. *)
Lemma steady_then {A B} (m : M S A) (k : A -> M S B) (Q : res B * S -> Prop) s :
  steady (unchanged part) m ->
  (forall e s', is_Exception e = true -> part s' = part s -> Q (Raise e, s')) ->
  (forall a s', part s' = part s -> Q (k a s')) ->
  Q (bind m k s).
Proof.
  intros Hm Hraise Hret. unfold bind. destruct (Hm s) as [HR Hs].
  destruct (m s) as [[a|e|] s1]; simpl in *; [by apply Hret|by apply Hraise|done].
Qed.

Lemma steady_last {A} (m : M S A) (Q : res A * S -> Prop) s :
  steady (unchanged part) m ->
  (forall r s', settled r -> part s' = part s -> Q (r, s')) ->
  Q (m s).
Proof.
  intros Hm HQ. destruct (Hm s) as [HR Hs]. destruct (m s) as [r s1]. by apply HQ.
Qed.

Lemma modify_then {B} (f : S -> S) (k : unit -> M S B) (Q : res B * S -> Prop) s :
  (forall s', part s' = part (f s) -> Q (k tt s')) -> Q (bind (modify f) k s).
Proof. intros HQ. by apply HQ. Qed.

End Then.

Section Verdict.
Context {S : Type} (results : S -> list (string * string * option string)).

(** A run that ends on an exception. *)
Lemma verdict_raise {A} names (e : exn) (s : S) :
  is_Exception e = true ->
  results s = [] \/ names_of (results s) = names /\ Forall binary (results s) ->
  verdict (A := A) results names (Raise e, s).
Proof.
  intros He Hrs. destruct e as [cls msg| |]; try done.
  unfold verdict; simpl. split; [by right|].
  destruct Hrs as [-> | [Hn Hb]]; repeat split; try done; auto.
Qed.

End Verdict.

Section SlowRun.
Context (E : env).

(** A checked scenario adds one outcome under its name and lets the script
    go on. *)
Lemma slow_check_then {A B} name (fn : M Slow.state A) (k : unit -> M Slow.state B)
    (Q : res B * Slow.state -> Prop) s :
  steady (unchanged Slow.results) fn ->
  (forall o s', fst (fst o) = name -> binary o ->
                Slow.results s' = Slow.results s ++ [o] -> Q (k tt s')) ->
  Q (bind (Slow.check E name fn) k s).
Proof.
  intros Hfn HQ. unfold Slow.check, try_except, bind at 1 2.
  destruct (Hfn s) as [HR Hs]. unfold unchanged in HR.
  destruct (fn s) as [[a|e|] s1]; simpl in *; [| |done].
  - apply (HQ (name, "ok", None)); [done|by left|]. simpl. by rewrite HR.
  - rewrite Hs. apply (HQ (name, "fail", Some (Slow.exn_str E e))); [done|by right|].
    simpl. by rewrite HR.
Qed.

Lemma slow_sleep_then {B} secs (k : unit -> M Slow.state B)
    (Q : res B * Slow.state -> Prop) s :
  0 <= secs ->
  (forall s', Slow.results s' = Slow.results s -> Q (k tt s')) ->
  Q (bind (Slow.time_sleep E secs) k s).
Proof.
  intros Hs HQ. unfold bind. rewrite time_sleep_eq by done. by apply HQ.
Qed.

Lemma slow_summary_loop_results rs : forall ok s,
  Slow.results (snd (Slow.summary_loop E rs ok s)) = Slow.results s.
Proof.
  induction rs as [|[[name status] err] rs IH]; intros ok s; simpl; [done|].
  unfold bind; simpl. by rewrite IH.
Qed.

Lemma slow_summary_results s :
  Slow.results (snd (Slow.summary E s)) = Slow.results s.
Proof.
  unfold Slow.summary, bind; simpl.
  pose proof (slow_summary_loop E (Slow.results s) true
                (snd (Slow.emit E (EPrint "Summary:") s))) as H.
  pose proof (slow_summary_loop_results (Slow.results s) true
                (snd (Slow.emit E (EPrint "Summary:") s))) as H'.
  unfold Slow.emit, modify in H, H'; simpl in H, H'.
  destruct (Slow.summary_loop _ _ _ _) as [r s'] eqn:Hr; simpl in *; subst r.
  by destruct (forallb _ _).
Qed.

(** The summary of a full set of outcomes. *)
Lemma slow_summary_verdict names s :
  names_of (Slow.results s) = names -> Forall binary (Slow.results s) ->
  verdict Slow.results names (Slow.summary E s).
Proof.
  intros Hn Hb. unfold verdict. rewrite slow_summary_results, slow_summary_status.
  repeat split; try done; [|by right|].
  - destruct (forallb _ _); [by left|by right].
  - unfold all_ok. rewrite <- forallb_status_ok. by destruct (forallb _ _).
Qed.

(** The outcomes recorded along a chain of steps, from the last state
    back to the first. *)
Ltac recorded :=
  repeat match goal with
         | H : Slow.results ?s' = _ |- context [Slow.results ?s'] => rewrite H
         end.

Lemma steady_sla_reads hdrs : steady (unchanged Slow.results) (sla_reads E hdrs).
Proof.
  apply steady_at_rest. unfold sla_reads.
  apply steady_bind; [apply steady_entry_get|intros id].
  apply steady_bind.
  - destruct (truthy id); [|apply steady_ret].
    apply steady_bind; [apply steady_http|intros; apply steady_ret].
  - intros _. apply steady_bind; [apply steady_http|intros; apply steady_ret].
Qed.

(** The guarded phase: it stops before its first check with nothing
    recorded, or it goes through all its checks to its unchecked reads. *)
Lemma scenarios_then (Q : res unit * Slow.state -> Prop) login hdrs gid fuel s :
  (28 < fuel)%nat ->
  (forall e s', is_Exception e = true -> Slow.results s' = Slow.results s ->
                Q (Raise e, s')) ->
  (forall new s', Slow.results s' = Slow.results s ++ new ->
                  names_of new = slow_catalogue -> Forall binary new ->
                  Q (sla_reads E hdrs s')) ->
  Q (Slow.scenarios E login hdrs gid fuel s).
Proof.
  intros Hfuel Hstop Hfull. unfold Slow.scenarios.
  apply (steady_then Slow.results); [apply steady_at_rest, steady_capture|done|].
  intros ws s1 H1. cbv zeta.
  apply (steady_then Slow.results); [apply steady_at_rest, steady_create_test_user| |].
  { intros e s' He Hs'. apply Hstop; [done|]. exact (eq_trans Hs' H1). }
  intros user s2 H2.
  apply slow_check_then; [apply steady_at_rest, steady_create_sla_config|intros o1 t1 N1 B1 R1].
  apply slow_check_then; [apply steady_at_rest, steady_create_template|intros o2 t2 N2 B2 R2].
  apply slow_check_then; [apply steady_at_rest, steady_create_channel|intros o3 t3 N3 B3 R3].
  apply slow_check_then;
    [apply steady_at_rest, steady_create_rule_and_bind|intros o4 t4 N4 B4 R4].
  apply slow_check_then; [by apply steady_wait_for_firing|intros o5 t5 N5 B5 R5].
  apply slow_check_then; [by apply steady_wait_for_webhook|intros o6 t6 N6 B6 R6].
  apply slow_check_then;
    [apply steady_at_rest, steady_create_ticket_for_ws|intros o7 t7 N7 B7 R7].
  apply (modify_then Slow.results); intros t7' R7'; simpl in R7'.
  apply slow_check_then; [by apply steady_wait_for_resolved|intros o8 t8 N8 B8 R8].
  apply slow_check_then; [by apply steady_wait_for_webhook|intros o9 t9 N9 B9 R9].
  apply slow_sleep_then; [done|intros t9' R9'].
  apply slow_check_then;
    [apply steady_at_rest, steady_sla_breach_check|intros o10 t10 N10 B10 R10].
  apply slow_check_then; [apply steady_ws_check|intros o11 t11 N11 B11 R11].
  apply slow_check_then; [apply steady_at_rest, steady_oncall_flow|intros o12 t12 N12 B12 R12].
  apply slow_check_then;
    [apply steady_at_rest, steady_correlation_flow|intros o13 t13 N13 B13 R13].
  apply slow_check_then;
    [apply steady_at_rest, steady_escalation_flow|intros o14 t14 N14 B14 R14].
  apply (Hfull [o1; o2; o3; o4; o5; o6; o7; o8; o9; o10; o11; o12; o13; o14]).
  - rewrite R14, R13, R12, R11, R10, R9', R9, R8, R7', R7, R6, R5, R4, R3, R2, R1, H2, H1.
    by rewrite <- !app_assoc.
  - unfold names_of; simpl.
    by rewrite N1, N2, N3, N4, N5, N6, N7, N8, N9, N10, N11, N12, N13, N14.
  - repeat (apply Forall_cons; split; [done|]). done.
Qed.

Lemma scenarios_all_or_nothing login hdrs gid fuel s :
  (28 < fuel)%nat -> Slow.results s = [] ->
  all_or_nothing Slow.results slow_catalogue (Slow.scenarios E login hdrs gid fuel s).
Proof.
  intros Hfuel H0. apply scenarios_then; [done| |].
  - intros e s' He Hs'. split; [done|]. left. split; [by eexists|].
    exact (eq_trans Hs' H0).
  - intros new s' Hs' Hn Hb. apply (steady_last Slow.results); [apply steady_sla_reads|].
    intros r s2 Hr H2. split; [done|]. right. simpl. by rewrite H2, Hs', H0.
Qed.

(** A read that the platform refuses. *)
Lemma http_refused method path data hdrs s :
  refuses E (Slow.API_BASE +:+ path) ->
  uncaught (Slow.http E method path data hdrs s).
Proof.
  intros H. unfold Slow.http, bind, gets, Slow.emit, modify; simpl.
  match goal with
  | |- context [platform E ?tr ?q] =>
      pose proof (H tr q) as Hq; destruct (platform E tr q) as [v|code raw|cls msg]
  end.
  - by destruct (Hq v).
  - by eexists.
  - by eexists.
Qed.

Lemma sla_reads_refused hdrs s :
  refuses E (Slow.API_BASE +:+ "/sla/report") -> uncaught (sla_reads E hdrs s).
Proof.
  intros H. unfold sla_reads.
  apply (steady_then Slow.results); [apply steady_at_rest, steady_entry_get| |].
  { intros e s' He _. by exists e. }
  intros id s1 _.
  apply (steady_then Slow.results).
  { apply steady_at_rest. destruct (truthy id); [|apply steady_ret].
    apply steady_bind; [apply steady_http|intros; apply steady_ret]. }
  { intros e s' He _. by exists e. }
  intros _ s2 _. unfold bind.
  destruct (http_refused "GET" "/sla/report" None hdrs s2 H) as (e & He & Hexn).
  destruct (Slow.http E "GET" "/sla/report" None hdrs s2) as [r s3]; simpl in He; subst r.
  by exists e.
Qed.

Lemma steady_start_server port :
  steady (unchanged Slow.results) (Slow.start_server E port).
Proof.
  unfold Slow.start_server. destruct (bind_ok E port); [|by apply steady_raise].
  apply steady_bind; [apply steady_at_rest, steady_emit|intros; apply steady_ret].
Qed.

Lemma steady_finally hdrs prom webhook :
  steady (unchanged Slow.results)
    (Slow.cleanup E hdrs >> Slow.shutdown E prom >> Slow.shutdown E webhook).
Proof.
  apply steady_at_rest.
  apply steady_bind; [apply steady_cleanup|intros _].
  apply steady_bind; [apply steady_emit|intros _; apply steady_emit].
Qed.

Lemma slow_main_verdict fuel s :
  (28 < fuel)%nat -> Slow.results s = [] ->
  verdict Slow.results slow_catalogue (Slow.main E fuel s).
Proof.
  intros Hfuel H0. unfold Slow.main.
  apply (steady_then Slow.results); [apply steady_start_server| |].
  { intros e s' He Hs'. apply (verdict_raise Slow.results); [done|left; by recorded]. }
  intros prom s1 H1.
  apply (steady_then Slow.results); [apply steady_start_server| |].
  { intros e s' He Hs'. apply (verdict_raise Slow.results); [done|left; by recorded]. }
  intros webhook s2 H2.
  apply (modify_then Slow.results); intros s3 H3; simpl in H3.
  apply (modify_then Slow.results); intros s4 H4; simpl in H4.
  apply (steady_then Slow.results); [apply steady_at_rest, steady_setup| |].
  { intros e s' He Hs'. apply (verdict_raise Slow.results); [done|left; by recorded]. }
  intros c s5 H5.
  apply (modify_then Slow.results); intros s6 H6; simpl in H6.
  assert (R6 : Slow.results s6 = []) by (by recorded).
  destruct (scenarios_all_or_nothing (Slow.login c) (Slow.admin_headers c)
              (Slow.group_id c) fuel s6 Hfuel R6) as [Hset Hcases].
  destruct (steady_finally (Slow.admin_headers c) prom webhook
              (snd (Slow.scenarios E (Slow.login c) (Slow.admin_headers c)
                      (Slow.group_id c) fuel s6))) as [HR Hs].
  unfold unchanged in HR. unfold bind at 1. unfold try_finally.
  destruct (Slow.scenarios E _ _ _ fuel s6) as [[a|e|] s7]; simpl in *; [| |done].
  - destruct Hcases as [[[e He] _] | [Hn Hb]]; [done|].
    destruct ((Slow.cleanup E _ >> _) s7) as [[u|e|] s8]; simpl in *; [| |done].
    + apply slow_summary_verdict; by rewrite HR.
    + apply (verdict_raise Slow.results); [done|]. right. by rewrite HR.
  - destruct ((Slow.cleanup E _ >> _) s7) as [[u|e'|] s8]; simpl in *; [| |done].
    + apply (verdict_raise Slow.results); [done|]. rewrite HR.
      destruct Hcases as [[_ Hn] | Hn]; [by left|by right].
    + apply (verdict_raise Slow.results); [done|]. rewrite HR.
      destruct Hcases as [[_ Hn] | Hn]; [by left|by right].
Qed.

Lemma slow_main_uncaught fuel s :
  (28 < fuel)%nat -> refuses E (Slow.API_BASE +:+ "/sla/report") ->
  uncaught (Slow.main E fuel s).
Proof.
  intros Hfuel Hdown. unfold Slow.main.
  apply (steady_then Slow.results); [apply steady_start_server| |].
  { intros e s' He _. by exists e. }
  intros prom s1 _.
  apply (steady_then Slow.results); [apply steady_start_server| |].
  { intros e s' He _. by exists e. }
  intros webhook s2 _.
  apply (modify_then Slow.results); intros s3 _.
  apply (modify_then Slow.results); intros s4 _.
  apply (steady_then Slow.results); [apply steady_at_rest, steady_setup| |].
  { intros e s' He _. by exists e. }
  intros c s5 _.
  apply (modify_then Slow.results); intros s6 _.
  assert (Hsc : uncaught (Slow.scenarios E (Slow.login c) (Slow.admin_headers c)
                            (Slow.group_id c) fuel s6)).
  { apply scenarios_then; [done| |].
    - intros e s' He _. by exists e.
    - intros new s' _ _ _. by apply sla_reads_refused. }
  destruct Hsc as (e & He & Hexn).
  destruct (steady_finally (Slow.admin_headers c) prom webhook
              (snd (Slow.scenarios E (Slow.login c) (Slow.admin_headers c)
                      (Slow.group_id c) fuel s6))) as [_ Hs].
  unfold bind at 1. unfold try_finally.
  destruct (Slow.scenarios E _ _ _ fuel s6) as [r s7]; simpl in *; subst r.
  destruct ((Slow.cleanup E _ >> _) s7) as [[u|e'|] s8]; simpl in *; [| |done].
  - by exists e.
  - by exists e'.
Qed.

End SlowRun.

(** X8.  A run of the slow script on any platform, with fuel for the 28
    sleeps of a poller, ends with exit status 0 or 1.  It has recorded
    either nothing or one outcome for each of the fourteen checked
    scenarios, in the order of the script, each with status [ok] or
    [fail]: a scenario that fails never keeps a later one from being run
    and recorded.  The exit status is 0 only if all fourteen are recorded
    with status [ok]. *)
Theorem slow_run_records_all_or_nothing (E : env) (fuel : nat) (s : Slow.state) :
  (28 < fuel)%nat -> Slow.results s = [] ->
  let r := Slow.main E fuel s in
  let rs := Slow.results (snd r) in
  (exit_status (fst r) = Some 0 \/ exit_status (fst r) = Some 1)
  /\ (rs = [] \/ names_of rs = slow_catalogue)
  /\ Forall binary rs
  /\ (exit_status (fst r) = Some 0 -> names_of rs = slow_catalogue /\ all_ok rs).
Proof. intros Hfuel H0. exact (slow_main_verdict E fuel s Hfuel H0). Qed.

Lemma slow_run_records_all_or_nothing_witness :
  let r := Slow.main half_up 29 (Slow.boot 0) in
  let rs := Slow.results (snd r) in
  (exit_status (fst r) = Some 0 \/ exit_status (fst r) = Some 1)
  /\ (rs = [] \/ names_of rs = slow_catalogue)
  /\ Forall binary rs
  /\ (exit_status (fst r) = Some 0 -> names_of rs = slow_catalogue /\ all_ok rs).
Proof. apply slow_run_records_all_or_nothing; [lia|reflexivity]. Defined.


(** X14.  The slow script fails on an outage of the SLA report whatever
    its scenarios did: the read of the report that ends the guarded phase
    is not checked, so on a platform that answers it with no body every
    run, with fuel for the 28 sleeps of a poller, ends on an exception
    that nothing catches, with exit status 1 and before the summary, even
    if all fourteen scenarios have been recorded as [ok]. *)
Theorem report_outage_fails_the_run (E : env) (fuel : nat) (s : Slow.state) :
  (28 < fuel)%nat -> refuses E (Slow.API_BASE +:+ "/sla/report") ->
  uncaught (Slow.main E fuel s)
  /\ exit_status (fst (Slow.main E fuel s)) = Some 1.
Proof.
  intros Hfuel Hdown. pose proof (slow_main_uncaught E fuel s Hfuel Hdown) as H.
  split; [done|]. destruct H as (e & -> & He). by destruct e.
Qed.

Lemma report_outage_fails_the_run_witness :
  uncaught (Slow.main half_up 29 (Slow.boot 0))
  /\ exit_status (fst (Slow.main half_up 29 (Slow.boot 0))) = Some 1.
Proof.
  apply report_outage_fails_the_run; [lia|].
  intros tr q v Hq. unfold half_up, world; cbn [platform]. rewrite Hq.
  destruct (String.eqb (req_method q) "POST"); by vm_compute.
Defined.

(** ** The fast script *)

Lemma shutdowns_of_app tr tr' :
  shutdowns_of (tr ++ tr') = shutdowns_of tr ++ shutdowns_of tr'.
Proof. apply omap_app. Qed.

Section FastSteady.
Context (E : env).

Lemma fast_steady_emit e :
  shutdowns_of [e] = [] -> steady (unchanged fast_rest) (Fast.emit e).
Proof.
  intros H. apply steady_modify. intros s. unfold fast_rest; simpl.
  by rewrite shutdowns_of_app, H, app_nil_r.
Qed.

Lemma fast_steady_http method path data hdrs :
  steady (unchanged fast_rest) (Fast.http E method path data hdrs).
Proof.
  unfold Fast.http. apply steady_bind; [apply steady_gets|intros tr].
  cbv beta zeta. apply steady_bind; [by apply fast_steady_emit|intros _].
  destruct (platform E tr _); [apply steady_ret|by apply steady_raise..].
Qed.

Lemma fast_steady_uuid6 : steady (unchanged fast_rest) (Fast.uuid6 E).
Proof.
  unfold Fast.uuid6. apply steady_bind; [apply steady_gets|intros n].
  apply steady_bind; [by apply steady_modify|intros; apply steady_ret].
Qed.

Lemma fast_steady_at2 v k1 k2 : steady (unchanged fast_rest) (Fast.at2 v k1 k2).
Proof.
  unfold Fast.at2. apply steady_bind; [|intros d]; apply steady_lift, subscript_settled.
Qed.

(** One step of a proof that a closure of the fast script is steady. *)
Ltac fast_step :=
  lazymatch goal with
  | |- steady _ (bind _ _) => apply steady_bind; [|intros ?; cbv beta zeta]
  | |- steady _ (ret _) => apply steady_ret
  | |- steady _ (raise _) => by apply steady_raise
  | |- steady _ (lift (subscript _ _)) => apply steady_lift, subscript_settled
  | |- steady _ (lift (subscript0 _)) => apply steady_lift, subscript0_settled
  | |- steady _ (lift (dict_get _ _)) => apply steady_lift, dict_get_settled
  | |- steady _ (lift (iterate _)) => apply steady_lift, iterate_settled
  | |- steady _ (gets _) => apply steady_gets
  | |- steady _ Fast.time_time => apply steady_gets
  | |- steady _ (Fast.http _ _ _ _ _) => apply fast_steady_http
  | |- steady _ (Fast.uuid6 _) => apply fast_steady_uuid6
  | |- steady _ (Fast.at2 _ _ _) => apply fast_steady_at2
  | |- steady _ (try_except _ _) => apply steady_try_except; [|intros ?]
  | |- steady _ (if ?b then _ else _) => destruct b
  end.

Ltac fast_all := cbv zeta; repeat fast_step.

Section Closures.
Context (hdrs : list (string * string)) (group_id : value).

Lemma steady_templates_crud : steady (unchanged fast_rest) (Fast.templates_crud E hdrs).
Proof. unfold Fast.templates_crud. fast_all. Qed.

Lemma steady_channels_webhook :
  steady (unchanged fast_rest) (Fast.channels_webhook E hdrs group_id).
Proof. unfold Fast.channels_webhook. fast_all. Qed.

Lemma steady_channels_lark :
  steady (unchanged fast_rest) (Fast.channels_lark E hdrs group_id).
Proof. unfold Fast.channels_lark. fast_all. Qed.

Lemma steady_channels_telegram :
  steady (unchanged fast_rest) (Fast.channels_telegram E hdrs group_id).
Proof. unfold Fast.channels_telegram. fast_all. Qed.

Lemma steady_data_sources_crud :
  steady (unchanged fast_rest) (Fast.data_sources_crud E hdrs).
Proof. unfold Fast.data_sources_crud. fast_all. Qed.

Lemma steady_silences_crud : steady (unchanged fast_rest) (Fast.silences_crud E hdrs).
Proof. unfold Fast.silences_crud. fast_all. Qed.

Lemma steady_tickets_crud : steady (unchanged fast_rest) (Fast.tickets_crud E hdrs).
Proof. unfold Fast.tickets_crud. fast_all. Qed.

Lemma steady_users_crud : steady (unchanged fast_rest) (Fast.users_crud E hdrs).
Proof. unfold Fast.users_crud. fast_all. Qed.

Lemma steady_delete_named name rows :
  steady (unchanged fast_rest) (Fast.delete_named E hdrs name rows).
Proof. induction rows as [|row rows IH]; simpl; fast_all; exact IH. Qed.

Lemma steady_batch_import_export :
  steady (unchanged fast_rest) (Fast.batch_import_export E hdrs group_id).
Proof. unfold Fast.batch_import_export. fast_all; apply steady_delete_named. Qed.

Lemma steady_misc_reads : steady (unchanged fast_rest) (Fast.misc_reads E hdrs).
Proof. unfold Fast.misc_reads. fast_all. Qed.

End Closures.

End FastSteady.

Section FastRun.
Context (E : env).

Lemma fast_rest_eq s s' :
  fast_rest s' = fast_rest s ->
  Fast.results s' = Fast.results s
  /\ shutdowns_of (Fast.trace s') = shutdowns_of (Fast.trace s).
Proof. unfold fast_rest. intros H. by inversion H. Qed.

(** A checked scenario adds one outcome under its name and lets the script
    go on. *)
Lemma fast_check_then {A B} name (fn : M Fast.state A) (k : unit -> M Fast.state B)
    (Q : res B * Fast.state -> Prop) s :
  steady (unchanged fast_rest) fn ->
  (forall o s', fst (fst o) = name -> binary o ->
                Fast.results s' = Fast.results s ++ [o] ->
                shutdowns_of (Fast.trace s') = shutdowns_of (Fast.trace s) ->
                Q (k tt s')) ->
  Q (bind (Fast.check E name fn) k s).
Proof.
  intros Hfn HQ. unfold Fast.check, try_except, bind at 1 2.
  destruct (Hfn s) as [HR Hs]. apply fast_rest_eq in HR as [HR HT].
  destruct (fn s) as [[a|e|] s1]; simpl in *; [| |done].
  - apply (HQ (name, "ok", None)); [done|by left|simpl; by rewrite HR|done].
  - rewrite Hs. apply (HQ (name, "fail", Some (Fast.exn_str E e))); [done|by right| |done].
    simpl. by rewrite HR.
Qed.

Lemma fast_then {A B} (m : M Fast.state A) (k : A -> M Fast.state B)
    (Q : res B * Fast.state -> Prop) s :
  steady (unchanged fast_rest) m ->
  (forall e s', is_Exception e = true -> Fast.results s' = Fast.results s ->
                shutdowns_of (Fast.trace s') = shutdowns_of (Fast.trace s) ->
                Q (Raise e, s')) ->
  (forall a s', Fast.results s' = Fast.results s ->
                shutdowns_of (Fast.trace s') = shutdowns_of (Fast.trace s) ->
                Q (k a s')) ->
  Q (bind m k s).
Proof.
  intros Hm Hraise Hret. apply (steady_then fast_rest); [done| |].
  - intros e s' He H. apply fast_rest_eq in H as [H1 H2]. by apply Hraise.
  - intros a s' H. apply fast_rest_eq in H as [H1 H2]. by apply Hret.
Qed.

(** A server that starts is known by its port. *)
Lemma fast_start_then {B} port (k : Z -> M Fast.state B)
    (Q : res B * Fast.state -> Prop) s :
  (forall e, is_Exception e = true -> Q (Raise e, s)) ->
  (forall s', Fast.results s' = Fast.results s ->
              shutdowns_of (Fast.trace s') = shutdowns_of (Fast.trace s) ->
              Q (k port s')) ->
  Q (bind (Fast.start_server E port) k s).
Proof.
  intros Hraise Hret. unfold Fast.start_server, bind at 1.
  destruct (bind_ok E port); simpl; [|by apply Hraise].
  apply Hret; simpl; [done|]. by rewrite shutdowns_of_app, app_nil_r.
Qed.

Lemma fast_summary_loop_rest rs : forall ok s,
  fast_rest (snd (Fast.summary_loop rs ok s)) = fast_rest s.
Proof.
  induction rs as [|[[name status] err] rs IH]; intros ok s; simpl; [done|].
  unfold bind; simpl. rewrite IH. unfold fast_rest; simpl.
  by rewrite shutdowns_of_app, app_nil_r.
Qed.

Lemma fast_summary_rest s : fast_rest (snd (Fast.summary s)) = fast_rest s.
Proof.
  unfold Fast.summary, bind; simpl.
  pose proof (fast_summary_loop (Fast.results s) true
                (snd (Fast.emit (EPrint "Summary:") s))) as H.
  pose proof (fast_summary_loop_rest (Fast.results s) true
                (snd (Fast.emit (EPrint "Summary:") s))) as H'.
  unfold Fast.emit, modify in H, H'; simpl in H, H'.
  destruct (Fast.summary_loop _ _ _) as [r s'] eqn:Hr; simpl in *; subst r.
  assert (Hs : fast_rest s' = fast_rest s).
  { rewrite H'. unfold fast_rest; simpl. by rewrite shutdowns_of_app, app_nil_r. }
  by destruct (forallb _ _).
Qed.

(** The summary of a full set of outcomes, after the shutdown of the
    stubs. *)
Lemma fast_summary_end s0 s :
  names_of (Fast.results s) = fast_catalogue -> Forall binary (Fast.results s) ->
  shutdowns_of (Fast.trace s) = shutdowns_of (Fast.trace s0) ++ fast_stubs ->
  fast_end s0 (Fast.summary s).
Proof.
  intros Hn Hb Ht. destruct (fast_rest_eq _ _ (fast_summary_rest s)) as [Hr Hs].
  unfold fast_end, verdict. rewrite Hr, Hs, fast_summary_status.
  unfold all_ok. rewrite <- forallb_status_ok.
  split; [|split].
  - repeat split; try done; [|by right|].
    + destruct (forallb _ _); [by left|by right].
    + by destruct (forallb _ _).
  - intros _ ->. done.
  - rewrite Ht. destruct (Fast.results s); [done|done].
Qed.

(** A run that ends before the first check. *)
Lemma fast_end_raise {A} s0 (e : exn) s :
  is_Exception e = true -> Fast.results s = [] ->
  shutdowns_of (Fast.trace s) = shutdowns_of (Fast.trace s0) ->
  fast_end (A := A) s0 (Raise e, s).
Proof.
  intros He Hr Ht. unfold fast_end. split; [|split].
  - apply (verdict_raise Fast.results); [done|by left].
  - simpl. by rewrite Hr.
  - simpl. by rewrite Hr, Ht, app_nil_r.
Qed.

Ltac fast_recorded :=
  repeat match goal with
         | H : Fast.results ?s' = _ |- context [Fast.results ?s'] => rewrite H
         | H : shutdowns_of (Fast.trace ?s') = _
           |- context [shutdowns_of (Fast.trace ?s')] => rewrite H
         end.

Ltac fast_stops :=
  intros; apply fast_end_raise; [done|by fast_recorded|by fast_recorded].

Lemma fast_main_end s : Fast.results s = [] -> fast_end s (Fast.main E s).
Proof.
  intros H0. unfold Fast.main.
  apply fast_start_then; [fast_stops|intros s1 R1 T1].
  apply fast_start_then; [fast_stops|intros s2 R2 T2].
  apply fast_start_then; [fast_stops|intros s3 R3 T3].
  apply (modify_then fast_rest); intros s4 H4.
  apply fast_rest_eq in H4 as [R4 T4]; simpl in R4, T4.
  apply fast_then; [apply fast_steady_http|fast_stops|intros login s5 R5 T5].
  apply fast_then; [apply fast_steady_at2|fast_stops|intros token s6 R6 T6].
  cbv zeta.
  apply fast_then; [apply fast_steady_http|fast_stops|intros resp s7 R7 T7].
  apply fast_then; [apply fast_steady_at2|fast_stops|intros groups s8 R8 T8].
  destruct (negb (truthy groups)); [fast_stops|].
  apply fast_then;
    [apply steady_lift, subscript0_settled|fast_stops|intros group0 s9 R9 T9].
  apply fast_then;
    [apply steady_lift, subscript_settled|fast_stops|intros gid s10 R10 T10].
  apply fast_check_then; [apply steady_templates_crud|intros o1 t1 N1 B1 Q1 U1].
  apply fast_check_then; [apply steady_channels_webhook|intros o2 t2 N2 B2 Q2 U2].
  apply fast_check_then; [apply steady_channels_lark|intros o3 t3 N3 B3 Q3 U3].
  apply fast_check_then; [apply steady_channels_telegram|intros o4 t4 N4 B4 Q4 U4].
  apply fast_check_then; [apply steady_data_sources_crud|intros o5 t5 N5 B5 Q5 U5].
  apply fast_check_then; [apply steady_silences_crud|intros o6 t6 N6 B6 Q6 U6].
  apply fast_check_then; [apply steady_tickets_crud|intros o7 t7 N7 B7 Q7 U7].
  apply fast_check_then; [apply steady_users_crud|intros o8 t8 N8 B8 Q8 U8].
  apply fast_check_then; [apply steady_batch_import_export|intros o9 t9 N9 B9 Q9 U9].
  apply fast_check_then; [apply steady_misc_reads|intros o10 t10 N10 B10 Q10 U10].
  unfold bind at 1 2 3, Fast.shutdown, Fast.emit, modify. cbv beta iota.
  apply fast_summary_end; simpl.
  - fast_recorded. unfold names_of. simpl.
    by rewrite N1, N2, N3, N4, N5, N6, N7, N8, N9, N10.
  - fast_recorded. simpl. repeat (apply Forall_cons; split; [done|]). done.
  - rewrite !shutdowns_of_app. simpl. fast_recorded. by rewrite <- !app_assoc.
Qed.

End FastRun.

(** X9.  A run of the fast script on any platform ends with exit status 0
    or 1.  It has recorded either nothing or one outcome for each of the
    ten scenarios, in the order of the script, each with status [ok] or
    [fail]; and its exit status is 0 exactly when all ten are recorded
    with status [ok]: nothing that follows the checks can fail the run. *)
Theorem fast_run_succeeds_iff_all_ten_ok (E : env) (s : Fast.state) :
  Fast.results s = [] ->
  let r := Fast.main E s in
  let rs := Fast.results (snd r) in
  (exit_status (fst r) = Some 0 \/ exit_status (fst r) = Some 1)
  /\ (rs = [] \/ names_of rs = fast_catalogue)
  /\ Forall binary rs
  /\ (exit_status (fst r) = Some 0 <-> names_of rs = fast_catalogue /\ all_ok rs).
Proof.
  intros H0. destruct (fast_main_end E s H0) as [(H1 & H2 & H3 & H4) [H5 _]].
  repeat split; try done; try (by apply H4). intros [Hn Hk]. by apply H5.
Qed.

Lemma fast_run_succeeds_iff_all_ten_ok_witness :
  let r := Fast.main half_up (Fast.boot 0) in
  let rs := Fast.results (snd r) in
  (exit_status (fst r) = Some 0 \/ exit_status (fst r) = Some 1)
  /\ (rs = [] \/ names_of rs = fast_catalogue)
  /\ Forall binary rs
  /\ (exit_status (fst r) = Some 0 <-> names_of rs = fast_catalogue /\ all_ok rs).
Proof. apply fast_run_succeeds_iff_all_ten_ok. reflexivity. Defined.

(** X10.  The fast script shuts its stub servers down exactly when it has
    reached its checks: a run that has recorded outcomes has shut down
    the webhook, the Telegram and the Lark stub, once each and in this
    order, whatever the scenarios did, and a run that failed before its
    first check (a port in use, the login, the business groups) has shut
    down none of them. *)
Theorem fast_stubs_shut_down_iff_checks_reached (E : env) (s : Fast.state) :
  Fast.results s = [] ->
  let s' := snd (Fast.main E s) in
  shutdowns_of (Fast.trace s')
  = shutdowns_of (Fast.trace s)
    ++ match Fast.results s' with [] => [] | _ => fast_stubs end.
Proof. intros H0. by destruct (fast_main_end E s H0) as (_ & _ & H). Qed.

Lemma fast_stubs_shut_down_iff_checks_reached_witness :
  let s' := snd (Fast.main no_group (Fast.boot 0)) in
  shutdowns_of (Fast.trace s')
  = shutdowns_of (Fast.trace (Fast.boot 0))
    ++ match Fast.results s' with [] => [] | _ => fast_stubs end.
Proof. apply fast_stubs_shut_down_iff_checks_reached. reflexivity. Defined.

(** ** Scenarios that clean up after themselves *)

Section Tidy.
Context (E : env) (hdrs : list (string * string)) (group_id : value).

Ltac unfold_fast :=
  unfold Fast.uuid6, Fast.http, Fast.at2, Fast.time_time, try_except, bind, gets, modify,
    lift, ret, raise, Fast.emit.

(** Run a closure of the fast script symbolically, up to its end. *)
Ltac run_fast :=
  repeat (simpl;
          match goal with
          | |- context [platform E ?tr ?q] =>
              destruct (platform E tr q) as [?v|?code ?raw|?cls ?msg] eqn:?
          | |- context [subscript ?v ?k] =>
              destruct (subscript v k) as [?d| |] eqn:?
          end).

(** Settle what one event of a run that returned created, and where the
    run asked to delete it. *)
Ltac tidy_event Hby :=
  first
    [ by vm_compute in Hby
    | apply created_by_inv in Hby as (?v & ?d & ? & ? & ?);
      simplify_eq;
      repeat match goal with
             | H1 : subscript ?v ?k = Ret ?a, H2 : subscript ?v ?k = Ret ?b |- _ =>
                 rewrite H1 in H2; simplify_eq
             end;
      apply list_elem_of_In; vm_compute; auto 8 ].

Ltac tidy_events :=
  let Hrun := fresh "Hrun" in
  intros Hrun; simplify_eq; unfold fast_events; simpl;
  rewrite <- ?app_assoc; rewrite ?drop_app_length; cbn [app];
  let q := fresh "q" in
  let rep := fresh "rep" in
  let id := fresh "id" in
  let Hev := fresh "Hev" in
  let Hby := fresh "Hby" in
  intros q rep id Hev Hby;
  repeat (apply elem_of_cons in Hev as [Hev | Hev]; [simplify_eq; tidy_event Hby|]);
  by apply elem_of_nil in Hev.

Lemma tidy_templates_crud : tidy E (Fast.templates_crud E hdrs).
Proof.
  intros s a s'. unfold Fast.templates_crud. unfold_fast.
  run_fast; tidy_events.
Qed.

Lemma tidy_channels_webhook : tidy E (Fast.channels_webhook E hdrs group_id).
Proof.
  intros s a s'. unfold Fast.channels_webhook. unfold_fast.
  run_fast; tidy_events.
Qed.

Lemma tidy_channels_lark : tidy E (Fast.channels_lark E hdrs group_id).
Proof.
  intros s a s'. unfold Fast.channels_lark. unfold_fast.
  run_fast; tidy_events.
Qed.

Lemma tidy_channels_telegram : tidy E (Fast.channels_telegram E hdrs group_id).
Proof.
  intros s a s'. unfold Fast.channels_telegram. unfold_fast.
  run_fast; tidy_events.
Qed.

Lemma tidy_data_sources_crud : tidy E (Fast.data_sources_crud E hdrs).
Proof.
  intros s a s'. unfold Fast.data_sources_crud. unfold_fast.
  run_fast; tidy_events.
Qed.

Lemma tidy_silences_crud : tidy E (Fast.silences_crud E hdrs).
Proof.
  intros s a s'. unfold Fast.silences_crud. unfold_fast.
  run_fast; tidy_events.
Qed.

Lemma tidy_tickets_crud : tidy E (Fast.tickets_crud E hdrs).
Proof.
  intros s a s'. unfold Fast.tickets_crud. unfold_fast.
  run_fast; tidy_events.
Qed.

Lemma tidy_users_crud : tidy E (Fast.users_crud E hdrs).
Proof.
  intros s a s'. unfold Fast.users_crud. unfold_fast.
  run_fast; tidy_events.
Qed.

(** X12.  The health check of [data_sources_crud] cannot fail the
    scenario nor keep the data source from being deleted: whatever the
    platform answers, a run of the scenario sends one, two, three or five
    requests, never four, so that a health check that has been sent is
    always followed by the deletion. *)
Theorem health_check_is_always_followed_by_the_deletion (s : Fast.state) :
  let s' := snd (Fast.data_sources_crud E hdrs s) in
  let ms := map req_method (requests_of (fast_events s s')) in
  ms = ["POST"] \/ ms = ["POST"; "GET"] \/ ms = ["POST"; "GET"; "PUT"]
  \/ ms = ["POST"; "GET"; "PUT"; "POST"; "DELETE"].
Proof.
  unfold Fast.data_sources_crud. unfold_fast.
  run_fast; unfold fast_events; simpl;
    rewrite <- ?app_assoc; rewrite ?drop_app_length; cbn [app];
    vm_compute; auto.
Qed.

Lemma deletes_of_cons q rep evs :
  deletes_of (EHttp q rep :: evs)
  = if String.eqb (req_method q) "DELETE" then req_url q :: deletes_of evs
    else deletes_of evs.
Proof. unfold deletes_of, requests_of; simpl. by destruct (String.eqb _ _). Qed.

(** The deletions of [delete_named], however it ends. *)
Lemma delete_named_events name rows : forall s,
  let r := Fast.delete_named E hdrs name rows s in
  exists evs,
    Fast.trace (snd r) = Fast.trace s ++ evs
    /\ deletes_of evs `prefix_of` omap (rule_to_delete E name) rows
    /\ (forall a, fst r = Ret a -> deletes_of evs = omap (rule_to_delete E name) rows).
Proof.
  induction rows as [|row rows IH]; intros s; simpl.
  { exists []. by rewrite app_nil_r. }
  unfold rule_to_delete in *.
  unfold Fast.http, Fast.emit. unfold bind, lift, gets, modify, ret, raise; simpl.
  destruct (dict_get row "name") as [n| |] eqn:Hn; simpl;
    [|exists []; rewrite app_nil_r; split; [done|]; split; [apply prefix_nil|done]..].
  destruct (value_eqb n (PStr name)) eqn:Hname; simpl.
  - destruct (subscript row "id") as [id| |] eqn:Hid; simpl;
      [|exists []; rewrite app_nil_r; split; [done|]; split; [apply prefix_nil|done]..].
    match goal with |- context [platform E ?tr ?q] =>
      destruct (platform E tr q) as [v|code raw|cls msg] eqn:Hp; simpl
    end.
    + match goal with |- context [Fast.delete_named E hdrs name rows ?s1] =>
        destruct (IH s1) as (evs & Htr & Hpre & Hret)
      end.
      simpl in Htr. eexists. split; [rewrite Htr, <- app_assoc; reflexivity|]. simpl.
      rewrite deletes_of_cons; simpl.
      split; [by apply prefix_cons|]. intros a Ha. f_equal. by apply (Hret a).
    + eexists. split; [reflexivity|]. rewrite deletes_of_cons; simpl.
      split; [|done]. apply prefix_cons, prefix_nil.
    + eexists. split; [reflexivity|]. rewrite deletes_of_cons; simpl.
      split; [|done]. apply prefix_cons, prefix_nil.
  - destruct (subscript row "id"); apply IH.
Qed.

End Tidy.

Section SlowTidy.
Context (E : env) (login : value) (hdrs : list (string * string)).

Ltac unfold_slow :=
  unfold new_events, Slow.uuid6, Slow.http, Slow.at2, Slow.time_time, bind, gets, modify,
    lift, ret, raise, Slow.emit.

Ltac run_slow :=
  repeat (simpl;
          match goal with
          | |- context [platform E ?tr ?q] =>
              destruct (platform E tr q) as [?v|?code ?raw|?cls ?msg] eqn:?
          | |- context [subscript ?v ?k] =>
              destruct (subscript v k) as [?d| |] eqn:?
          end).

Ltac slow_event Hby :=
  first
    [ by vm_compute in Hby
    | apply created_by_inv in Hby as (?v & ?d & ? & ? & ?);
      simplify_eq;
      repeat match goal with
             | H1 : subscript ?v ?k = Ret ?a, H2 : subscript ?v ?k = Ret ?b |- _ =>
                 rewrite H1 in H2; simplify_eq
             end;
      apply list_elem_of_In; vm_compute; auto 20 ].

Ltac slow_events :=
  let Hrun := fresh "Hrun" in
  intros Hrun; simplify_eq; unfold new_events; simpl;
  rewrite <- ?app_assoc; rewrite ?drop_app_length; cbn [app];
  let q := fresh "q" in
  let rep := fresh "rep" in
  let id := fresh "id" in
  let Hev := fresh "Hev" in
  let Hby := fresh "Hby" in
  intros q rep id Hev Hby;
  repeat (apply elem_of_cons in Hev as [Hev | Hev]; [simplify_eq; slow_event Hby|]);
  by apply elem_of_nil in Hev.

Lemma tidy_oncall_flow s a s' :
  Slow.oncall_flow E login hdrs s = (Ret a, s') -> cleans_up E (new_events s s').
Proof.
  unfold Slow.oncall_flow. unfold_slow.
  run_slow; slow_events.
Qed.

End SlowTidy.

(** X11.  The scenarios that create a resource of their own clean up
    after themselves: whenever one of the eight creating scenarios of the
    fast script, or [oncall_flow] of the slow script, returns, every
    resource that one of its requests created in a collection has been
    asked to be deleted by a request of the same run, at the address of
    the collection followed by the identifier that the creation
    answered. *)
Theorem crud_scenarios_delete_what_they_created (E : env) (hdrs : list (string * string))
    (group_id : value) :
  tidy E (Fast.templates_crud E hdrs)
  /\ tidy E (Fast.channels_webhook E hdrs group_id)
  /\ tidy E (Fast.channels_lark E hdrs group_id)
  /\ tidy E (Fast.channels_telegram E hdrs group_id)
  /\ tidy E (Fast.data_sources_crud E hdrs)
  /\ tidy E (Fast.silences_crud E hdrs)
  /\ tidy E (Fast.tickets_crud E hdrs)
  /\ tidy E (Fast.users_crud E hdrs)
  /\ (forall login s a s',
        Slow.oncall_flow E login hdrs s = (Ret a, s') -> cleans_up E (new_events s s')).
Proof.
  split; [apply tidy_templates_crud|]. split; [apply tidy_channels_webhook|].
  split; [apply tidy_channels_lark|]. split; [apply tidy_channels_telegram|].
  split; [apply tidy_data_sources_crud|]. split; [apply tidy_silences_crud|].
  split; [apply tidy_tickets_crud|]. split; [apply tidy_users_crud|].
  intros login s a s'. apply tidy_oncall_flow.
Qed.

Lemma crud_scenarios_delete_what_they_created_witness :
  cleans_up obliging
    (fast_events (Fast.boot 0) (snd (Fast.templates_crud obliging [] (Fast.boot 0)))).
Proof.
  exact (proj1 (crud_scenarios_delete_what_they_created obliging [] PNone)
           (Fast.boot 0) tt _ eq_refl).
Defined.

(** X13.  The loop that ends [batch_import_export] deletes only rules
    that bear the name of the imported rule: the deletions it has asked
    for, however it ends, are those of the rows of the listing with that
    name, in the order of the listing, up to the row at which it stopped,
    and all of them when it returns. *)
Theorem delete_named_deletes_only_the_named (E : env) (hdrs : list (string * string))
    (name : string) (rows : list value) (s : Fast.state) :
  let r := Fast.delete_named E hdrs name rows s in
  deletes_of (fast_events s (snd r)) `prefix_of` omap (rule_to_delete E name) rows
  /\ (forall a, fst r = Ret a ->
      deletes_of (fast_events s (snd r)) = omap (rule_to_delete E name) rows).
Proof.
  destruct (delete_named_events E hdrs name rows s) as (evs & Htr & Hpre & Hret).
  cbv zeta. unfold fast_events. rewrite Htr, drop_app_length. by split.
Qed.

Lemma delete_named_deletes_only_the_named_witness :
  let rows := [PDict [("name", PStr "IT-Rule-c0ffee"); ("id", PInt 7)];
               PDict [("name", PStr "production"); ("id", PInt 8)]] in
  let r := Fast.delete_named obliging [] "IT-Rule-c0ffee" rows (Fast.boot 0) in
  deletes_of (fast_events (Fast.boot 0) (snd r))
    `prefix_of` omap (rule_to_delete obliging "IT-Rule-c0ffee") rows
  /\ (forall a, fst r = Ret a ->
      deletes_of (fast_events (Fast.boot 0) (snd r))
      = omap (rule_to_delete obliging "IT-Rule-c0ffee") rows).
Proof. intros rows. apply delete_named_deletes_only_the_named. Defined.
